(** * MedSpaSync reconciliation API: the transaction match scorer

    A shallow embedding of [medspasync-ai-api-main/app.py]
    ([SimpleFuzzyMatcher.ratio], [MedSpaReconciliationAPI.parse_date],
    [engineer_features], [predict_match], the [/predict], [/batch-predict]
    and [/chatbot] handlers, [KnowledgeBase] and [Chatbot]) together with
    the properties its specification states about it and further
    properties read off the code.

    Modelling conventions.
    - A Python [str] is a [string] whose characters are the code points
      below 256; [lower], [strip] and [split] follow Python on that range.
    - A Python [int] is a [Z].  A Python [float] is the rational it
      denotes, or one of the three non-finite floats ([pyfloat]).  Where the
      rounding of binary64 can decide an answer, an operation returns its
      exact result rounded by [b64]: the arithmetic of [ratio] before
      [int()], [float()] of an [int], and the quotient of the two amounts.  The weighted sum of the features, the boosts, the gap
      between two dates and the percentage of a batch are kept exact: what
      is stated of them are orders and tolerances.
    - A [dict] is a [gmap string value], a [set] of tokens a [gset string].
    - An exception is the [Raise] branch of the [res] monad; [try]/[except]
      is [try_except].
    - The Python runtime functions the module calls but does not define
      ([repr], [float] on a string, [datetime.fromisoformat],
      [datetime.strptime]) are the members of the class [PyRuntime]. *)

From Stdlib Require Import ZArith QArith Qround Qabs Qpower String Ascii List Bool Lia Lqa.
From Stdlib Require Import DecimalString.
From Stdlib Require Import Sorted SpecFloat.
From stdpp Require Import base gmap strings list.

Set Warnings "-register-all".
Local Open Scope string_scope.

(** ** Strings *)

(** [str.isspace] on the code points below 256. *)
Definition py_isspace (c : ascii) : bool :=
  let n := N_of_ascii c in
  ((9 <=? n) && (n <=? 13) || (28 <=? n) && (n <=? 32) || (n =? 133) || (n =? 160))%N.

(** [str.lower] on one character: A-Z and the Latin-1 capitals. *)
Definition lower_char (c : ascii) : ascii :=
  let n := N_of_ascii c in
  if ((65 <=? n) && (n <=? 90) || (192 <=? n) && (n <=? 222) && negb (n =? 215))%N
  then ascii_of_N (n + 32) else c.

Fixpoint lower (s : string) : string :=
  match s with
  | EmptyString => EmptyString
  | String c r => String (lower_char c) (lower r)
  end.

Fixpoint lstrip (s : string) : string :=
  match s with
  | EmptyString => EmptyString
  | String c r => if py_isspace c then lstrip r else s
  end.

Fixpoint rstrip (s : string) : string :=
  match s with
  | EmptyString => EmptyString
  | String c r =>
      match rstrip r with
      | EmptyString => if py_isspace c then EmptyString else String c EmptyString
      | r' => String c r'
      end
  end.

(** [s.strip()] *)
Definition strip (s : string) : string := rstrip (lstrip s).

(** [s.split()]: the maximal runs of non-blank characters, in order. *)
Fixpoint split_ws (s : string) : list string :=
  match s with
  | EmptyString => []
  | String c r =>
      if py_isspace c then split_ws r
      else match r with
           | EmptyString => [String c EmptyString]
           | String c' _ =>
               if py_isspace c' then String c EmptyString :: split_ws r
               else match split_ws r with
                    | w :: ws => String c w :: ws
                    | [] => [String c EmptyString]
                    end
           end
  end.

(** [s.split(sep)] for a one-character separator. *)
Fixpoint split_on (sep : ascii) (s : string) : list string :=
  match s with
  | EmptyString => [EmptyString]
  | String c r =>
      if Ascii.eqb c sep then EmptyString :: split_on sep r
      else match split_on sep r with
           | w :: ws => String c w :: ws
           | [] => [String c EmptyString]
           end
  end.

(** [sub in s] *)
Fixpoint contains (sub s : string) : bool :=
  String.prefix sub s ||
  match s with
  | EmptyString => false
  | String _ r => contains sub r
  end.

(** [c in s] for a character [c] *)
Fixpoint char_in (c : ascii) (s : string) : bool :=
  match s with
  | EmptyString => false
  | String d r => Ascii.eqb c d || char_in c r
  end.

(** [sum(1 for c in s1 if c in s2)] *)
Fixpoint common_chars (s1 s2 : string) : Z :=
  match s1 with
  | EmptyString => 0
  | String c r => (if char_in c s2 then 1 else 0) + common_chars r s2
  end%Z.

Definition len (s : string) : Z := Z.of_nat (String.length s).

(** [not s] *)
Definition str_falsy (s : string) : bool :=
  match s with EmptyString => true | _ => false end.

(** ** Exceptions *)

(** The exception classes the handlers tell apart; [Exception] stands for
    every other class.  [msg] is [str(e)]. *)
Inductive exn :=
| ValueError (msg : string)
| TypeError (msg : string)
| Exception (msg : string).

Definition exn_msg (e : exn) : string :=
  match e with ValueError m | TypeError m | Exception m => m end.

Inductive res (A : Type) :=
| Ok (a : A)
| Raise (e : exn).
Arguments Ok {A} a.
Arguments Raise {A} e.

Definition bind {A B : Type} (c : res A) (k : A -> res B) : res B :=
  match c with
  | Ok a => k a
  | Raise e => Raise e
  end.

(** [try: body / except: handler] with a bare [except] *)
Definition try_except {A : Type} (body : res A) (handler : exn -> res A) : res A :=
  match body with
  | Ok a => Ok a
  | Raise e => handler e
  end.

Declare Scope res_scope.
Delimit Scope res_scope with res.
Notation "'let*' x ':=' c 'in' k" := (bind c (fun x => k))
  (at level 10, x name, c at level 100, k at level 200) : res_scope.
Local Open Scope res_scope.

(** ** Numbers *)

Definition Qltb (x y : Q) : bool := negb (Qle_bool y x).

(** [min(a, b)]: Python keeps [a] unless [b < a]. *)
Definition py_min (a b : Q) : Q := if Qltb b a then b else a.

(** [max(a, b)]: Python keeps [a] unless [b > a]. *)
Definition py_max (a b : Q) : Q := if Qltb a b then b else a.

(** [int(x)]: truncation toward zero. *)
Definition py_int (x : Q) : Z := Z.quot (Qnum x) (Zpos (Qden x)).

(** [a / b] on two ints; a zero divisor raises. *)
Definition true_div (a b : Z) : res Q :=
  if (b =? 0)%Z then Raise (Exception "division by zero")
  else Ok (inject_Z a / inject_Z b)%Q.

(** [round(x)] and [round(x, ndigits)]: to the nearest, ties to even. *)
Definition round_half_even (x : Q) : Z :=
  let f := Qfloor x in
  match (x - inject_Z f ?= 1 # 2)%Q with
  | Lt => f
  | Gt => (f + 1)%Z
  | Eq => if Z.even f then f else (f + 1)%Z
  end.

Definition py_round (x : Q) (ndigits : nat) : Q :=
  let scale := inject_Z (10 ^ Z.of_nat ndigits) in
  Qred (inject_Z (round_half_even (x * scale)) / scale)%Q.

(** A float as a request can carry it: finite, or one of the three
    non-finite values that [float("inf")], [float("nan")] or an overflowing
    JSON literal produce.  A finite float that a request carries is a
    binary64 number; the type does not say so, and what is proved holds of
    every rational. *)
Inductive pyfloat :=
| Finite (q : Q)
| PosInf
| NegInf
| NaN.

(** [a <= b] *)
Definition pf_leb (a b : pyfloat) : bool :=
  match a, b with
  | NaN, _ | _, NaN => false
  | NegInf, _ => true
  | _, PosInf => true
  | Finite x, Finite y => Qle_bool x y
  | _, _ => false
  end.

(** [a < b] *)
Definition pf_ltb (a b : pyfloat) : bool :=
  match a, b with
  | NaN, _ | _, NaN => false
  | PosInf, _ => false
  | _, NegInf => false
  | Finite x, Finite y => Qltb x y
  | _, _ => true
  end.

(** *** binary64 *)

(** [2 ^ k], for a [k] of either sign. *)
Definition pow2 (k : Z) : Q := (2 ^ k)%Q.

(** For [0 < x], the [k] with [2^k <= x < 2^(k+1)]. *)
Definition Qlog2 (x : Q) : Z :=
  let k := (Z.log2 (Qnum x) - Z.log2 (Zpos (Qden x)))%Z in
  if Qle_bool (pow2 k) x then k else (k - 1)%Z.

(** The exponent of the unit in the last place of binary64 at [0 < x]:
    53 significant bits, and [2^-1074] throughout the subnormal range. *)
Definition b64_ulp (x : Q) : Z := Z.max (Qlog2 x - 52) (-1074).

(** [x] rounded to the nearest multiple of [2^e], a tie going to the even
    multiple. *)
Definition round_to (e : Z) (x : Q) : Q :=
  (inject_Z (round_half_even (x / pow2 e)) * pow2 e)%Q.

(** The binary64 number nearest to [x], a tie going to the even
    significand, and an infinity from [2^1024] on: what a float operation
    returns when its exact result is [x].  The sign of a zero is not kept. *)
Definition b64 (x : Q) : pyfloat :=
  match (x ?= 0)%Q with
  | Eq => Finite 0
  | Gt =>
      let q := round_to (b64_ulp x) x in
      if Qle_bool (pow2 1024) q then PosInf else Finite (Qred q)
  | Lt =>
      let q := round_to (b64_ulp (- x)) (- x) in
      if Qle_bool (pow2 1024) q then NegInf else Finite (Qred (- q))
  end.

(** [a + b] on floats *)
Definition pf_add (a b : pyfloat) : pyfloat :=
  match a, b with
  | NaN, _ | _, NaN => NaN
  | PosInf, NegInf | NegInf, PosInf => NaN
  | PosInf, _ | _, PosInf => PosInf
  | NegInf, _ | _, NegInf => NegInf
  | Finite x, Finite y => b64 (x + y)
  end.

(** [a * b] on floats *)
Definition pf_mul (a b : pyfloat) : pyfloat :=
  match a, b with
  | NaN, _ | _, NaN => NaN
  | Finite x, Finite y => b64 (x * y)
  | Finite x, PosInf | PosInf, Finite x =>
      if Qeq_bool x 0 then NaN else if Qltb 0 x then PosInf else NegInf
  | Finite x, NegInf | NegInf, Finite x =>
      if Qeq_bool x 0 then NaN else if Qltb 0 x then NegInf else PosInf
  | PosInf, PosInf | NegInf, NegInf => PosInf
  | PosInf, NegInf | NegInf, PosInf => NegInf
  end.

(** [a / b] on floats; a zero divisor raises. *)
Definition pf_div (a b : pyfloat) : res pyfloat :=
  match b with
  | NaN => Ok NaN
  | Finite y =>
      if Qeq_bool y 0 then Raise (Exception "float division by zero")
      else match a with
           | Finite x => Ok (b64 (x / y))
           | PosInf => Ok (if Qltb 0 y then PosInf else NegInf)
           | NegInf => Ok (if Qltb 0 y then NegInf else PosInf)
           | NaN => Ok NaN
           end
  | PosInf | NegInf =>
      match a with
      | Finite _ => Ok (Finite 0)
      | _ => Ok NaN
      end
  end.

(** [a / b] on two ints, as a float: the exact quotient correctly
    rounded; a zero divisor raises, and so does a quotient too large for a
    float. *)
Definition true_div_b64 (a b : Z) : res pyfloat :=
  if (b =? 0)%Z then Raise (Exception "division by zero")
  else match b64 (inject_Z a / inject_Z b) with
       | Finite q => Ok (Finite q)
       | _ => Raise (Exception "integer division result too large for a float")
       end.

(** [min(a, b)] on floats: Python keeps [a] unless [b < a]. *)
Definition pf_min (a b : pyfloat) : pyfloat := if pf_ltb b a then b else a.

(** [int(x)] on a float *)
Definition pf_int (x : pyfloat) : res Z :=
  match x with
  | Finite q => Ok (py_int q)
  | NaN => Raise (ValueError "cannot convert float NaN to integer")
  | _ => Raise (Exception "cannot convert float infinity to integer")
  end.

(** The binary64 operations of the Standard Library's [SpecFloat], to
    compare [b64] with. *)
Definition SF2pf (f : spec_float) : pyfloat :=
  match f with
  | S754_zero _ => Finite 0
  | S754_infinity s => if s then NegInf else PosInf
  | S754_nan => NaN
  | S754_finite s m e =>
      Finite (Qred ((if s then -1 else 1) * inject_Z (Zpos m) * pow2 e))
  end.

Definition SF_of_Z (z : Z) : spec_float := binary_normalize 53 1024 z 0 false.

(** ** SimpleFuzzyMatcher *)

Definition token_set (s : string) : gset string := list_to_set (split_ws s).

Definition ratio (s1 s2 : string) : res Z :=
  if str_falsy s1 || str_falsy s2 then Ok 0%Z
  else
    let s1 := strip (lower s1) in
    let s2 := strip (lower s2) in
    if String.eqb s1 s2 then Ok 100%Z
    else
      let set1 := token_set s1 in
      let set2 := token_set s2 in
      let intersection := Z.of_nat (size (set1 ∩ set2)) in
      let union := Z.of_nat (size (set1 ∪ set2)) in
      if (union =? 0)%Z then Ok 0%Z
      else
        let* jaccard := true_div_b64 intersection union in
        let jaccard :=
          if contains s1 s2 || contains s2 s1 then pf_add jaccard (b64 (3 # 10))
          else jaccard in
        let common_chars := common_chars s1 s2 in
        let* char_similarity := true_div_b64 common_chars (Z.max (len s1) (len s2)) in
        let final_score :=
          pf_min (Finite 100)
            (pf_mul (pf_add (pf_mul jaccard (b64 (6 # 10)))
                            (pf_mul char_similarity (b64 (4 # 10))))
                    (Finite 100)) in
        pf_int final_score.

(** ** JSON values and the runtime *)

(** What [request.get_json()] can hold. *)
Inductive value :=
| VNone
| VBool (b : bool)
| VInt (z : Z)
| VFloat (f : pyfloat)
| VStr (s : string)
| VList (l : list value)
| VDict (d : gmap string value).

(** The truth value of [v], as [if v] and [not v] take it. *)
Definition truthy (v : value) : bool :=
  match v with
  | VNone => false
  | VBool b => b
  | VInt z => negb (z =? 0)%Z
  | VFloat (Finite q) => negb (Qeq_bool q 0)
  | VFloat _ => true
  | VStr s => negb (str_falsy s)
  | VList l => match l with [] => false | _ => true end
  | VDict d => negb (bool_decide (d = ∅))
  end.

(** [d.get(key, dflt)] *)
Definition dict_get (d : gmap string value) (key : string) (dflt : value) : value :=
  match d !! key with
  | Some v => v
  | None => dflt
  end.

(** A [datetime]; [utcoffset] is [None] on a naive one, else the seconds
    east of UTC. *)
Record datetime := mk_datetime {
  year : Z; month : Z; day : Z;
  hour : Z; minute : Z; second : Z; microsecond : Z;
  utcoffset : option Z
}.

Class PyRuntime := {
  (** [str(v)] for a [v] that is not a [str] *)
  py_repr : value -> string;
  (** [float(s)] for a [str]; [None] when it raises [ValueError] *)
  float_of_str : string -> option pyfloat;
  (** [datetime.fromisoformat(s)] *)
  fromisoformat : string -> res datetime;
  (** [datetime.strptime(s, fmt)] *)
  strptime : string -> string -> res datetime
}.

Section Runtime.
Context `{PyRuntime}.

(** [str(v)] *)
Definition py_str (v : value) : string :=
  match v with
  | VStr s => s
  | _ => py_repr v
  end.

(** [float(v)] *)
Definition py_float (v : value) : res pyfloat :=
  match v with
  | VFloat f => Ok f
  | VInt z =>
      match b64 (inject_Z z) with
      | Finite q => Ok (Finite q)
      | _ => Raise (Exception "int too large to convert to float")
      end
  | VBool b => Ok (Finite (if b then 1 else 0))
  | VStr s =>
      match float_of_str s with
      | Some f => Ok f
      | None => Raise (ValueError "could not convert string to float")
      end
  | VNone | VList _ | VDict _ =>
      Raise (TypeError "float() argument must be a string or a real number")
  end.

End Runtime.

(** *** datetime arithmetic *)

Definition is_leap (y : Z) : bool :=
  ((y mod 4 =? 0) && (negb (y mod 100 =? 0) || (y mod 400 =? 0)))%Z.

Definition days_before_year (y : Z) : Z :=
  let y := (y - 1)%Z in (y * 365 + y / 4 - y / 100 + y / 400)%Z.

Definition days_before_month (y m : Z) : Z :=
  (nth (Z.to_nat m) [0; 0; 31; 59; 90; 120; 151; 181; 212; 243; 273; 304; 334] 0
   + if (2 <? m) && is_leap y then 1 else 0)%Z.

(** [d.toordinal()] *)
Definition toordinal (d : datetime) : Z :=
  (days_before_year (year d) + days_before_month (year d) (month d) + day d)%Z.

(** Microseconds since the start of day 0 on the datetime's own clock. *)
Definition micros (d : datetime) : Z :=
  (((toordinal d * 86400 + hour d * 3600 + minute d * 60 + second d) * 1000000)
   + microsecond d)%Z.

(** [a - b], a [timedelta] counted in microseconds; mixing a naive and an
    aware datetime raises [TypeError]. *)
Definition dt_sub (a b : datetime) : res Z :=
  match utcoffset a, utcoffset b with
  | None, None => Ok (micros a - micros b)%Z
  | Some oa, Some ob =>
      Ok ((micros a - oa * 1000000) - (micros b - ob * 1000000))%Z
  | _, _ => Raise (TypeError "can't subtract offset-naive and offset-aware datetimes")
  end.

(** [td.total_seconds()] *)
Definition total_seconds (td : Z) : Q := (inject_Z td / 1000000)%Q.

(** [str(n)] for a non-negative [int] *)
Definition str_of_int (n : Z) : string := NilZero.string_of_uint (N.to_uint (Z.to_N n)).

Fixpoint zeros (n : nat) : string :=
  match n with
  | O => EmptyString
  | S k => String "0" (zeros k)
  end.

(** [str(n).zfill(width)] *)
Definition zfill (width : nat) (n : Z) : string :=
  let s := str_of_int n in zeros (width - String.length s) ++ s.

(** [d.isoformat()] *)
Definition isoformat (d : datetime) : string :=
  zfill 4 (year d) ++ "-" ++ zfill 2 (month d) ++ "-" ++ zfill 2 (day d) ++ "T"
  ++ zfill 2 (hour d) ++ ":" ++ zfill 2 (minute d) ++ ":" ++ zfill 2 (second d)
  ++ (if (microsecond d =? 0)%Z then "" else "." ++ zfill 6 (microsecond d))
  ++ match utcoffset d with
     | None => ""
     | Some o =>
         let a := Z.abs o in
         (if (o <? 0)%Z then "-" else "+")
         ++ zfill 2 (a / 3600) ++ ":" ++ zfill 2 (a mod 3600 / 60)
         ++ (if (a mod 60 =? 0)%Z then "" else ":" ++ zfill 2 (a mod 60))
     end.

(** ** MedSpaReconciliationAPI *)

Record FeatureVector := mk_features {
  name_similarity : Q;
  service_similarity : Q;
  treatment_category_match : Z;
  date_proximity : Q;
  amount_ratio_valid : Z;
  overall_confidence : Q
}.

Record MatchResult := mk_result {
  match_probability : Q;
  predicted_match : Z;
  confidence_level : string;
  recommendation : string;
  threshold_used : pyfloat;
  feature_analysis : FeatureVector;
  processing_timestamp : string;
  api_version : string
}.

Definition date_formats : list string :=
  ["%Y-%m-%d"; "%m/%d/%Y"; "%d/%m/%Y"; "%m.%d.%y"; "%m-%d-%Y"].

Definition treatment_keywords : list (string * list string) :=
  [("botox", ["botox"; "lyft"; "neurotoxin"; "dysport"; "toxin"; "wrinkle"]);
   ("filler", ["filler"; "juvederm"; "voluma"; "restylane"; "radiesse"; "dermal"]);
   ("coolsculpting", ["coolsculpting"; "body sculpting"; "fat freezing"; "cryo"]);
   ("laser", ["laser"; "ipl"; "photofacial"; "hair removal"; "skin resurfacing"]);
   ("iv", ["iv"; "im"; "injection"; "vitamin"; "b-12"; "wellness"; "hydration"])].

(** [s.replace(a, b)] for two characters *)
Fixpoint replace_char (a b : ascii) (s : string) : string :=
  match s with
  | EmptyString => EmptyString
  | String c r => String (if Ascii.eqb c a then b else c) (replace_char a b r)
  end.

(** [l[0]] *)
Definition index0 {A : Type} (l : list A) : res A :=
  match l with
  | x :: _ => Ok x
  | [] => Raise (Exception "list index out of range")
  end.

(** The loop over [treatment_keywords]: the first category that both
    services match sets the flag and breaks. *)
Fixpoint category_loop (cats : list (string * list string))
    (reward_service pos_service : string) : Z :=
  match cats with
  | [] => 0%Z
  | (_, keywords) :: rest =>
      let reward_match := existsb (fun kw => contains kw reward_service) keywords in
      let pos_match := existsb (fun kw => contains kw pos_service) keywords in
      if reward_match && pos_match then 1%Z
      else category_loop rest reward_service pos_service
  end.

(** Lines 414-421 of [predict_match]: the two boosts. *)
Definition boosted (features : FeatureVector) : Q :=
  let probability := overall_confidence features in
  let probability :=
    if Qltb (8 # 10) (name_similarity features)
       && (treatment_category_match features =? 1)%Z
    then py_min 1 (probability + (2 # 10))%Q else probability in
  if Qltb (8 # 10) (date_proximity features)
  then py_min 1 (probability + (1 # 10))%Q else probability.

(** Lines 423-432 of [predict_match]: confidence level and recommendation. *)
Definition classify (probability : Q) : string * string :=
  if Qle_bool (95 # 100) probability then ("High", "Auto-Accept")
  else if Qle_bool (80 # 100) probability then ("Medium", "Manual Review")
  else ("Low", "Likely No Match").

Section API.
Context `{PyRuntime}.

(** The loop over the formats: the first one that parses is returned. *)
Fixpoint try_formats (date_str : string) (fmts : list string) : res (option datetime) :=
  match fmts with
  | [] => Ok None
  | fmt :: rest =>
      try_except (let* d := strptime date_str fmt in Ok (Some d))
                 (fun _ => try_formats date_str rest)
  end.

Definition parse_date (date_str : value) : res (option datetime) :=
  if negb (truthy date_str) then Ok None
  else
    try_except
      (let date_str := strip (py_str date_str) in
       if char_in "T" date_str || char_in " " date_str then
         let* head := index0 (split_on "." (replace_char "T" " " date_str)) in
         let* d := fromisoformat head in
         Ok (Some d)
       else try_formats date_str date_formats)
      (fun _ => Ok None).

(** Lines 344-348 of [engineer_features]: a point-of-sale name written
    "Last, First" is turned around when the reward name has no comma. *)
Definition reorder_last_first (reward_name pos_name : string) : string :=
  if char_in "," pos_name && negb (char_in "," reward_name) then
    match split_on "," pos_name with
    | [part0; part1] => strip part1 ++ " " ++ strip part0
    | _ => pos_name
    end
  else pos_name.

(** Lines 374-386 of [engineer_features]: the [date_proximity] feature. *)
Definition date_proximity_of (reward_txn pos_txn : gmap string value) : res Q :=
  try_except
    (let* reward_date := parse_date (dict_get reward_txn "date" (VStr "")) in
     let* pos_date := parse_date (dict_get pos_txn "date" (VStr "")) in
     match reward_date, pos_date with
     | Some reward_date, Some pos_date =>
         let* delta := dt_sub reward_date pos_date in
         let hours_diff := Qabs (total_seconds delta / 3600) in
         Ok (py_max 0 (1 - hours_diff / 168))%Q
     | _, _ => Ok 0%Q
     end)
    (fun _ => Ok 0%Q).

(** Lines 388-399 of [engineer_features]: the [amount_ratio_valid] feature. *)
Definition amount_ratio_valid_of (reward_txn pos_txn : gmap string value) : res Z :=
  try_except
    (let* reward_amount := py_float (dict_get reward_txn "amount" (VInt 0)) in
     let* pos_amount := py_float (dict_get pos_txn "amount" (VInt 0)) in
     if pf_ltb (Finite 0) pos_amount then
       let* amount_ratio := pf_div reward_amount pos_amount in
       Ok (if pf_leb (b64 (5 # 100)) amount_ratio && pf_leb amount_ratio (b64 (5 # 10))
           then 1 else 0)%Z
     else Ok 0%Z)
    (fun _ => Ok 0%Z).

Definition engineer_features (reward_txn pos_txn : gmap string value)
    : res FeatureVector :=
  let reward_name := strip (lower (py_str (dict_get reward_txn "customer_name" (VStr "")))) in
  let pos_name := strip (lower (py_str (dict_get pos_txn "customer_name" (VStr "")))) in
  let pos_name := reorder_last_first reward_name pos_name in
  let* name_ratio := ratio reward_name pos_name in
  let name_similarity := (inject_Z name_ratio / 100)%Q in
  let reward_service := lower (py_str (dict_get reward_txn "service" (VStr ""))) in
  let pos_service := lower (py_str (dict_get pos_txn "service" (VStr ""))) in
  let* service_ratio := ratio reward_service pos_service in
  let service_similarity := (inject_Z service_ratio / 100)%Q in
  let treatment_category_match :=
    category_loop treatment_keywords reward_service pos_service in
  let* date_proximity := date_proximity_of reward_txn pos_txn in
  let* amount_ratio_valid := amount_ratio_valid_of reward_txn pos_txn in
  let overall_confidence :=
    (name_similarity * (4 # 10) + service_similarity * (3 # 10)
     + date_proximity * (2 # 10) + inject_Z amount_ratio_valid * (1 # 10))%Q in
  Ok (mk_features name_similarity service_similarity treatment_category_match
        date_proximity amount_ratio_valid overall_confidence).

(** Lines 423-450 of [predict_match]: the dict it returns for a boosted
    [probability]; [now] is what [datetime.now()] returns. *)
Definition build_result (now : datetime) (features : FeatureVector) (probability : Q)
    (threshold : pyfloat) : MatchResult :=
  let '(confidence, recommendation) := classify probability in
  {| match_probability := py_round probability 4;
     predicted_match := if pf_leb threshold (Finite probability) then 1 else 0;
     confidence_level := confidence;
     recommendation := recommendation;
     threshold_used := threshold;
     feature_analysis :=
       {| name_similarity := py_round (name_similarity features) 3;
          service_similarity := py_round (service_similarity features) 3;
          date_proximity := py_round (date_proximity features) 3;
          amount_ratio_valid := amount_ratio_valid features;
          treatment_category_match := treatment_category_match features;
          overall_confidence := py_round (overall_confidence features) 3 |};
     processing_timestamp := isoformat now;
     api_version := "1.0.0-final-cors-fixed" |}.

(** [now] is what [datetime.now()] returns during the call. *)
Definition predict_match (now : datetime) (reward_txn pos_txn : gmap string value)
    (threshold : pyfloat) : res MatchResult :=
  let* features := engineer_features reward_txn pos_txn in
  let probability := boosted features in
  Ok (build_result now features probability threshold).

End API.

(** ** The [/batch-predict] handler *)

(** The entry appended when scoring a pair raised. *)
Record ErrorEntry := mk_error_entry {
  err_pair_index : Z;
  err_error : string;
  err_match_probability : Q;
  err_confidence_level : string;
  err_recommendation : string
}.

(** One slot of [results]: a [MatchResult] with its [pair_index], or an
    error entry. *)
Inductive batch_entry :=
| Scored (pair_index : Z) (result : MatchResult)
| Failed (entry : ErrorEntry).

Record Summary := mk_summary {
  total : Z;
  auto_accept : Z;
  manual_review : Z;
  likely_no_match : Z;
  auto_accept_rate_percent : Z
}.

Record ProcessingInfo := mk_info {
  total_pairs : Z;
  successful_predictions : Z;
  info_threshold_used : pyfloat;
  info_api_version : string
}.

(** What the handler returns: the body of a 200 response, or a status with
    an error message and an error code. *)
Inductive response :=
| Success (results : list batch_entry) (summary : Summary) (processing_info : ProcessingInfo)
| Failure (status : Z) (error : string) (code : string).

(** [api.predict_match], as the handler sees it: a callable that may raise. *)
Definition scorer : Type :=
  datetime -> gmap string value -> gmap string value -> pyfloat -> res MatchResult.

(** [r.get('recommendation')] *)
Definition entry_recommendation (r : batch_entry) : string :=
  match r with
  | Scored _ result => recommendation result
  | Failed entry => err_recommendation entry
  end.

(** ['error' not in r] *)
Definition no_error (r : batch_entry) : bool :=
  match r with
  | Scored _ _ => true
  | Failed _ => false
  end.

(** [sum(1 for r in results if r.get('recommendation') == label)] *)
Definition count_recommendation (label : string) (results : list batch_entry) : Z :=
  Z.of_nat (length (filter (fun r => String.eqb (entry_recommendation r) label) results)).

(** [try: body / except (TypeError, ValueError): handler] *)
Definition try_except_tv {A : Type} (body : res A) (handler : exn -> res A) : res A :=
  match body with
  | Ok a => Ok a
  | Raise (Exception m) => Raise (Exception m)
  | Raise e => handler e
  end.

Definition required_fields : list string := ["customer_name"; "service"; "amount"; "date"].

(** [for field in [...]: if field not in tx: raise ValueError(...)] *)
Fixpoint require_fields (tx : gmap string value) (name : string) (fields : list string)
    : res unit :=
  match fields with
  | [] => Ok tt
  | field :: rest =>
      match tx !! field with
      | None => Raise (ValueError (name ++ "." ++ field ++ " is required"))
      | Some _ => require_fields tx name rest
      end
  end.

Section Handlers.
Context `{PyRuntime}.

(** The checks on one transaction of a pair; the returned dict is [tx]
    after [tx['amount'] = float(tx['amount'])]. *)
Definition validate_tx (tx : gmap string value) (name : string)
    : res (gmap string value) :=
  let* _ := require_fields tx name required_fields in
  let* raw :=
    match tx !! "amount" with
    | Some v => Ok v
    | None => Raise (Exception "'amount'")
    end in
  let* amount :=
    try_except_tv (py_float raw)
      (fun _ => Raise (ValueError (name ++ ".amount must be a number"))) in
  Ok (<["amount" := VFloat amount]> tx).

(** The checks the loop makes on [transaction_pairs[i]] before it scores
    it; the pair returned holds the two transactions as [predict_match]
    receives them. *)
Definition check_pair (i : nat) (pair_i : value)
    : res (gmap string value * gmap string value) :=
  let idx := str_of_int (Z.of_nat i) in
  let* pair_i :=
    match pair_i with
    | VDict d => Ok d
    | _ => Raise (ValueError ("transaction_pairs[" ++ idx ++ "] must be an object"))
    end in
  let reward_txn := dict_get pair_i "reward_transaction" VNone in
  let pos_txn := dict_get pair_i "pos_transaction" VNone in
  match reward_txn, pos_txn with
  | VDict reward_txn, VDict pos_txn =>
      let* reward_txn := validate_tx reward_txn ("reward_transaction[" ++ idx ++ "]") in
      let* pos_txn := validate_tx pos_txn ("pos_transaction[" ++ idx ++ "]") in
      Ok (reward_txn, pos_txn)
  | _, _ =>
      Raise (ValueError ("transaction_pairs[" ++ idx ++ "] transactions must be objects"))
  end.

(** The inner [try]/[except Exception] around [api.predict_match]: the
    entry appended for pair [i].  [now] is what [datetime.now()] returns
    while the pair is scored. *)
Definition score_pair (score : scorer) (now : datetime) (threshold : pyfloat)
    (i : nat) (reward_txn pos_txn : gmap string value) : batch_entry :=
  match score now reward_txn pos_txn threshold with
  | Ok result => Scored (Z.of_nat i) result
  | Raise e =>
      Failed {| err_pair_index := Z.of_nat i;
                err_error := exn_msg e;
                err_match_probability := 0;
                err_confidence_level := "Error";
                err_recommendation := "Manual Review Required" |}
  end.

(** The [for i, pair in enumerate(transaction_pairs)] loop from index [i]
    on, with the [results] collected so far. *)
Fixpoint batch_loop (score : scorer) (clock : nat -> datetime) (threshold : pyfloat)
    (i : nat) (pairs : list value) (results : list batch_entry)
    : res (list batch_entry) :=
  match pairs with
  | [] => Ok results
  | pair_i :: rest =>
      let* txns := check_pair i pair_i in
      let entry := score_pair score (clock i) threshold i (fst txns) (snd txns) in
      batch_loop score clock threshold (S i) rest (results ++ [entry])
  end.

(** The [try] block of the handler. *)
Definition batch_body (score : scorer) (clock : nat -> datetime) (data : value)
    : res response :=
  if negb (truthy data) then Raise (ValueError "No JSON data provided")
  else
    let* data :=
      match data with
      | VDict d => Ok d
      | _ => Raise (Exception "object has no attribute 'get'")
      end in
    let transaction_pairs := dict_get data "transaction_pairs" VNone in
    let threshold := dict_get data "threshold" (VFloat (Finite (95 # 100))) in
    let* transaction_pairs :=
      match transaction_pairs with
      | VList l => Ok l
      | _ => Raise (ValueError "transaction_pairs must be a list")
      end in
    let* threshold :=
      try_except_tv (py_float threshold)
        (fun _ => Raise (ValueError "threshold must be a number")) in
    if negb (pf_leb (Finite 0) threshold && pf_leb threshold (Finite 1))
    then Raise (ValueError "threshold must be between 0 and 1")
    else
      let* results := batch_loop score clock threshold 0 transaction_pairs [] in
      let auto_accept := count_recommendation "Auto-Accept" results in
      let manual_review := count_recommendation "Manual Review" results in
      let likely_no_match := count_recommendation "Likely No Match" results in
      let* rate :=
        match results with
        | [] => Ok 0%Z
        | _ =>
            let* share := true_div auto_accept (Z.of_nat (length results)) in
            Ok (round_half_even (share * 100))
        end in
      Ok (Success results
            {| total := Z.of_nat (length results);
               auto_accept := auto_accept;
               manual_review := manual_review;
               likely_no_match := likely_no_match;
               auto_accept_rate_percent := rate |}
            {| total_pairs := Z.of_nat (length transaction_pairs);
               successful_predictions := Z.of_nat (length (filter no_error results));
               info_threshold_used := threshold;
               info_api_version := "1.0.0-final-cors-fixed" |}).

(** The handler: [api] is the module's global, [None] when its
    construction failed. *)
Definition batch_predict (api : option scorer) (clock : nat -> datetime) (data : value)
    : response :=
  match api with
  | None => Failure 503 "Model not loaded" "model_unavailable"
  | Some score =>
      match batch_body score clock data with
      | Ok r => r
      | Raise (ValueError msg) => Failure 400 msg "validation_error"
      | Raise _ => Failure 500 "Internal server error" "internal_server_error"
      end
  end.

End Handlers.

(** ** A runtime to evaluate the model with

    [sample_runtime] reads the decimal and date literals that the examples
    below contain the way CPython does; on the literals it does not cover
    (exponents, time zones, fractions of a second) it raises. *)

Definition digit_val (c : ascii) : option Z :=
  let n := N_of_ascii c in
  if ((48 <=? n) && (n <=? 57))%N then Some (Z.of_N n - 48)%Z else None.

(** Exactly [k] decimal digits at the head of [s]. *)
Fixpoint digits (k : nat) (acc : Z) (s : string) : option (Z * string) :=
  match k with
  | O => Some (acc, s)
  | S k' =>
      match s with
      | EmptyString => None
      | String c r => v ← digit_val c; digits k' (acc * 10 + v)%Z r
      end
  end.

Definition expect (c : ascii) (s : string) : option string :=
  match s with
  | String c' r => if Ascii.eqb c c' then Some r else None
  | EmptyString => None
  end.

Definition days_in_month (y m : Z) : Z :=
  if (m =? 2)%Z then (if is_leap y then 29 else 28)%Z
  else if ((m =? 4) || (m =? 6) || (m =? 9) || (m =? 11))%Z then 30%Z else 31%Z.

(** [datetime(y, m, d, hh, mm, ss)], with its range checks. *)
Definition make_datetime (y m d hh mm ss : Z) : option datetime :=
  if ((1 <=? y) && (y <=? 9999) && (1 <=? m) && (m <=? 12)
      && (1 <=? d) && (d <=? days_in_month y m)
      && (0 <=? hh) && (hh <? 24) && (0 <=? mm) && (mm <? 60)
      && (0 <=? ss) && (ss <? 60))%Z
  then Some (mk_datetime y m d hh mm ss 0 None) else None.

(** A month or day field of [strptime]: two digits when they form a value
    up to [hi], else one non-zero digit. *)
Definition one_or_two {A : Type} (hi : Z) (k : Z -> string -> option A) (s : string)
    : option A :=
  let two :=
    '(v, r) ← digits 2 0 s;
    if ((1 <=? v) && (v <=? hi))%Z then k v r else None in
  match two with
  | Some a => Some a
  | None =>
      '(v, r) ← digits 1 0 s;
      if (1 <=? v)%Z then k v r else None
  end.

(** Matches [s] against a format made of [%Y], [%y], [%m], [%d] and
    literal characters; the fields read so far are [ymd]. *)
Fixpoint scan (fmt s : string) (ymd : Z * Z * Z) : option (Z * Z * Z) :=
  match fmt with
  | EmptyString => if str_falsy s then Some ymd else None
  | String "%" (String k fmt') =>
      let '(y, m, d) := ymd in
      if Ascii.eqb k "Y" then
        '(v, r) ← digits 4 0 s; scan fmt' r (v, m, d)
      else if Ascii.eqb k "y" then
        '(v, r) ← digits 2 0 s;
        scan fmt' r ((if v <=? 68 then 2000 + v else 1900 + v)%Z, m, d)
      else if Ascii.eqb k "m" then one_or_two 12 (fun v r => scan fmt' r (y, v, d)) s
      else if Ascii.eqb k "d" then one_or_two 31 (fun v r => scan fmt' r (y, m, v)) s
      else None
  | String c fmt' =>
      r ← expect c s; scan fmt' r ymd
  end.

Definition of_option {A : Type} (msg : string) (o : option A) : res A :=
  match o with
  | Some a => Ok a
  | None => Raise (ValueError msg)
  end.

Definition sample_strptime (s fmt : string) : res datetime :=
  of_option "time data does not match format"
    ('(y, m, d) ← scan fmt s (1900, 1, 1)%Z; make_datetime y m d 0 0 0).

(** [YYYY-MM-DD], optionally followed by one separator and [HH:MM] or
    [HH:MM:SS]. *)
Definition sample_fromisoformat (s : string) : res datetime :=
  of_option "Invalid isoformat string"
    ('(y, s) ← digits 4 0 s; s ← expect "-" s;
     '(m, s) ← digits 2 0 s; s ← expect "-" s;
     '(d, s) ← digits 2 0 s;
     match s with
     | EmptyString => make_datetime y m d 0 0 0
     | String _ s =>
         '(hh, s) ← digits 2 0 s; s ← expect ":" s;
         '(mm, s) ← digits 2 0 s;
         match s with
         | EmptyString => make_datetime y m d hh mm 0
         | _ =>
             s ← expect ":" s;
             '(ss, s) ← digits 2 0 s;
             if str_falsy s then make_datetime y m d hh mm ss else None
         end
     end).

(** The digits of an unsigned decimal literal, as the integer they spell
    and how many there are. *)
Fixpoint decimal_digits (s : string) (acc : Z) (n : nat) : option (Z * nat * string) :=
  match s with
  | EmptyString => Some (acc, n, s)
  | String c r =>
      match digit_val c with
      | Some v => decimal_digits r (acc * 10 + v)%Z (S n)
      | None => Some (acc, n, s)
      end
  end.

(** [float(s)] on [digits] or [digits.digits], with an optional sign: the
    decimal number, correctly rounded. *)
Definition sample_float_of_str (s : string) : option pyfloat :=
  let s := strip s in
  let '(sign, s) :=
    match s with
    | String "-" r => ((-1)%Z, r)
    | String "+" r => (1%Z, r)
    | _ => (1%Z, s)
    end in
  '(whole, n, s) ← decimal_digits s 0 0;
  if (n =? 0)%nat then None
  else
    match s with
    | EmptyString => Some (b64 (inject_Z (sign * whole)))
    | String "." r =>
        '(frac, k, r) ← decimal_digits r 0 0;
        if str_falsy r
        then Some (b64 (inject_Z sign
                        * (inject_Z whole + inject_Z frac / inject_Z (10 ^ Z.of_nat k))))
        else None
    | _ => None
    end.

(** [str(v)] for [None], a [bool] or an [int]; the empty string stands in
    for the other values, which the sample requests never print. *)
Definition sample_repr (v : value) : string :=
  match v with
  | VNone => "None"
  | VBool true => "True"
  | VBool false => "False"
  | VInt z => if (z <? 0)%Z then "-" ++ str_of_int (- z) else str_of_int z
  | _ => ""
  end.

Definition sample_runtime : PyRuntime := {|
  py_repr := sample_repr;
  float_of_str := sample_float_of_str;
  fromisoformat := sample_fromisoformat;
  strptime := sample_strptime
|}.

(** ** Sample requests *)

(** [{'customer_name': .., 'service': .., 'amount': .., 'date': ..}] *)
Definition txn (customer_name service : string) (amount : Q) (date : string)
    : gmap string value :=
  <["customer_name" := VStr customer_name]>
    (<["service" := VStr service]>
       (<["amount" := VFloat (Finite amount)]>
          (<["date" := VStr date]> ∅))).

(** The pair that the [/test] endpoint scores. *)
Definition sample_reward : gmap string value :=
  txn "Sarah Johnson" "Botox Treatment" 35 "2024-08-15".

Definition sample_pos : gmap string value :=
  txn "Johnson, Sarah" "Neurotoxin Injection" 350 "2024-08-15 14:30:00".

(** The default of [predict_match]'s [threshold] parameter. *)
Definition default_threshold : pyfloat := Finite (95 # 100).

Definition noon : datetime := mk_datetime 2024 8 16 12 0 0 0 None.
Definition noon_later : datetime := mk_datetime 2024 8 16 12 0 0 250 None.

(** The sample pair without its [date] fields. *)
Definition dateless_reward : gmap string value := delete "date" sample_reward.
Definition dateless_pos : gmap string value := delete "date" sample_pos.

(** The defaults that [engineer_features] reads an absent field as. *)
Definition field_defaults : gmap string value :=
  <["customer_name" := VStr ""]>
    (<["service" := VStr ""]> (<["amount" := VInt 0]> (<["date" := VStr ""]> ∅))).

(** [tx] with every absent field set to its default. *)
Definition with_defaults (tx : gmap string value) : gmap string value :=
  tx ∪ field_defaults.

(** [{'reward_transaction': r, 'pos_transaction': p}] *)
Definition pair_of (r p : gmap string value) : value :=
  VDict (<["reward_transaction" := VDict r]> (<["pos_transaction" := VDict p]> ∅)).

(** [{'transaction_pairs': pairs}] *)
Definition batch_request (pairs : list value) : gmap string value :=
  <["transaction_pairs" := VList pairs]> ∅.

(** A batch of two pairs: the sample pair, and the sample pair again with
    [service] missing from its point-of-sale record. *)
Definition sample_batch : gmap string value :=
  batch_request [pair_of sample_reward sample_pos;
                 pair_of sample_reward (delete "service" sample_pos)].

(** The sample pair with int amounts that [float()] has to round:
    [2^53 + 1] becomes [2^53]. *)
Definition rounded_reward : gmap string value :=
  <["amount" := VInt (2 ^ 53 + 1)]> sample_reward.
Definition rounded_pos : gmap string value :=
  <["amount" := VInt (2 ^ 54)]> sample_pos.


(** A batch whose first pair carries an int amount too large for a float and
    whose second pair lacks [service] in its point-of-sale record. *)
Definition sample_batch_overflow : gmap string value :=
  batch_request [pair_of (<["amount" := VInt (10 ^ 400)]> sample_reward) sample_pos;
                 pair_of sample_reward (delete "service" sample_pos)].

(** A batch with the sample pair alone. *)
Definition sample_batch_ok : gmap string value :=
  batch_request [pair_of sample_reward sample_pos].

(** ** The similarity formula as the specification words it *)

Definition clamp (lo hi x : Z) : Z := Z.max lo (Z.min hi x).

(** Lower-casing and trimming. *)
Definition normalize (s : string) : string := strip (lower s).

(** Intersection over union of the token sets, plus a flat 0.3 when one
    string is a substring of the other. *)
Definition spec_jaccard_with_bonus (a b : string) : Q :=
  let jaccard :=
    (inject_Z (Z.of_nat (size (token_set a ∩ token_set b)))
     / inject_Z (Z.of_nat (size (token_set a ∪ token_set b))))%Q in
  (jaccard + if contains a b || contains b a then 3 # 10 else 0)%Q.

(** The characters of [a] that appear anywhere in [b], over the longer
    string's length. *)
Definition spec_char_overlap (a b : string) : Q :=
  (inject_Z (common_chars a b) / inject_Z (Z.max (len a) (len b)))%Q.

(** [clamp(0, 100, rounding(100 * (0.6 * jaccard_with_bonus + 0.4 * char_overlap)))]
    on the normalised strings, for a given way of [rounding] to an integer. *)
Definition spec_similarity (rounding : Q -> Z) (a b : string) : Z :=
  let a := normalize a in
  let b := normalize b in
  clamp 0 100
    (rounding (100 * ((6 # 10) * spec_jaccard_with_bonus a b
                      + (4 # 10) * spec_char_overlap a b))%Q).

(** The least and the greatest quotient that binary64 rounds into the band
    from 0.05 to 0.5: half a unit in the last place below the float 0.05,
    and half a unit above 0.5. *)
Definition band_low : Q := 14411518807585587 # 288230376151711744.
Definition band_high : Q := 9007199254740993 # 18014398509481984.

(** The same formula with the arithmetic of binary64: each division,
    addition and multiplication returns its exact result rounded. *)
Definition spec_jaccard_with_bonus_b64 (a b : string) : pyfloat :=
  let jaccard :=
    b64 (inject_Z (Z.of_nat (size (token_set a ∩ token_set b)))
         / inject_Z (Z.of_nat (size (token_set a ∪ token_set b)))) in
  if contains a b || contains b a then pf_add jaccard (b64 (3 # 10)) else jaccard.

Definition spec_char_overlap_b64 (a b : string) : pyfloat :=
  b64 (inject_Z (common_chars a b) / inject_Z (Z.max (len a) (len b))).

(** [100 * (0.6 * jaccard_with_bonus + 0.4 * char_overlap)] in binary64 *)
Definition spec_score_b64 (a b : string) : pyfloat :=
  pf_mul (Finite 100)
    (pf_add (pf_mul (b64 (6 # 10)) (spec_jaccard_with_bonus_b64 a b))
            (pf_mul (b64 (4 # 10)) (spec_char_overlap_b64 a b))).

(** [clamp(0, 100, rounding(score))] for the binary64 score of the
    normalised strings; [None] if that score were not finite. *)
Definition spec_similarity_b64 (rounding : Q -> Z) (a b : string) : option Z :=
  match spec_score_b64 (normalize a) (normalize b) with
  | Finite x => Some (clamp 0 100 (rounding x))
  | _ => None
  end.

(** ** The [/predict] handler *)

(** What the handler returns: the result of a 200 response, or a status
    with an error message and an error code. *)
Inductive predict_response :=
| PredictOk (result : MatchResult)
| PredictFailure (status : Z) (error : string) (code : string).

Section PredictHandler.
Context `{PyRuntime}.

(** The [try] block of the handler; [now] is what [datetime.now()] returns
    while the pair is scored. *)
Definition predict_body (score : scorer) (now : datetime) (data : value)
    : res MatchResult :=
  if negb (truthy data) then Raise (ValueError "No JSON data provided")
  else
    let* data :=
      match data with
      | VDict d => Ok d
      | _ => Raise (Exception "object has no attribute 'get'")
      end in
    let reward_txn := dict_get data "reward_transaction" VNone in
    let pos_txn := dict_get data "pos_transaction" VNone in
    let threshold := dict_get data "threshold" (VFloat (Finite (95 # 100))) in
    match reward_txn, pos_txn with
    | VDict reward_txn, VDict pos_txn =>
        let* reward_txn := validate_tx reward_txn "reward_transaction" in
        let* pos_txn := validate_tx pos_txn "pos_transaction" in
        let* threshold :=
          try_except_tv (py_float threshold)
            (fun _ => Raise (ValueError "threshold must be a number")) in
        if negb (pf_leb (Finite 0) threshold && pf_leb threshold (Finite 1))
        then Raise (ValueError "threshold must be between 0 and 1")
        else score now reward_txn pos_txn threshold
    | _, _ =>
        Raise (ValueError "reward_transaction and pos_transaction must be objects")
    end.

(** The route function [predict_match] of [/predict]. *)
Definition predict_match_route (api : option scorer) (now : datetime) (data : value)
    : predict_response :=
  match api with
  | None => PredictFailure 503 "Model not loaded" "model_unavailable"
  | Some score =>
      match predict_body score now data with
      | Ok result => PredictOk result
      | Raise (ValueError msg) => PredictFailure 400 msg "validation_error"
      | Raise _ => PredictFailure 500 "Internal server error" "internal_server_error"
      end
  end.

End PredictHandler.

(** ** KnowledgeBase and Chatbot *)

Record document := mk_document {
  filepath : string;
  content : string
}.

(** An entry of [results] in [KnowledgeBase.search]. *)
Record search_result := mk_search_result {
  r_score : Z;
  r_filepath : string;
  r_content : string
}.

(** [KnowledgeBase.load_document] *)
Definition load_document (documents : list document) (path text : string)
    : list document :=
  (documents ++ [mk_document path text])%list.

(** [sum(1 for word in query_words if word in text)] *)
Definition count_words (query_words : list string) (text : string) : Z :=
  Z.of_nat (length (filter (fun word => contains word text) query_words)).

(** One step of a stable sort by decreasing score: [r], which came before
    every entry of [sorted], goes in front of the first entry whose score is
    not greater than its own. *)
Fixpoint insert_by_score (r : search_result) (sorted : list search_result)
    : list search_result :=
  match sorted with
  | [] => [r]
  | x :: rest =>
      if (r_score r <? r_score x)%Z then x :: insert_by_score r rest
      else r :: sorted
  end.

(** [results.sort(key=lambda x: x['score'], reverse=True)] *)
Definition sort_by_score (results : list search_result) : list search_result :=
  foldr insert_by_score [] results.

(** [l[:n]] *)
Definition slice_to {A : Type} (n : Z) (l : list A) : list A :=
  if (0 <=? n)%Z then firstn (Z.to_nat n) l
  else firstn (length l - Z.to_nat (- n)) l.

(** The loop of [KnowledgeBase.search] over the documents. *)
Fixpoint score_documents (query_words : list string) (documents : list document)
    : list search_result :=
  match documents with
  | [] => []
  | doc :: rest =>
      let score := count_words query_words (lower (content doc)) in
      if (0 <? score)%Z
      then mk_search_result score (filepath doc) (content doc)
           :: score_documents query_words rest
      else score_documents query_words rest
  end.

(** [KnowledgeBase.search] *)
Definition search (documents : list document) (query : string) (top_n : Z)
    : list search_result :=
  let query_words := split_ws (lower query) in
  let results := score_documents query_words documents in
  slice_to top_n (sort_by_score results).

(** [l[-1]] *)
Definition index_last {A : Type} (l : list A) : res A :=
  match rev l with
  | x :: _ => Ok x
  | [] => Raise (Exception "list index out of range")
  end.

(** [sep.join(l)] *)
Fixpoint join (sep : string) (l : list string) : string :=
  match l with
  | [] => EmptyString
  | [x] => x
  | x :: rest => x ++ sep ++ join sep rest
  end.

Definition newline : string := String "010" EmptyString.
Definition double_quote : string := String "034" EmptyString.

Definition no_information : string :=
  "I'm sorry, I couldn't find relevant information in my knowledge base. Can you please rephrase your question?".

(** [[doc['filepath'].split('/')[-1] for doc in relevant_docs]] *)
Fixpoint file_names (relevant_docs : list search_result) : res (list string) :=
  match relevant_docs with
  | [] => Ok []
  | doc :: rest =>
      let* name := index_last (split_on "/" (r_filepath doc)) in
      let* names := file_names rest in
      Ok (name :: names)
  end.

(** [Chatbot.generate_response] on a [str] query *)
Definition generate_response (documents : list document) (query : string) : res string :=
  let relevant_docs := search documents query 3 in
  match relevant_docs with
  | [] => Ok no_information
  | _ =>
      let* names := file_names relevant_docs in
      Ok ("Based on the documentation, regarding " ++ double_quote ++ query ++ double_quote
          ++ ", I found the following information:" ++ newline ++ newline
          ++ "Relevant documents: " ++ join ", " names ++ "." ++ newline ++ newline
          ++ "Please refer to the documentation for more details. If you have a specific question about this information, let me know!")
  end.

(** What [/chatbot] returns. *)
Inductive chat_response :=
| ChatOk (response : string)
| ChatFailure (status : Z) (error : string) (code : string).

(** ['query' in data] *)
Definition has_query (data : value) : res bool :=
  match data with
  | VDict d => Ok (match d !! "query" with Some _ => true | None => false end)
  | VList l =>
      Ok (existsb (fun v => match v with VStr s => String.eqb s "query" | _ => false end) l)
  | VStr s => Ok (contains "query" s)
  | _ => Raise (TypeError "argument is not iterable")
  end.

(** [data['query']] *)
Definition get_query (data : value) : res value :=
  match data with
  | VDict d =>
      match d !! "query" with
      | Some v => Ok v
      | None => Raise (Exception "'query'")
      end
  | _ => Raise (TypeError "indices must be integers")
  end.

(** The [try] block of [chatbot_query]; the query reaches
    [query.lower()] in [KnowledgeBase.search], which only a [str] has. *)
Definition chatbot_body (documents : list document) (data : value) : res string :=
  if negb (truthy data) then Raise (ValueError "No query provided")
  else
    let* present := has_query data in
    if negb present then Raise (ValueError "No query provided")
    else
      let* user_query := get_query data in
      match user_query with
      | VStr query => generate_response documents query
      | _ => Raise (Exception "object has no attribute 'lower'")
      end.

Definition chatbot_query (documents : list document) (data : value) : chat_response :=
  match chatbot_body documents data with
  | Ok response => ChatOk response
  | Raise (ValueError msg) => ChatFailure 400 msg "validation_error"
  | Raise _ => ChatFailure 500 "Internal server error" "internal_server_error"
  end.

(** Two documents and a request, to evaluate the chatbot on. *)
Definition sample_documents : list document :=
  load_document
    (load_document [] "docs/README.md" "MedSpaSync Pro reconciles reward and POS transactions.")
    "docs/guides/DEPLOYMENT.md" "Deployment of the reconciliation API on Railway.".

Definition sample_chat : value :=
  VDict (<["query" := VStr "Deployment of reconciliation transactions"]> ∅).

(** [{'reward_transaction': r, 'pos_transaction': p}], the body of a
    [/predict] request and one pair of a batch. *)
Definition predict_request (r p : gmap string value) : gmap string value :=
  <["reward_transaction" := VDict r]> (<["pos_transaction" := VDict p]> ∅).

(** [d] with ['threshold': t]. *)
Definition with_threshold (t : Q) (d : gmap string value) : gmap string value :=
  <["threshold" := VFloat (Finite t)]> d.

Definition sample_request : gmap string value :=
  predict_request sample_reward sample_pos.

(** The sample pair without the reward record's [service]. *)
Definition incomplete_request : gmap string value :=
  predict_request (delete "service" sample_reward) sample_pos.

(** * Properties *)

(** ** Numbers *)

Lemma Qltb_lt (x y : Q) : Qltb x y = true <-> (x < y)%Q.
Proof.
  unfold Qltb. rewrite negb_true_iff. split.
  - intros Hb. apply Qnot_le_lt. intros Hle.
    apply Qle_bool_iff in Hle. congruence.
  - intros Hlt. destruct (Qle_bool y x) eqn:Hb; [|reflexivity].
    apply Qle_bool_iff in Hb. exfalso. apply (Qlt_not_le _ _ Hlt Hb).
Qed.

Lemma Qltb_ge (x y : Q) : Qltb x y = false <-> (y <= x)%Q.
Proof.
  unfold Qltb. rewrite negb_false_iff. apply Qle_bool_iff.
Qed.

Lemma py_min_spec (a b : Q) :
  (py_min a b <= a /\ py_min a b <= b /\ (py_min a b == a \/ py_min a b == b))%Q.
Proof.
  unfold py_min. destruct (Qltb b a) eqn:Hlt.
  - apply Qltb_lt in Hlt. repeat split; [lra | lra | right; reflexivity].
  - apply Qltb_ge in Hlt. repeat split; [lra | lra | left; reflexivity].
Qed.

Lemma py_max_spec (a b : Q) :
  (a <= py_max a b /\ b <= py_max a b /\ (py_max a b == a \/ py_max a b == b))%Q.
Proof.
  unfold py_max. destruct (Qltb a b) eqn:Hlt.
  - apply Qltb_lt in Hlt. repeat split; [lra | lra | right; reflexivity].
  - apply Qltb_ge in Hlt. repeat split; [lra | lra | left; reflexivity].
Qed.

(** On a non-negative number [int()] is the floor. *)
Lemma py_int_floor (x : Q) : (0 <= x)%Q -> py_int x = Qfloor x.
Proof.
  intros Hx. destruct x as [n d]. unfold py_int, Qfloor. simpl.
  apply Z.quot_div_nonneg; [|lia].
  unfold Qle in Hx. simpl in Hx. lia.
Qed.

Lemma Qfloor_between (x : Q) (lo hi : Z) :
  (inject_Z lo <= x)%Q -> (x <= inject_Z hi)%Q -> (lo <= Qfloor x <= hi)%Z.
Proof.
  intros Hlo Hhi. split.
  - rewrite <- (Qfloor_Z lo). apply Qfloor_resp_le, Hlo.
  - rewrite <- (Qfloor_Z hi). apply Qfloor_resp_le, Hhi.
Qed.

Lemma true_div_ok (a b : Z) :
  b <> 0%Z -> true_div a b = Ok (inject_Z a / inject_Z b)%Q.
Proof.
  intros Hb. unfold true_div. destruct (Z.eqb_spec b 0); [contradiction | reflexivity].
Qed.

Lemma Qdiv_Z_nonneg (a b : Z) :
  (0 <= a)%Z -> (0 <= b)%Z -> (0 <= inject_Z a / inject_Z b)%Q.
Proof.
  intros Ha Hb. unfold Qdiv. apply Qmult_le_0_compat.
  - change 0%Q with (inject_Z 0). rewrite <- Zle_Qle. exact Ha.
  - apply Qinv_le_0_compat. change 0%Q with (inject_Z 0). rewrite <- Zle_Qle. exact Hb.
Qed.

Lemma round_half_even_between (x : Q) (hi : Z) :
  (0 <= x)%Q -> (x <= inject_Z hi)%Q -> (0 <= round_half_even x <= hi)%Z.
Proof.
  intros Hlo Hhi.
  assert (Hf : (0 <= Qfloor x <= hi)%Z) by (apply Qfloor_between; assumption).
  unfold round_half_even.
  destruct (Z.eq_dec (Qfloor x) hi) as [Heq | Hne].
  - assert (Hx : (x - inject_Z (Qfloor x) <= 0)%Q) by (rewrite Heq; lra).
    destruct (Qcompare_spec (x - inject_Z (Qfloor x)) (1 # 2)) as [He | Hl | Hg];
      [lra | lia | lra].
  - destruct (x - inject_Z (Qfloor x) ?= 1 # 2)%Q; [destruct (Z.even _) | |]; lia.
Qed.

(** Rounding to an integer moves a number by at most one half. *)
Lemma round_half_even_error (y : Q) :
  (Qabs (inject_Z (round_half_even y) - y) <= 1 # 2)%Q.
Proof.
  pose proof (Qfloor_le y) as Hlo. pose proof (Qlt_floor y) as Hhi.
  unfold round_half_even. set (f := Qfloor y) in *.
  rewrite inject_Z_plus in Hhi. change (inject_Z 1) with 1%Q in Hhi.
  apply Qabs_case; intros _;
    destruct (Qcompare_spec (y - inject_Z f) (1 # 2)) as [He | Hl | Hg];
    try destruct (Z.even f);
    rewrite ?inject_Z_plus; change (inject_Z 1) with 1%Q; lra.
Qed.

Lemma py_round_unit (x : Q) (ndigits : nat) :
  (0 <= x <= 1)%Q -> (0 <= py_round x ndigits <= 1)%Q.
Proof.
  intros [Hlo Hhi]. unfold py_round. rewrite Qred_correct.
  set (s := (10 ^ Z.of_nat ndigits)%Z).
  assert (Hs : (0 < s)%Z) by (apply Z.pow_pos_nonneg; lia).
  assert (HsQ : (0 < inject_Z s)%Q) by (change 0%Q with (inject_Z 0); rewrite <- Zlt_Qlt; lia).
  destruct (round_half_even_between (x * inject_Z s) s) as [H0 H1]; [nra | nra |].
  rewrite Zle_Qle in H0, H1. change (inject_Z 0) with 0%Q in H0.
  split.
  - apply Qle_shift_div_l; [exact HsQ | lra].
  - apply Qle_shift_div_r; [exact HsQ | lra].
Qed.

(** ** binary64 rounding *)

Section Binary64.
Local Open Scope Q_scope.


Lemma pow2_pos (k : Z) : 0 < pow2 k.
Proof. apply Qpower_0_lt. reflexivity. Qed.

Lemma pow2_le (a b : Z) : (a <= b)%Z -> pow2 a <= pow2 b.
Proof. intros Hab. apply Qpower_le_compat_l; [exact Hab | discriminate]. Qed.

Lemma pow2_lt (a b : Z) : (a < b)%Z -> pow2 a < pow2 b.
Proof. intros Hab. apply Qpower_lt_compat_l; [exact Hab | reflexivity]. Qed.

Lemma pow2_lt_inv (a b : Z) : pow2 a < pow2 b -> (a < b)%Z.
Proof. intros Hab. apply (Qpower_lt_compat_l_inv 2); [exact Hab | reflexivity]. Qed.

Lemma pow2_plus (a b : Z) : pow2 (a + b) == pow2 a * pow2 b.
Proof. apply Qpower_plus. discriminate. Qed.

Lemma pow2_succ (a : Z) : pow2 (a + 1) == 2 * pow2 a.
Proof. rewrite pow2_plus. change (pow2 1) with 2. ring. Qed.

Lemma pow2_Z (k : Z) : (0 <= k)%Z -> pow2 k == inject_Z (2 ^ k).
Proof. intros Hk. unfold pow2. rewrite Zpower_Qpower by exact Hk. reflexivity. Qed.

(** [Qlog2] is the integer part of the binary logarithm. *)
Lemma Qlog2_spec (x : Q) :
  0 < x -> pow2 (Qlog2 x) <= x /\ x < pow2 (Qlog2 x + 1).
Proof.
  intros Hx. destruct x as [n d]. unfold Qlog2. cbn [Qnum Qden].
  assert (Hn : (0 < n)%Z) by (unfold Qlt in Hx; cbn in Hx; lia).
  set (ln := Z.log2 n). set (ld := Z.log2 (Z.pos d)).
  destruct (Z.log2_spec n Hn) as [Hn1 Hn2]. fold ln in Hn1, Hn2.
  destruct (Z.log2_spec (Z.pos d) eq_refl) as [Hd1 Hd2]. fold ld in Hd1, Hd2.
  assert (Hln : (0 <= ln)%Z) by apply Z.log2_nonneg.
  assert (Hld : (0 <= ld)%Z) by apply Z.log2_nonneg.
  assert (Hx' : n # d == inject_Z n / inject_Z (Z.pos d)) by apply Qmake_Qdiv.
  assert (HD : 0 < inject_Z (Z.pos d)) by reflexivity.
  assert (HA1 : pow2 ln <= inject_Z n) by (rewrite pow2_Z, <- Zle_Qle; assumption).
  assert (HA2 : inject_Z n < 2 * pow2 ln).
  { rewrite <- pow2_succ, pow2_Z, <- Zlt_Qlt by lia. exact Hn2. }
  assert (HB1 : pow2 ld <= inject_Z (Z.pos d)) by (rewrite pow2_Z, <- Zle_Qle; assumption).
  assert (HB2 : inject_Z (Z.pos d) < 2 * pow2 ld).
  { rewrite <- pow2_succ, pow2_Z, <- Zlt_Qlt by lia. exact Hd2. }
  assert (Hk : pow2 (ln - ld) * pow2 ld == pow2 ln).
  { rewrite <- pow2_plus. replace (ln - ld + ld)%Z with ln by lia. reflexivity. }
  assert (HxD : (n # d) * inject_Z (Z.pos d) == inject_Z n).
  { rewrite Hx'. field. intros E. rewrite E in HD. apply (Qlt_irrefl _ HD). }
  pose proof (pow2_pos (ln - ld)) as Hu. pose proof (pow2_pos ld) as Hv.
  pose proof (pow2_pos ln) as Hw.
  set (x := n # d) in *. set (D := inject_Z (Z.pos d)) in *.
  set (N := inject_Z n) in *.
  destruct (Qle_bool (pow2 (ln - ld)) x) eqn:Hle.
  - apply Qle_bool_iff in Hle. split; [exact Hle|].
    rewrite pow2_succ. set (u := pow2 (ln - ld)) in *. set (v := pow2 ld) in *.
    set (w := pow2 ln) in *.
    apply Qnot_le_lt. intros Hc.
    assert (H1 : 2 * u * D <= x * D) by (apply Qmult_le_compat_r; [exact Hc | lra]).
    assert (H2 : (2 * u) * v <= (2 * u) * D) by (apply Qmult_le_l; lra).
    clearbody x D N u v w. nra.
  - assert (Hlt : x < pow2 (ln - ld)).
    { apply Qnot_le_lt. intros Hc. apply Qle_bool_iff in Hc. congruence. }
    replace (ln - ld - 1 + 1)%Z with (ln - ld)%Z by lia. split; [|exact Hlt].
    assert (Hs : pow2 (ln - ld) == 2 * pow2 (ln - ld - 1)).
    { rewrite <- pow2_succ. replace (ln - ld - 1 + 1)%Z with (ln - ld)%Z by lia.
      reflexivity. }
    set (u := pow2 (ln - ld)) in *. set (v := pow2 ld) in *.
    set (w := pow2 ln) in *. set (h := pow2 (ln - ld - 1)) in *.
    apply Qnot_lt_le. intros Hc.
    assert (H1 : x * D < h * D) by (apply Qmult_lt_compat_r; [lra | exact Hc]).
    assert (Hh : 0 < h) by lra.
    assert (H2 : h * D < h * (2 * v)) by (apply Qmult_lt_l; lra).
    clearbody x D N u v w h. nra.
Qed.

Lemma Qlog2_unique (x : Q) (k : Z) :
  pow2 k <= x -> x < pow2 (k + 1) -> Qlog2 x = k.
Proof.
  intros Hlo Hhi.
  assert (Hx : 0 < x) by (pose proof (pow2_pos k); lra).
  destruct (Qlog2_spec x Hx) as [Hl Hu].
  assert (H1 : (Qlog2 x < k + 1)%Z) by (apply pow2_lt_inv; lra).
  assert (H2 : (k < Qlog2 x + 1)%Z) by (apply pow2_lt_inv; lra).
  lia.
Qed.

(** Which integers a number is rounded to. *)
Lemma round_half_even_ge (y : Q) (k : Z) :
  inject_Z k - (1 # 2) < y -> (k <= round_half_even y)%Z.
Proof.
  intros Hy. pose proof (round_half_even_error y) as He.
  apply Qabs_Qle_condition in He. destruct He as [He _].
  assert (H : inject_Z (k - 1) < inject_Z (round_half_even y)).
  { replace (k - 1)%Z with (k + -1)%Z by lia. rewrite inject_Z_plus.
    change (inject_Z (-1)) with (-1).
    set (r := inject_Z (round_half_even y)) in *. set (q := inject_Z k) in *. lra. }
  rewrite <- Zlt_Qlt in H. lia.
Qed.

Lemma round_half_even_le (y : Q) (k : Z) :
  y < inject_Z k + (1 # 2) -> (round_half_even y <= k)%Z.
Proof.
  intros Hy. pose proof (round_half_even_error y) as He.
  apply Qabs_Qle_condition in He. destruct He as [_ He].
  assert (H : inject_Z (round_half_even y) < inject_Z (k + 1)).
  { rewrite inject_Z_plus. change (inject_Z 1) with 1.
    set (r := inject_Z (round_half_even y)) in *. set (q := inject_Z k) in *. lra. }
  rewrite <- Zlt_Qlt in H. lia.
Qed.

(** A tie goes to the even neighbour. *)
Lemma round_half_even_tie (y : Q) (k : Z) :
  Z.even k = true -> y <= inject_Z k + (1 # 2) -> (round_half_even y <= k)%Z.
Proof.
  intros Hk Hy. destruct (Qlt_le_dec y (inject_Z k + (1 # 2))) as [Hlt | Hge].
  { apply round_half_even_le. exact Hlt. }
  assert (Heq : y == inject_Z k + (1 # 2)) by (apply Qle_antisym; assumption).
  assert (Hf : Qfloor y = k).
  { pose proof (Qfloor_le y) as Hf1. pose proof (Qlt_floor y) as Hf2.
    assert (H1 : inject_Z (Qfloor y) < inject_Z (k + 1)).
    { rewrite inject_Z_plus. change (inject_Z 1) with 1.
      set (f := inject_Z (Qfloor y)) in *. set (q := inject_Z k) in *. lra. }
    assert (H2 : inject_Z k < inject_Z (Qfloor y + 1)).
    { set (f := inject_Z (Qfloor y + 1)) in *. set (q := inject_Z k) in *. lra. }
    rewrite <- Zlt_Qlt in H1, H2. lia. }
  unfold round_half_even. cbv zeta. rewrite Hf.
  assert (Hc : (y - inject_Z k ?= 1 # 2) = Eq) by (apply Qeq_alt; rewrite Heq; ring).
  rewrite Hc, Hk. lia.
Qed.

Lemma round_half_even_tie_up (y : Q) (k : Z) :
  Z.even k = false -> inject_Z k + (1 # 2) <= y -> (k + 1 <= round_half_even y)%Z.
Proof.
  intros Hk Hy. destruct (Qlt_le_dec (inject_Z k + (1 # 2)) y) as [Hlt | Hle].
  { apply round_half_even_ge. rewrite inject_Z_plus. change (inject_Z 1) with 1. lra. }
  assert (Heq : y == inject_Z k + (1 # 2)) by (apply Qle_antisym; assumption).
  assert (Hf : Qfloor y = k).
  { pose proof (Qfloor_le y) as Hf1. pose proof (Qlt_floor y) as Hf2.
    assert (H1 : inject_Z (Qfloor y) < inject_Z (k + 1)).
    { rewrite inject_Z_plus. change (inject_Z 1) with 1.
      set (f := inject_Z (Qfloor y)) in *. set (q := inject_Z k) in *. lra. }
    assert (H2 : inject_Z k < inject_Z (Qfloor y + 1)).
    { set (f := inject_Z (Qfloor y + 1)) in *. set (q := inject_Z k) in *. lra. }
    rewrite <- Zlt_Qlt in H1, H2. lia. }
  unfold round_half_even. cbv zeta. rewrite Hf.
  assert (Hc : (y - inject_Z k ?= 1 # 2) = Eq) by (apply Qeq_alt; rewrite Heq; ring).
  rewrite Hc, Hk. lia.
Qed.


Lemma round_to_nonneg (e : Z) (x : Q) : 0 <= x -> 0 <= round_to e x.
Proof.
  intros Hx. unfold round_to. pose proof (pow2_pos e) as He.
  assert (Hy : 0 <= x / pow2 e) by (apply Qle_shift_div_l; [exact He | lra]).
  assert (Hr : (0 <= round_half_even (x / pow2 e))%Z).
  { apply round_half_even_ge. change (inject_Z 0) with 0. lra. }
  rewrite Zle_Qle in Hr. change (inject_Z 0) with 0 in Hr.
  apply Qmult_le_0_compat; lra.
Qed.

(** A multiple of [2^e'] is a multiple of every smaller power. *)
Lemma multiple_rescale (m e e' : Z) :
  (e <= e')%Z -> inject_Z m * pow2 e' == inject_Z (m * 2 ^ (e' - e)) * pow2 e.
Proof.
  intros He. rewrite inject_Z_mult, <- pow2_Z by lia.
  replace e' with ((e' - e) + e)%Z at 1 by lia. rewrite pow2_plus. ring.
Qed.

Lemma round_to_le (e : Z) (x : Q) (m e' : Z) :
  (e <= e')%Z -> x <= inject_Z m * pow2 e' -> round_to e x <= inject_Z m * pow2 e'.
Proof.
  intros He Hx. rewrite (multiple_rescale m e e' He) in *.
  unfold round_to. pose proof (pow2_pos e) as Hp.
  set (M := (m * 2 ^ (e' - e))%Z) in *.
  assert (Hy : x / pow2 e <= inject_Z M) by (apply Qle_shift_div_r; assumption).
  assert (Hr : (round_half_even (x / pow2 e) <= M)%Z) by (apply round_half_even_le; lra).
  rewrite Zle_Qle in Hr. apply Qmult_le_compat_r; [exact Hr | lra].
Qed.

Lemma round_to_ge (e : Z) (x : Q) (m e' : Z) :
  (e <= e')%Z -> inject_Z m * pow2 e' <= x -> inject_Z m * pow2 e' <= round_to e x.
Proof.
  intros He Hx. rewrite (multiple_rescale m e e' He) in *.
  unfold round_to. pose proof (pow2_pos e) as Hp.
  set (M := (m * 2 ^ (e' - e))%Z) in *.
  assert (Hy : inject_Z M <= x / pow2 e) by (apply Qle_shift_div_l; assumption).
  assert (Hr : (M <= round_half_even (x / pow2 e))%Z) by (apply round_half_even_ge; lra).
  rewrite Zle_Qle in Hr. apply Qmult_le_compat_r; [exact Hr | lra].
Qed.

(** A number of at most 53 bits times [2^e'] lies below [2^(e'+53)]. *)
Lemma significand_bound (m e' : Z) :
  (m < 2 ^ 53)%Z -> inject_Z m * pow2 e' < pow2 (e' + 53).
Proof.
  intros Hm. rewrite pow2_plus, (pow2_Z 53) by lia. pose proof (pow2_pos e') as Hp.
  rewrite Zlt_Qlt in Hm. rewrite (Qmult_comm (pow2 e')).
  apply Qmult_lt_compat_r; assumption.
Qed.

Lemma b64_ulp_le (x : Q) (m e' : Z) :
  0 < x -> (m < 2 ^ 53)%Z -> (-1074 <= e')%Z -> x <= inject_Z m * pow2 e' ->
  (b64_ulp x <= e')%Z.
Proof.
  intros Hx Hm He Hc. destruct (Qlog2_spec x Hx) as [Hl _].
  pose proof (significand_bound m e' Hm) as Hs.
  assert (H : (Qlog2 x < e' + 53)%Z) by (apply pow2_lt_inv; lra).
  unfold b64_ulp. lia.
Qed.

(** Rounding does not cross a binary64 number: below it stays below,
    above it stays above. *)
Lemma b64_raw_le (x : Q) (m e' : Z) :
  0 < x -> (m < 2 ^ 53)%Z -> (-1074 <= e')%Z -> x <= inject_Z m * pow2 e' ->
  round_to (b64_ulp x) x <= inject_Z m * pow2 e'.
Proof.
  intros Hx Hm He Hc. apply round_to_le; [|exact Hc].
  exact (b64_ulp_le x m e' Hx Hm He Hc).
Qed.

Lemma b64_raw_ge (x : Q) (m e' : Z) :
  (0 < m < 2 ^ 53)%Z -> (-1074 <= e')%Z -> inject_Z m * pow2 e' <= x ->
  inject_Z m * pow2 e' <= round_to (b64_ulp x) x.
Proof.
  intros Hm He Hc. pose proof (pow2_pos e') as Hp.
  assert (Hmq : 0 < inject_Z m) by (rewrite Zlt_Qlt in Hm; apply Hm).
  assert (Hcpos : 0 < inject_Z m * pow2 e') by (apply Qmult_lt_0_compat; assumption).
  assert (Hx : 0 < x) by lra.
  destruct (Z_le_gt_dec (b64_ulp x) e') as [Hle | Hgt].
  { apply round_to_ge; assumption. }
  assert (Hu : b64_ulp x = (Qlog2 x - 52)%Z) by (unfold b64_ulp in *; lia).
  destruct (Qlog2_spec x Hx) as [Hl _].
  set (e := b64_ulp x) in *.
  assert (Hl' : inject_Z (2 ^ 52) * pow2 e <= x).
  { rewrite <- pow2_Z, <- pow2_plus by lia. replace (52 + e)%Z with (Qlog2 x) by lia.
    exact Hl. }
  pose proof (round_to_ge e x (2 ^ 52) e ltac:(lia) Hl') as Hr.
  pose proof (significand_bound m e' ltac:(lia)) as Hs.
  assert (Hp2 : pow2 (e' + 53) <= inject_Z (2 ^ 52) * pow2 e).
  { rewrite <- pow2_Z, <- pow2_plus by lia. apply pow2_le. lia. }
  lra.
Qed.

Lemma b64_zero (x : Q) : x == 0 -> b64 x = Finite 0.
Proof. intros Hx. unfold b64. rewrite (proj1 (Qeq_alt x 0) Hx). reflexivity. Qed.

(** A value between zero and a binary64 number is rounded to a value
    between them. *)
Lemma b64_range (x : Q) (m e' : Z) :
  (m < 2 ^ 53)%Z -> (-1074 <= e' <= 971)%Z ->
  0 <= x -> x <= inject_Z m * pow2 e' ->
  exists q, b64 x = Finite q /\ 0 <= q /\ q <= inject_Z m * pow2 e'.
Proof.
  intros Hm He H0 Hc. unfold b64. destruct (x ?= 0) eqn:Hcmp.
  - apply Qeq_alt in Hcmp. exists 0. split; [reflexivity|]. split; lra.
  - apply Qlt_alt in Hcmp. lra.
  - apply Qgt_alt in Hcmp. cbv zeta.
    pose proof (b64_raw_le x m e' Hcmp Hm ltac:(lia) Hc) as Hle.
    pose proof (round_to_nonneg (b64_ulp x) x H0) as Hge.
    pose proof (significand_bound m e' Hm) as Hs.
    assert (Hp : pow2 (e' + 53) <= pow2 1024) by (apply pow2_le; lia).
    set (q := round_to (b64_ulp x) x) in *.
    destruct (Qle_bool (pow2 1024) q) eqn:Hov.
    { apply Qle_bool_iff in Hov. lra. }
    exists (Qred q). split; [reflexivity|]. rewrite Qred_correct. split; assumption.
Qed.

(** The sign of a rounded value. *)
Lemma b64_nonpos (x : Q) :
  x <= 0 -> b64 x = NegInf \/ exists q, b64 x = Finite q /\ q <= 0.
Proof.
  intros Hx. unfold b64. destruct (x ?= 0) eqn:Hcmp.
  - right. exists 0. split; [reflexivity | lra].
  - cbv zeta. apply Qlt_alt in Hcmp.
    pose proof (round_to_nonneg (b64_ulp (- x)) (- x) ltac:(lra)) as Hge.
    set (q := round_to (b64_ulp (- x)) (- x)) in *.
    destruct (Qle_bool (pow2 1024) q); [left; reflexivity|].
    right. exists (Qred (- q)). split; [reflexivity|]. rewrite Qred_correct. lra.
  - apply Qgt_alt in Hcmp. lra.
Qed.

Lemma b64_le_repr (x : Q) (m e' : Z) :
  (0 < m < 2 ^ 53)%Z -> (-1074 <= e' <= 971)%Z ->
  x <= inject_Z m * pow2 e' ->
  pf_leb (b64 x) (Finite (inject_Z m * pow2 e')) = true.
Proof.
  intros Hm He Hc. pose proof (pow2_pos e') as Hp.
  assert (Hmq : 0 < inject_Z m) by (rewrite Zlt_Qlt in Hm; apply Hm).
  assert (Hcpos : 0 < inject_Z m * pow2 e') by (apply Qmult_lt_0_compat; assumption).
  destruct (Qlt_le_dec 0 x) as [Hpos | Hneg].
  - destruct (b64_range x m e' ltac:(lia) He ltac:(lra) Hc) as (q & -> & _ & Hq).
    cbn [pf_leb]. apply Qle_bool_iff. exact Hq.
  - destruct (b64_nonpos x Hneg) as [-> | (q & -> & Hq)]; [reflexivity|].
    cbn [pf_leb]. apply Qle_bool_iff. lra.
Qed.

Lemma b64_ge_repr (x : Q) (m e' : Z) :
  (0 < m < 2 ^ 53)%Z -> (-1074 <= e')%Z ->
  inject_Z m * pow2 e' <= x ->
  pf_leb (Finite (inject_Z m * pow2 e')) (b64 x) = true.
Proof.
  intros Hm He Hc. pose proof (pow2_pos e') as Hp.
  assert (Hmq : 0 < inject_Z m) by (rewrite Zlt_Qlt in Hm; apply Hm).
  assert (Hcpos : 0 < inject_Z m * pow2 e') by (apply Qmult_lt_0_compat; assumption).
  pose proof (b64_raw_ge x m e' Hm He Hc) as Hge.
  unfold b64. assert (Hcmp : (x ?= 0) = Gt) by (apply Qgt_alt; lra).
  rewrite Hcmp. cbv zeta. set (q := round_to (b64_ulp x) x) in *.
  destruct (Qle_bool (pow2 1024) q); [reflexivity|].
  cbn [pf_leb]. apply Qle_bool_iff. rewrite Qred_correct. exact Hge.
Qed.

(** Between two neighbouring binary64 numbers [m * 2^e'] and
    [(m+1) * 2^e'] the midpoint decides, and at the midpoint the even
    significand. *)
Lemma b64_cut (x : Q) (m e' : Z) :
  (2 ^ 52 <= m < 2 ^ 53 - 1)%Z -> (-1074 <= e' <= 970)%Z ->
  (x < (inject_Z m + (1 # 2)) * pow2 e'
   \/ x == (inject_Z m + (1 # 2)) * pow2 e' /\ Z.even m = true ->
   pf_leb (b64 x) (Finite (inject_Z m * pow2 e')) = true)
  /\ ((inject_Z m + (1 # 2)) * pow2 e' < x
      \/ x == (inject_Z m + (1 # 2)) * pow2 e' /\ Z.even m = false ->
      pf_leb (Finite (inject_Z (m + 1) * pow2 e')) (b64 x) = true).
Proof.
  intros Hm He. pose proof (pow2_pos e') as Hp.
  assert (Hmq : inject_Z (2 ^ 52) <= inject_Z m) by (rewrite <- Zle_Qle; lia).
  assert (H52 : 0 < inject_Z (2 ^ 52)) by reflexivity.
  assert (Hnext : inject_Z (m + 1) * pow2 e' == (inject_Z m + 1) * pow2 e').
  { rewrite inject_Z_plus. reflexivity. }
  (* strictly between the two neighbours the unit in the last place is 2^e' *)
  assert (Hmid : forall y,
            inject_Z m * pow2 e' < y -> y < inject_Z (m + 1) * pow2 e' ->
            b64 y = Finite (Qred (round_to e' y))
            /\ inject_Z m * pow2 e' <= round_to e' y
            /\ round_to e' y <= inject_Z (m + 1) * pow2 e').
  { intros y Hlo Hhi.
    assert (Hy : 0 < y).
    { assert (0 <= inject_Z m * pow2 e') by (apply Qmult_le_0_compat; lra). lra. }
    assert (Hlog : Qlog2 y = (e' + 52)%Z).
    { apply Qlog2_unique.
      - assert (pow2 (e' + 52) <= inject_Z m * pow2 e'); [|lra].
        rewrite pow2_plus, (pow2_Z 52), (Qmult_comm (pow2 e')) by lia.
        apply Qmult_le_compat_r; lra.
      - pose proof (significand_bound (m + 1) e' ltac:(lia)) as Hs.
        replace (e' + 52 + 1)%Z with (e' + 53)%Z by lia. lra. }
    assert (Hulp : b64_ulp y = e') by (unfold b64_ulp; rewrite Hlog; lia).
    pose proof (round_to_ge e' y m e' ltac:(lia) ltac:(lra)) as Hge.
    pose proof (round_to_le e' y (m + 1) e' ltac:(lia) ltac:(lra)) as Hle.
    split; [|split; assumption].
    unfold b64. assert (Hcmp : (y ?= 0) = Gt) by (apply Qgt_alt; lra).
    rewrite Hcmp. cbv zeta. rewrite Hulp.
    pose proof (significand_bound (m + 1) e' ltac:(lia)) as Hs.
    assert (Hp2 : pow2 (e' + 53) <= pow2 1024) by (apply pow2_le; lia).
    destruct (Qle_bool (pow2 1024) (round_to e' y)) eqn:Hov; [|reflexivity].
    apply Qle_bool_iff in Hov. lra. }
  assert (Hscale : forall y, y / pow2 e' * pow2 e' == y).
  { intros y. field. intros E. rewrite E in Hp. apply (Qlt_irrefl _ Hp). }
  split.
  - intros Hx.
    destruct (Qlt_le_dec (inject_Z m * pow2 e') x) as [Hlo | Hle];
      [|apply b64_le_repr; [lia | lia | exact Hle]].
    assert (Hhi : x < inject_Z (m + 1) * pow2 e').
    { rewrite Hnext. destruct Hx as [Hx | [Hx _]]; [|rewrite Hx];
        set (q := inject_Z m) in *; nra. }
    destruct (Hmid x Hlo Hhi) as (-> & _ & _). cbn [pf_leb]. apply Qle_bool_iff.
    rewrite Qred_correct. unfold round_to.
    apply Qmult_le_compat_r; [|lra]. rewrite <- Zle_Qle.
    assert (Hy : x / pow2 e' < inject_Z m + (1 # 2)
                 \/ x / pow2 e' == inject_Z m + (1 # 2) /\ Z.even m = true).
    { destruct Hx as [Hx | [Hx Hev]].
      - left. apply Qlt_shift_div_r; assumption.
      - right. split; [|exact Hev]. rewrite Hx. field.
        intros E. rewrite E in Hp. apply (Qlt_irrefl _ Hp). }
    destruct Hy as [Hy | [Hy Hev]].
    + apply round_half_even_le. exact Hy.
    + apply round_half_even_tie; [exact Hev | rewrite Hy; lra].
  - intros Hx.
    destruct (Qlt_le_dec x (inject_Z (m + 1) * pow2 e')) as [Hhi | Hge];
      [|apply b64_ge_repr; [lia | lia | exact Hge]].
    assert (Hlo : inject_Z m * pow2 e' < x).
    { destruct Hx as [Hx | [Hx _]]; [|rewrite Hx];
        set (q := inject_Z m) in *; nra. }
    destruct (Hmid x Hlo Hhi) as (-> & _ & _). cbn [pf_leb]. apply Qle_bool_iff.
    rewrite Qred_correct. unfold round_to.
    apply Qmult_le_compat_r; [|lra]. rewrite <- Zle_Qle.
    destruct Hx as [Hx | [Hx Hodd]].
    + apply round_half_even_ge. rewrite inject_Z_plus. change (inject_Z 1) with 1.
      assert (inject_Z m + (1 # 2) < x / pow2 e') by (apply Qlt_shift_div_l; assumption).
      lra.
    + assert (Hy : x / pow2 e' == inject_Z m + (1 # 2)).
      { rewrite Hx. field. intros E. rewrite E in Hp. apply (Qlt_irrefl _ Hp). }
      apply round_half_even_tie_up; [exact Hodd | rewrite Hy; lra].
Qed.

(** [b64] agrees with the operations of [SpecFloat] at precision 53 and
    exponent bound 1024, here on a quotient that is not a binary fraction,
    on a tie between two integers, at the overflow threshold, on a sum and a
    product of rounded constants, and in the subnormal range. *)
Example b64_agrees_with_SFdiv :
  SF2pf (SFdiv 53 1024 (SF_of_Z 2) (SF_of_Z 3)) = b64 (2 # 3)
  /\ SF2pf (SFdiv 53 1024 (SF_of_Z (-1)) (SF_of_Z 10)) = b64 (-1 # 10)
  /\ Ok (SF2pf (SFdiv 53 1024 (SFdiv 53 1024 (SF_of_Z 1) (SF_of_Z (3 * 2 ^ 1000)))
                  (SF_of_Z (2 ^ 70))))
     = pf_div (b64 (1 # (3 * 2 ^ 1000))) (Finite (inject_Z (2 ^ 70))).
Proof. repeat split; vm_compute; reflexivity. Qed.

Example b64_agrees_with_binary_normalize :
  SF2pf (SF_of_Z (2 ^ 53 + 1)) = b64 (inject_Z (2 ^ 53 + 1))
  /\ SF2pf (SF_of_Z (2 ^ 54 + 6)) = b64 (inject_Z (2 ^ 54 + 6))
  /\ SF2pf (SF_of_Z (2 ^ 1024 - 2 ^ 970 - 1)) = b64 (inject_Z (2 ^ 1024 - 2 ^ 970 - 1))
  /\ SF2pf (SF_of_Z (2 ^ 1024 - 2 ^ 970)) = b64 (inject_Z (2 ^ 1024 - 2 ^ 970))
  /\ SF2pf (SF_of_Z (10 ^ 400)) = b64 (inject_Z (10 ^ 400)).
Proof. repeat split; vm_compute; reflexivity. Qed.

Example b64_agrees_with_SFadd_SFmul :
  let tenth := SFdiv 53 1024 (SF_of_Z 1) (SF_of_Z 10) in
  let fifth := SFdiv 53 1024 (SF_of_Z 2) (SF_of_Z 10) in
  SF2pf tenth = Finite (3602879701896397 # 36028797018963968)
  /\ SF2pf fifth = Finite (3602879701896397 # 18014398509481984)
  /\ SF2pf (SFadd 53 1024 tenth fifth)
     = pf_add (b64 (1 # 10)) (b64 (2 # 10))
  /\ SF2pf (SFmul 53 1024 tenth fifth)
     = pf_mul (b64 (1 # 10)) (b64 (2 # 10)).
Proof. repeat split; vm_compute; reflexivity. Qed.

(** The operations on floats commute. *)
Lemma pf_mul_comm (a b : pyfloat) : pf_mul a b = pf_mul b a.
Proof.
  destruct a as [x| | |], b as [y| | |]; try reflexivity.
  cbn [pf_mul]. f_equal. unfold Qmult. f_equal; [apply Z.mul_comm | apply Pos.mul_comm].
Qed.

(** Rounded values, sums and products between zero and a power of two. *)
Lemma b64_range_pow2 (x : Q) (k : Z) :
  (-1074 <= k <= 971)%Z -> 0 <= x -> x <= pow2 k ->
  exists q, b64 x = Finite q /\ 0 <= q /\ q <= pow2 k.
Proof.
  intros Hk H0 Hx.
  destruct (b64_range x 1 k ltac:(lia) Hk H0) as (q & Hq & Hq0 & Hq1).
  { change (inject_Z 1) with 1. lra. }
  change (inject_Z 1) with 1 in Hq1. exists q. repeat split; try assumption. lra.
Qed.

Lemma pf_add_range (x y : Q) (k : Z) :
  (-1074 <= k <= 971)%Z -> 0 <= x -> 0 <= y -> x + y <= pow2 k ->
  exists q, pf_add (Finite x) (Finite y) = Finite q /\ 0 <= q /\ q <= pow2 k.
Proof.
  intros Hk Hx Hy Hc. cbn [pf_add]. apply b64_range_pow2; try assumption. lra.
Qed.

Lemma pf_mul_range (x y : Q) (k : Z) :
  (-1074 <= k <= 971)%Z -> 0 <= x -> 0 <= y -> x * y <= pow2 k ->
  exists q, pf_mul (Finite x) (Finite y) = Finite q /\ 0 <= q /\ q <= pow2 k.
Proof.
  intros Hk Hx Hy Hc. cbn [pf_mul]. apply b64_range_pow2; try assumption.
  apply Qmult_le_0_compat; assumption.
Qed.

(** A quotient of two naturals, the first the smaller, is a float between
    0 and 1. *)
Lemma true_div_b64_unit (a b : Z) :
  (0 <= a <= b)%Z -> b <> 0%Z ->
  exists q,
    true_div_b64 a b = Ok (Finite q)
    /\ b64 (inject_Z a / inject_Z b) = Finite q /\ 0 <= q /\ q <= 1.
Proof.
  intros [Ha Hab] Hb. unfold true_div_b64.
  destruct (Z.eqb_spec b 0) as [E|_]; [contradiction|].
  assert (Hbq : 0 < inject_Z b) by (change 0 with (inject_Z 0); rewrite <- Zlt_Qlt; lia).
  assert (H0 : 0 <= inject_Z a / inject_Z b) by (apply Qdiv_Z_nonneg; lia).
  assert (H1 : inject_Z a / inject_Z b <= 1).
  { apply Qle_shift_div_r; [exact Hbq|]. rewrite Qmult_1_l, <- Zle_Qle. exact Hab. }
  destruct (b64_range (inject_Z a / inject_Z b) 1 0 ltac:(lia) ltac:(lia) H0)
    as (q & Hq & Hq0 & Hq1).
  { change (inject_Z 1 * pow2 0) with (1 * 1). lra. }
  change (inject_Z 1 * pow2 0) with (1 * 1) in Hq1.
  exists q. rewrite Hq. repeat split; try assumption; lra.
Qed.

(** Comparisons with a float depend on its value only. *)
Lemma pf_leb_above (a : pyfloat) (c c' : Q) :
  c < c' -> pf_leb (Finite c') a = true -> pf_leb a (Finite c) = false.
Proof.
  intros Hc. destruct a as [q| | |]; cbn [pf_leb]; try reflexivity; try discriminate.
  intros Hq. apply Qle_bool_iff in Hq. destruct (Qle_bool q c) eqn:E; [|reflexivity].
  apply Qle_bool_iff in E. lra.
Qed.

Lemma pf_leb_below (a : pyfloat) (c c' : Q) :
  c < c' -> pf_leb a (Finite c) = true -> pf_leb (Finite c') a = false.
Proof.
  intros Hc. destruct a as [q| | |]; cbn [pf_leb]; try reflexivity; try discriminate.
  intros Hq. apply Qle_bool_iff in Hq. destruct (Qle_bool c' q) eqn:E; [|reflexivity].
  apply Qle_bool_iff in E. lra.
Qed.

Lemma pf_leb_Qeq_r (a : pyfloat) (c c' : Q) :
  c == c' -> pf_leb a (Finite c) = pf_leb a (Finite c').
Proof.
  intros Hc. destruct a as [q| | |]; cbn [pf_leb]; try reflexivity.
  destruct (Qle_bool q c) eqn:E1, (Qle_bool q c') eqn:E2; try reflexivity.
  - apply Qle_bool_iff in E1. rewrite Hc in E1. apply Qle_bool_iff in E1. congruence.
  - apply Qle_bool_iff in E2. rewrite <- Hc in E2. apply Qle_bool_iff in E2. congruence.
Qed.

Lemma pf_leb_Qeq_l (a : pyfloat) (c c' : Q) :
  c == c' -> pf_leb (Finite c) a = pf_leb (Finite c') a.
Proof.
  intros Hc. destruct a as [q| | |]; cbn [pf_leb]; try reflexivity.
  destruct (Qle_bool c q) eqn:E1, (Qle_bool c' q) eqn:E2; try reflexivity.
  - apply Qle_bool_iff in E1. rewrite Hc in E1. apply Qle_bool_iff in E1. congruence.
  - apply Qle_bool_iff in E2. rewrite <- Hc in E2. apply Qle_bool_iff in E2. congruence.
Qed.

(** The band [0.05 <= q <= 0.5] on a rounded quotient, read on the exact
    quotient [x]: the float 0.05 is [7205759403792794 * 2^-57], and below it
    the midpoint to its neighbour decides, the tie going up to its even
    significand; 0.5 is [2^52 * 2^-53], and a tie above it comes down. *)
Lemma b64_band (x : Q) :
  pf_leb (b64 (5 # 100)) (b64 x) && pf_leb (b64 x) (b64 (5 # 10)) = true
  <-> band_low <= x /\ x <= band_high.
Proof.
  assert (Hc05 : b64 (5 # 100) = Finite (3602879701896397 # 72057594037927936))
    by (vm_compute; reflexivity).
  assert (Hc5 : b64 (5 # 10) = Finite (1 # 2)) by (vm_compute; reflexivity).
  rewrite Hc05, Hc5.
  destruct (b64_cut x 7205759403792793 (-57) ltac:(lia) ltac:(lia)) as [Hlo_dn Hlo_up].
  destruct (b64_cut x (2 ^ 52) (-53) ltac:(lia) ltac:(lia)) as [Hhi_dn Hhi_up].
  assert (Elow : (inject_Z 7205759403792793 + (1 # 2)) * pow2 (-57) == band_low)
    by reflexivity.
  assert (Ehigh : (inject_Z (2 ^ 52) + (1 # 2)) * pow2 (-53) == band_high)
    by reflexivity.
  rewrite Elow in Hlo_dn, Hlo_up. rewrite Ehigh in Hhi_dn, Hhi_up.
  rewrite (pf_leb_Qeq_l (b64 x) (inject_Z (7205759403792793 + 1) * pow2 (-57))
             (3602879701896397 # 72057594037927936) ltac:(reflexivity)) in Hlo_up.
  rewrite (pf_leb_Qeq_r (b64 x) (inject_Z (2 ^ 52) * pow2 (-53)) (1 # 2)
             ltac:(reflexivity)) in Hhi_dn.
  rewrite andb_true_iff. split.
  - intros [Hl Hh]. split.
    + apply Qnot_lt_le. intros Hlt.
      rewrite (pf_leb_below (b64 x) (inject_Z 7205759403792793 * pow2 (-57))
                 (3602879701896397 # 72057594037927936) ltac:(reflexivity)
                 (Hlo_dn (or_introl Hlt))) in Hl.
      discriminate.
    + apply Qnot_lt_le. intros Hlt.
      rewrite (pf_leb_above (b64 x) (1 # 2) (inject_Z (2 ^ 52 + 1) * pow2 (-53))
                 ltac:(reflexivity) (Hhi_up (or_introl Hlt))) in Hh.
      discriminate.
  - intros [Hl Hh]. split.
    + apply Hlo_up. destruct (Qlt_le_dec band_low x) as [Hlt | Hle]; [left; exact Hlt|].
      right. split; [apply Qle_antisym; assumption | reflexivity].
    + apply Hhi_dn. destruct (Qlt_le_dec x band_high) as [Hlt | Hle]; [left; exact Hlt|].
      right. split; [apply Qle_antisym; assumption | reflexivity].
Qed.

End Binary64.

(** ** Strings *)

Lemma str_falsy_empty (s : string) : str_falsy s = true <-> s = EmptyString.
Proof. destruct s; simpl; split; congruence. Qed.

Lemma len_zero (s : string) : len s = 0%Z -> s = EmptyString.
Proof. destruct s; [reflexivity | unfold len; simpl; lia]. Qed.

Lemma len_nonneg (s : string) : (0 <= len s)%Z.
Proof. unfold len. lia. Qed.

Lemma common_chars_bounds (s1 s2 : string) : (0 <= common_chars s1 s2 <= len s1)%Z.
Proof.
  unfold len. induction s1 as [|c r IH]; simpl; [lia|].
  destruct (char_in c s2); lia.
Qed.

(** A string without tokens is blank. *)
Lemma split_ws_nil (s : string) : split_ws s = [] -> lstrip s = EmptyString.
Proof.
  induction s as [|c r IH]; simpl; [reflexivity|].
  destruct (py_isspace c); [exact IH|].
  destruct r as [|c' r']; [discriminate|].
  destruct (py_isspace c'); [discriminate|].
  destruct (split_ws (String c' r')); discriminate.
Qed.

(** A right-trimmed string that is blank is empty. *)
Lemma rstrip_blank (s : string) :
  lstrip (rstrip s) = EmptyString -> rstrip s = EmptyString.
Proof.
  induction s as [|c r IH]; simpl; [reflexivity|].
  destruct (rstrip r) as [|c' r'] eqn:Hr.
  - destruct (py_isspace c) eqn:Hc; [reflexivity|].
    simpl. rewrite Hc. discriminate.
  - simpl. destruct (py_isspace c) eqn:Hc; [|discriminate].
    intros Hb. discriminate (IH Hb).
Qed.

Lemma strip_no_tokens (s : string) : split_ws (strip s) = [] -> strip s = EmptyString.
Proof.
  intros Hn. unfold strip in *. apply rstrip_blank, split_ws_nil, Hn.
Qed.

Lemma token_set_empty (s : string) : token_set s = ∅ -> split_ws s = [].
Proof.
  unfold token_set. destruct (split_ws s) as [|w ws]; [reflexivity|].
  intros He. exfalso. apply (not_elem_of_empty (C := gset string) w).
  rewrite <- He. apply elem_of_list_to_set. left.
Qed.

(** Two distinct trimmed strings have a token between them. *)
Lemma token_union_nonempty (a b : string) :
  strip a <> strip b ->
  Z.of_nat (size (token_set (strip a) ∪ token_set (strip b))) <> 0%Z.
Proof.
  intros Hne Hz. apply Hne.
  assert (Hu : token_set (strip a) ∪ token_set (strip b) = ∅).
  { apply leibniz_equiv, size_empty_inv. lia. }
  apply empty_union_L in Hu as [Ha Hb].
  rewrite (strip_no_tokens a (token_set_empty _ Ha)).
  rewrite (strip_no_tokens b (token_set_empty _ Hb)). reflexivity.
Qed.

Lemma max_len_nonzero (s1 s2 : string) : s1 <> s2 -> Z.max (len s1) (len s2) <> 0%Z.
Proof.
  intros Hne Hz. apply Hne.
  pose proof (len_nonneg s1). pose proof (len_nonneg s2).
  rewrite (len_zero s1), (len_zero s2); [reflexivity | lia | lia].
Qed.

(** ** SimpleFuzzyMatcher.ratio *)

(** Past its two early returns [ratio] truncates a score that is the
    weighted sum of the specification, capped at 100. *)
Lemma ratio_score (a b : string) :
  a <> EmptyString -> b <> EmptyString -> normalize a <> normalize b ->
  exists x : Q,
    spec_score_b64 (normalize a) (normalize b) = Finite x
    /\ (0 <= x)%Q
    /\ ratio a b = Ok (py_int (py_min 100 x)).
Proof.
  intros Ha Hb Hne. unfold ratio. fold (normalize a) (normalize b).
  destruct a as [|ca ra]; [contradiction|]. destruct b as [|cb rb]; [contradiction|].
  cbn [str_falsy orb].
  destruct (String.eqb_spec (normalize (String ca ra)) (normalize (String cb rb)));
    [contradiction|].
  set (na := normalize (String ca ra)) in *. set (nb := normalize (String cb rb)) in *.
  destruct (Z.eqb_spec (Z.of_nat (size (token_set na ∪ token_set nb))) 0) as [Hz | Hz].
  { exfalso. revert Hz. apply token_union_nonempty. exact Hne. }
  unfold spec_score_b64, spec_jaccard_with_bonus_b64, spec_char_overlap_b64. cbv zeta.
  assert (Hsub : (size (token_set na ∩ token_set nb)
                  <= size (token_set na ∪ token_set nb))%nat).
  { apply subseteq_size. intros t Ht. apply elem_of_intersection in Ht.
    apply elem_of_union. left. apply Ht. }
  assert (Hj : (0 <= Z.of_nat (size (token_set na ∩ token_set nb))
                <= Z.of_nat (size (token_set na ∪ token_set nb)))%Z) by lia.
  destruct (true_div_b64_unit _ _ Hj Hz) as (j & -> & -> & Hj0 & Hj1).
  cbn [bind].
  pose proof (common_chars_bounds na nb) as [Hc0 Hc1].
  assert (Hc : (0 <= common_chars na nb <= Z.max (len na) (len nb))%Z) by lia.
  destruct (true_div_b64_unit _ _ Hc (max_len_nonzero na nb Hne))
    as (c & -> & -> & Hc0' & Hc1').
  cbn [bind].
  destruct (b64_range_pow2 (3 # 10) 0 ltac:(lia) ltac:(lra) ltac:(cbn; lra))
    as (c03 & -> & H03 & H03').
  destruct (b64_range_pow2 (6 # 10) 0 ltac:(lia) ltac:(lra) ltac:(cbn; lra))
    as (c06 & -> & H06 & H06').
  destruct (b64_range_pow2 (4 # 10) 0 ltac:(lia) ltac:(lra) ltac:(cbn; lra))
    as (c04 & -> & H04 & H04').
  change (pow2 0) with 1%Q in *.
  assert (Hbonus : exists j',
            (if contains na nb || contains nb na then pf_add (Finite j) (Finite c03)
             else Finite j) = Finite j'
            /\ (0 <= j')%Q /\ (j' <= 2)%Q).
  { destruct (contains na nb || contains nb na).
    - destruct (pf_add_range j c03 1 ltac:(lia) Hj0 H03 ltac:(cbn; lra))
        as (q & Hq & Hq0 & Hq1).
      exists q. change (pow2 1) with 2%Q in Hq1. auto.
    - exists j. repeat split; [assumption | lra]. }
  destruct Hbonus as (j' & -> & Hj'0 & Hj'1).
  rewrite (pf_mul_comm (Finite c06)), (pf_mul_comm (Finite c04)), (pf_mul_comm (Finite 100)).
  destruct (pf_mul_range j' c06 1 ltac:(lia) Hj'0 H06 ltac:(cbn; nra))
    as (t1 & -> & Ht10 & Ht11).
  destruct (pf_mul_range c c04 0 ltac:(lia) Hc0' H04 ltac:(cbn; nra))
    as (t2 & -> & Ht20 & Ht21).
  change (pow2 1) with 2%Q in *. change (pow2 0) with 1%Q in *.
  destruct (pf_add_range t1 t2 2 ltac:(lia) Ht10 Ht20 ltac:(cbn; lra))
    as (s & -> & Hs0 & Hs1).
  change (pow2 2) with 4%Q in *.
  destruct (pf_mul_range s 100 9 ltac:(lia) Hs0 ltac:(lra) ltac:(cbn; lra))
    as (f & -> & Hf0 & _).
  exists f. split; [reflexivity|]. split; [exact Hf0|].
  unfold pf_min, py_min. cbn [pf_ltb]. destruct (Qltb f 100); reflexivity.
Qed.

(** [ratio] never raises, and its result is a score between 0 and 100. *)
Lemma ratio_total (a b : string) :
  exists z : Z, ratio a b = Ok z /\ (0 <= z <= 100)%Z.
Proof.
  destruct (string_dec a EmptyString) as [-> | Ha].
  { exists 0%Z. split; [reflexivity | lia]. }
  destruct (string_dec b EmptyString) as [-> | Hb].
  { exists 0%Z. split; [|lia]. unfold ratio. destruct a; [contradiction | reflexivity]. }
  destruct (string_dec (normalize a) (normalize b)) as [Heq | Hne].
  { exists 100%Z. split; [|lia]. unfold ratio. fold (normalize a) (normalize b).
    destruct a; [contradiction|]. destruct b; [contradiction|]. cbn [str_falsy orb].
    rewrite Heq, String.eqb_refl. reflexivity. }
  destruct (ratio_score a b Ha Hb Hne) as (y & _ & Hy & Hr).
  eexists. split; [exact Hr|].
  destruct (py_min_spec 100 y) as (H100 & _ & [Hm | Hm]).
  - rewrite py_int_floor by lra.
    apply Qfloor_between; unfold inject_Z; lra.
  - rewrite py_int_floor by lra.
    apply Qfloor_between; unfold inject_Z; lra.
Qed.

Lemma py_int_min_clamp (y y' : Q) :
  (0 <= y)%Q -> (y == y')%Q -> py_int (py_min 100 y) = clamp 0 100 (py_int y').
Proof.
  intros Hy Heq. rewrite (py_int_floor y') by (rewrite <- Heq; exact Hy).
  rewrite <- (Qfloor_comp _ _ Heq). unfold py_min, clamp.
  destruct (Qltb y 100) eqn:Hlt.
  - apply Qltb_lt in Hlt. rewrite py_int_floor by exact Hy.
    pose proof (Qfloor_between y 0 100) as Hb. unfold inject_Z in Hb.
    specialize (Hb Hy ltac:(lra)). lia.
  - apply Qltb_ge in Hlt.
    assert (Hf : (100 <= Qfloor y)%Z).
    { rewrite <- (Qfloor_Z 100). apply Qfloor_resp_le. exact Hlt. }
    change (py_int 100) with 100%Z. lia.
Qed.

(** C7, as amended: [ratio] returns 0 as soon as one of its two arguments is
    the empty string, before any lower-casing or trimming. *)
Theorem ratio_empty_input (a b : string) :
  a = EmptyString \/ b = EmptyString -> ratio a b = Ok 0%Z.
Proof.
  intros [-> | ->]; unfold ratio; [reflexivity|].
  destruct a; reflexivity.
Qed.

(** [ratio_empty_input] on an empty first argument. *)
Lemma ratio_empty_input_witness : ratio "" "botox" = Ok 0%Z.
Proof. apply ratio_empty_input. left. reflexivity. Defined.

(** C7 fails for an argument that is blank but not empty: [" "] is empty
    after trimming, yet against ["x"] the score is 18 (the substring bonus
    alone), and against another blank string it is 100. *)
Lemma ratio_blank_input_nonzero :
  strip " " = EmptyString /\ strip "  " = EmptyString
  /\ ratio " " "x" = Ok 18%Z /\ ratio " " "  " = Ok 100%Z.
Proof. repeat split; vm_compute; reflexivity. Qed.

(** C5, as amended: [ratio a b] and [ratio b a] agree whenever as many
    characters of [a] occur in [b] as characters of [b] occur in [a], both
    strings taken lower-cased and trimmed. *)
Theorem ratio_symmetric_on_equal_overlap (a b : string) :
  common_chars (normalize a) (normalize b) = common_chars (normalize b) (normalize a) ->
  ratio a b = ratio b a.
Proof.
  intros Hc. unfold ratio. cbv zeta. fold (normalize a) (normalize b).
  rewrite (orb_comm (str_falsy b)).
  destruct (str_falsy a || str_falsy b); [reflexivity|].
  rewrite (String.eqb_sym (normalize b)).
  destruct (String.eqb (normalize a) (normalize b)); [reflexivity|].
  pose proof (intersection_comm_L (token_set (normalize b)) (token_set (normalize a))) as Hi.
  pose proof (union_comm_L (token_set (normalize b)) (token_set (normalize a))) as Hu.
  rewrite Hi, Hu.
  rewrite (orb_comm (contains (normalize b) (normalize a))).
  rewrite (Z.max_comm (len (normalize b))).
  rewrite Hc. reflexivity.
Qed.

(** [ratio_symmetric_on_equal_overlap] on two strings that share four
    characters each way. *)
Lemma ratio_symmetric_witness : ratio "a b c" "a b d" = ratio "a b d" "a b c".
Proof. apply ratio_symmetric_on_equal_overlap. vm_compute. reflexivity. Defined.

(** C5 fails: all three characters of ["aab"] occur in ["ab c"], but only
    two of the four characters of ["ab c"] occur in ["aab"]. *)
Lemma ratio_not_symmetric :
  ratio "aab" "ab c" = Ok 30%Z /\ ratio "ab c" "aab" = Ok 20%Z.
Proof. split; vm_compute; reflexivity. Qed.

(** C6, as amended: for two non-empty strings that differ after lower-casing
    and trimming, [ratio] is
    [clamp(0, 100, int(100 * (0.6 * jaccard_with_bonus + 0.4 * char_overlap)))]
    with the arithmetic carried out in binary64, each division, addition and
    multiplication rounded: the score so computed is finite, and it is
    truncated toward zero, not rounded to the nearest integer. *)
Theorem ratio_truncates_score (a b : string) :
  a <> EmptyString -> b <> EmptyString -> normalize a <> normalize b ->
  exists z,
    spec_similarity_b64 py_int a b = Some z /\ ratio a b = Ok z.
Proof.
  intros Ha Hb Hne. destruct (ratio_score a b Ha Hb Hne) as (x & Hx & H0 & Hr).
  exists (clamp 0 100 (py_int x)). unfold spec_similarity_b64. rewrite Hx.
  split; [reflexivity|]. rewrite Hr. f_equal.
  apply py_int_min_clamp; [exact H0 | reflexivity].
Qed.

(** [ratio_truncates_score] on two strings whose score is 58 in exact
    arithmetic and 57.99999999999999 in binary64: [ratio] returns 57. *)
Lemma ratio_truncates_witness :
  ratio "Sarah J" "Sarah Johnston" = Ok 57%Z
  /\ spec_similarity py_int "Sarah J" "Sarah Johnston" = 58%Z.
Proof.
  destruct (ratio_truncates_score "Sarah J" "Sarah Johnston")
    as (z & Hz & Hr); [discriminate | discriminate | vm_compute; discriminate |].
  split; [|vm_compute; reflexivity].
  rewrite Hr. f_equal.
  assert (Hs : spec_similarity_b64 py_int "Sarah J" "Sarah Johnston" = Some 57%Z)
    by (vm_compute; reflexivity).
  congruence.
Defined.

(** C6 fails with rounding to the nearest: on ["abx"] and ["aby"] the
    weighted sum is 26.67, which [ratio] returns as 26 and rounding makes 27. *)
Lemma ratio_is_not_rounded :
  ratio "abx" "aby" = Ok 26%Z /\ spec_similarity round_half_even "abx" "aby" = 27%Z.
Proof. split; vm_compute; reflexivity. Qed.

(** ** MedSpaReconciliationAPI *)

Section ScorerProperties.
Context `{PyRuntime}.

Lemma try_formats_total (date_str : string) (fmts : list string) :
  exists r, try_formats date_str fmts = Ok r.
Proof.
  induction fmts as [|fmt rest IH]; simpl; [eauto|].
  destruct (strptime date_str fmt); simpl; eauto.
Qed.

Lemma try_formats_all_fail (date_str : string) (fmts : list string) :
  (forall fmt, In fmt fmts -> exists e, strptime date_str fmt = Raise e) ->
  try_formats date_str fmts = Ok None.
Proof.
  induction fmts as [|fmt rest IH]; intros Hall; simpl; [reflexivity|].
  destruct (Hall fmt (or_introl eq_refl)) as [e ->]. simpl.
  apply IH. intros f Hf. apply Hall. right. exact Hf.
Qed.

Lemma parse_date_total (date_str : value) : exists r, parse_date date_str = Ok r.
Proof.
  unfold parse_date. destruct (truthy date_str); cbn [negb]; [|eauto]. cbv zeta.
  destruct (char_in "T" _ || char_in " " _).
  - destruct (index0 _); cbn [bind try_except]; [|eauto].
    destruct (fromisoformat _); cbn [bind try_except]; eauto.
  - destruct (try_formats_total (strip (py_str date_str)) date_formats) as [r ->].
    cbn [try_except]. eauto.
Qed.

(** C8: [parse_date] returns on every input and never raises; it returns
    [None] on a falsy input, on an ISO-like string (one with a [T] or a
    space) that [fromisoformat] rejects, and on any other string that none
    of the five formats reads. *)
Theorem parse_date_never_raises (date_str : value) :
  (exists r, parse_date date_str = Ok r)
  /\ (truthy date_str = false -> parse_date date_str = Ok None)
  /\ (forall head e,
        char_in "T" (strip (py_str date_str)) || char_in " " (strip (py_str date_str)) = true ->
        index0 (split_on "." (replace_char "T" " " (strip (py_str date_str)))) = Ok head ->
        fromisoformat head = Raise e ->
        parse_date date_str = Ok None)
  /\ (char_in "T" (strip (py_str date_str)) || char_in " " (strip (py_str date_str)) = false ->
      (forall fmt, In fmt date_formats ->
                   exists e, strptime (strip (py_str date_str)) fmt = Raise e) ->
      parse_date date_str = Ok None).
Proof.
  split; [apply parse_date_total|]. unfold parse_date.
  split; [intros ->; reflexivity|].
  split.
  - intros head e Hiso Hhead Hraise.
    destruct (truthy date_str); [|reflexivity]. cbn [negb]. cbv zeta.
    rewrite Hiso, Hhead. cbn [bind]. rewrite Hraise. reflexivity.
  - intros Hiso Hall.
    destruct (truthy date_str); [|reflexivity]. cbn [negb]. cbv zeta.
    rewrite Hiso, (try_formats_all_fail _ _ Hall). reflexivity.
Qed.

(** *** engineer_features *)

Lemma date_proximity_of_spec (reward_txn pos_txn : gmap string value) :
  exists dp, date_proximity_of reward_txn pos_txn = Ok dp /\ (0 <= dp <= 1)%Q.
Proof.
  unfold date_proximity_of.
  destruct (parse_date (dict_get reward_txn "date" (VStr ""))) as [[rd|]|];
    destruct (parse_date (dict_get pos_txn "date" (VStr ""))) as [[pd|]|];
    cbn [bind try_except]; try (exists 0%Q; split; [reflexivity | lra]).
  destruct (dt_sub rd pd) as [delta|]; cbn [bind try_except];
    try (exists 0%Q; split; [reflexivity | lra]).
  eexists. split; [reflexivity|].
  pose proof (Qabs_nonneg (total_seconds delta / 3600)) as Hh.
  set (h := Qabs (total_seconds delta / 3600)) in *.
  destruct (py_max_spec 0 (1 - h / 168)) as (H0 & _ & [Hm | Hm]); rewrite Hm in *.
  - lra.
  - split; [lra|]. assert (0 <= h / 168)%Q; [|lra].
    apply Qle_shift_div_l; lra.
Qed.

Lemma amount_ratio_valid_of_spec (reward_txn pos_txn : gmap string value) :
  exists v, amount_ratio_valid_of reward_txn pos_txn = Ok v /\ (v = 0 \/ v = 1)%Z.
Proof.
  unfold amount_ratio_valid_of.
  destruct (py_float (dict_get reward_txn "amount" (VInt 0))) as [ra|];
    cbn [bind try_except]; [|eauto].
  destruct (py_float (dict_get pos_txn "amount" (VInt 0))) as [pa|];
    cbn [bind try_except]; [|eauto].
  destruct (pf_ltb (Finite 0) pa); cbn [bind try_except]; [|eauto].
  destruct (pf_div ra pa) as [q|]; cbn [bind try_except]; [|eauto].
  destruct (pf_leb _ q && pf_leb q _); eauto.
Qed.

Lemma category_loop_flag (cats : list (string * list string)) (rs ps : string) :
  (category_loop cats rs ps = 0 \/ category_loop cats rs ps = 1)%Z.
Proof.
  induction cats as [|[c kws] rest IH]; simpl; [left; reflexivity|].
  destruct (existsb _ kws && existsb _ kws); [right; reflexivity | exact IH].
Qed.

Lemma unit_of_ratio (z : Z) : (0 <= z <= 100)%Z -> (0 <= inject_Z z / 100 <= 1)%Q.
Proof.
  intros [H0 H1]. rewrite Zle_Qle in H0, H1.
  change (inject_Z 0) with 0%Q in H0. change (inject_Z 100) with 100%Q in H1.
  set (q := inject_Z z) in *.
  split; [apply Qle_shift_div_l | apply Qle_shift_div_r]; lra.
Qed.

(** [engineer_features] never raises, and each feature is in its range. *)
Lemma engineer_features_spec (reward_txn pos_txn : gmap string value) :
  exists features,
    engineer_features reward_txn pos_txn = Ok features
    /\ (0 <= name_similarity features <= 1)%Q
    /\ (0 <= service_similarity features <= 1)%Q
    /\ (treatment_category_match features = 0 \/ treatment_category_match features = 1)%Z
    /\ (0 <= date_proximity features <= 1)%Q
    /\ (amount_ratio_valid features = 0 \/ amount_ratio_valid features = 1)%Z
    /\ date_proximity_of reward_txn pos_txn = Ok (date_proximity features)
    /\ amount_ratio_valid_of reward_txn pos_txn = Ok (amount_ratio_valid features)
    /\ (0 <= overall_confidence features <= 1)%Q.
Proof.
  unfold engineer_features. cbv zeta.
  destruct (ratio_total
              (strip (lower (py_str (dict_get reward_txn "customer_name" (VStr "")))))
              (reorder_last_first
                 (strip (lower (py_str (dict_get reward_txn "customer_name" (VStr "")))))
                 (strip (lower (py_str (dict_get pos_txn "customer_name" (VStr "")))))))
    as (nr & -> & Hn).
  destruct (ratio_total (lower (py_str (dict_get reward_txn "service" (VStr ""))))
              (lower (py_str (dict_get pos_txn "service" (VStr "")))))
    as (sr & -> & Hs).
  destruct (date_proximity_of_spec reward_txn pos_txn) as (dp & -> & Hd).
  destruct (amount_ratio_valid_of_spec reward_txn pos_txn) as (av & -> & Ha).
  cbn [bind]. eexists. split; [reflexivity|].
  cbn [name_similarity service_similarity treatment_category_match date_proximity
       amount_ratio_valid overall_confidence].
  apply unit_of_ratio in Hn, Hs.
  set (n := (inject_Z nr / 100)%Q) in *. set (s := (inject_Z sr / 100)%Q) in *.
  repeat split; try tauto; try apply category_loop_flag;
    destruct Ha as [-> | ->]; unfold inject_Z; lra.
Qed.

(** *** predict_match *)

Lemma boosted_unit (features : FeatureVector) :
  (0 <= overall_confidence features <= 1)%Q -> (0 <= boosted features <= 1)%Q.
Proof.
  intros Hc. unfold boosted.
  set (p := overall_confidence features) in *.
  assert (Hfirst : (0 <= (if Qltb (8 # 10) (name_similarity features)
                             && (treatment_category_match features =? 1)%Z
                          then py_min 1 (p + (2 # 10)) else p) <= 1)%Q).
  { destruct (_ && _); [|exact Hc].
    destruct (py_min_spec 1 (p + (2 # 10))) as (H1 & _ & [Hm | Hm]); rewrite Hm; lra. }
  set (p' := if _ && _ then _ else _) in *.
  destruct (Qltb (8 # 10) (date_proximity features)); [|exact Hfirst].
  destruct (py_min_spec 1 (p' + (1 # 10))) as (H1 & _ & [Hm | Hm]); rewrite Hm; lra.
Qed.

Lemma predict_match_result (now : datetime) (reward_txn pos_txn : gmap string value)
    (threshold : pyfloat) (features : FeatureVector) :
  engineer_features reward_txn pos_txn = Ok features ->
  predict_match now reward_txn pos_txn threshold
  = Ok (build_result now features (boosted features) threshold).
Proof. intros Hf. unfold predict_match. rewrite Hf. reflexivity. Qed.

Lemma build_result_fields (now : datetime) (features : FeatureVector) (p : Q)
    (threshold : pyfloat) :
  let r := build_result now features p threshold in
  match_probability r = py_round p 4
  /\ predicted_match r = (if pf_leb threshold (Finite p) then 1 else 0)%Z
  /\ confidence_level r = fst (classify p)
  /\ recommendation r = snd (classify p)
  /\ threshold_used r = threshold
  /\ processing_timestamp r = isoformat now
  /\ api_version r = "1.0.0-final-cors-fixed".
Proof.
  unfold build_result. destruct (classify p) as [c rec]. cbn. repeat split.
Qed.

(** C2: the confidence level and the recommendation of [predict_match] are
    read off the boosted probability against the fixed cutoffs 0.95 and
    0.80, the higher one first, whatever the threshold; the threshold only
    sets [predicted_match], which is 1 exactly when the probability reaches
    it, and its own echo [threshold_used]: a call with another threshold
    (at any reading of the clock) returns the same level, recommendation,
    probability and features. *)
Theorem classification_ignores_threshold (now : datetime)
    (reward_txn pos_txn : gmap string value) (threshold : pyfloat) :
  exists features r,
    engineer_features reward_txn pos_txn = Ok features
    /\ predict_match now reward_txn pos_txn threshold = Ok r
    /\ ((95 # 100 <= boosted features)%Q ->
        confidence_level r = "High" /\ recommendation r = "Auto-Accept")
    /\ ((80 # 100 <= boosted features)%Q /\ (boosted features < 95 # 100)%Q ->
        confidence_level r = "Medium" /\ recommendation r = "Manual Review")
    /\ ((boosted features < 80 # 100)%Q ->
        confidence_level r = "Low" /\ recommendation r = "Likely No Match")
    /\ (predicted_match r = 1 \/ predicted_match r = 0)%Z
    /\ (predicted_match r = 1%Z <-> pf_leb threshold (Finite (boosted features)) = true)
    /\ (forall t : Q, threshold = Finite t ->
                      (predicted_match r = 1%Z <-> (t <= boosted features)%Q))
    /\ (forall now' threshold' r',
          predict_match now' reward_txn pos_txn threshold' = Ok r' ->
          confidence_level r' = confidence_level r
          /\ recommendation r' = recommendation r
          /\ match_probability r' = match_probability r
          /\ feature_analysis r' = feature_analysis r
          /\ api_version r' = api_version r
          /\ threshold_used r' = threshold').
Proof.
  destruct (engineer_features_spec reward_txn pos_txn) as (features & Hf & _).
  exists features, (build_result now features (boosted features) threshold).
  split; [exact Hf|]. split; [apply predict_match_result, Hf|].
  destruct (build_result_fields now features (boosted features) threshold)
    as (_ & Hpm & Hc & Hr & _).
  rewrite Hc, Hr, Hpm. unfold classify.
  set (p := boosted features) in *.
  split; [|split; [|split]].
  - intros Hp. apply Qle_bool_iff in Hp. rewrite Hp. split; reflexivity.
  - intros [H80 H95]. apply Qle_bool_iff in H80. rewrite H80.
    destruct (Qle_bool (95 # 100) p) eqn:Hb; [|split; reflexivity].
    apply Qle_bool_iff in Hb. lra.
  - intros Hp.
    destruct (Qle_bool (95 # 100) p) eqn:Hb; [apply Qle_bool_iff in Hb; lra|].
    destruct (Qle_bool (80 # 100) p) eqn:Hb'; [apply Qle_bool_iff in Hb'; lra|].
    split; reflexivity.
  - split; [destruct (pf_leb threshold (Finite p)); auto|].
    split; [destruct (pf_leb threshold (Finite p)); split; congruence|].
    split.
    + intros t ->. cbn [pf_leb]. rewrite <- Qle_bool_iff.
      destruct (Qle_bool t p); split; congruence.
    + intros now' threshold' r' Hr'.
      rewrite (predict_match_result now' _ _ threshold' features Hf) in Hr'.
      injection Hr' as <-. fold p.
      unfold build_result, classify.
      destruct (Qle_bool (95 # 100) p), (Qle_bool (80 # 100) p); cbn; repeat split.
Qed.

(** C4: for any two records and any threshold, [overall_confidence] and the
    [match_probability] that [predict_match] returns are both between 0 and
    1, the boosts included. *)
Theorem scores_in_unit_interval (now : datetime)
    (reward_txn pos_txn : gmap string value) (threshold : pyfloat) :
  exists features r,
    engineer_features reward_txn pos_txn = Ok features
    /\ predict_match now reward_txn pos_txn threshold = Ok r
    /\ (0 <= overall_confidence features <= 1)%Q
    /\ (0 <= boosted features <= 1)%Q
    /\ match_probability r = py_round (boosted features) 4
    /\ (0 <= match_probability r <= 1)%Q.
Proof.
  destruct (engineer_features_spec reward_txn pos_txn)
    as (features & Hf & _ & _ & _ & _ & _ & _ & _ & Hc).
  exists features, (build_result now features (boosted features) threshold).
  split; [exact Hf|]. split; [apply predict_match_result, Hf|].
  split; [exact Hc|]. pose proof (boosted_unit features Hc) as Hb.
  split; [exact Hb|].
  destruct (build_result_fields now features (boosted features) threshold) as (-> & _).
  split; [reflexivity|]. apply py_round_unit, Hb.
Qed.

(** C9, as amended: two calls of [predict_match] on the same records and
    threshold return the same value in every field but
    [processing_timestamp], which holds the wall-clock time of each call;
    when the clock reads the same, the two results are equal. *)
Theorem predict_match_repeatable (now1 now2 : datetime)
    (reward_txn pos_txn : gmap string value) (threshold : pyfloat) :
  exists r1 r2,
    predict_match now1 reward_txn pos_txn threshold = Ok r1
    /\ predict_match now2 reward_txn pos_txn threshold = Ok r2
    /\ match_probability r1 = match_probability r2
    /\ predicted_match r1 = predicted_match r2
    /\ confidence_level r1 = confidence_level r2
    /\ recommendation r1 = recommendation r2
    /\ threshold_used r1 = threshold_used r2
    /\ feature_analysis r1 = feature_analysis r2
    /\ api_version r1 = api_version r2
    /\ processing_timestamp r1 = isoformat now1
    /\ processing_timestamp r2 = isoformat now2
    /\ (now1 = now2 -> r1 = r2).
Proof.
  destruct (engineer_features_spec reward_txn pos_txn) as (features & Hf & _).
  exists (build_result now1 features (boosted features) threshold),
         (build_result now2 features (boosted features) threshold).
  split; [apply predict_match_result, Hf|]. split; [apply predict_match_result, Hf|].
  unfold build_result. destruct (classify (boosted features)) as [c rec]. cbn.
  repeat split. intros ->. reflexivity.
Qed.

(** *** Absent fields *)

Lemma pf_leb_zero_not_positive (p : pyfloat) :
  pf_leb p (Finite 0) = true -> pf_ltb (Finite 0) p = false.
Proof.
  destruct p as [q| | |]; cbn; try discriminate; [|reflexivity].
  unfold Qltb. intros ->. reflexivity.
Qed.

Lemma amount_invalid_when_pos_not_positive (reward_txn pos_txn : gmap string value)
    (p : pyfloat) :
  py_float (dict_get pos_txn "amount" (VInt 0)) = Ok p ->
  pf_leb p (Finite 0) = true ->
  amount_ratio_valid_of reward_txn pos_txn = Ok 0%Z.
Proof.
  intros Hp Hle. unfold amount_ratio_valid_of. rewrite Hp.
  destruct (py_float (dict_get reward_txn "amount" (VInt 0))); cbn [bind try_except];
    [|reflexivity].
  rewrite (pf_leb_zero_not_positive p Hle). reflexivity.
Qed.

Lemma dict_get_absent (tx : gmap string value) (key : string) (dflt : value) :
  tx !! key = None -> dict_get tx key dflt = dflt.
Proof. intros Hk. unfold dict_get. rewrite Hk. reflexivity. Qed.

Lemma amount_invalid_when_reward_zero (reward_txn pos_txn : gmap string value) :
  py_float (dict_get reward_txn "amount" (VInt 0)) = Ok (Finite (inject_Z 0)) ->
  amount_ratio_valid_of reward_txn pos_txn = Ok 0%Z.
Proof.
  intros Hr. unfold amount_ratio_valid_of. rewrite Hr. cbn [bind].
  destruct (py_float (dict_get pos_txn "amount" (VInt 0))) as [pa|];
    cbn [bind try_except]; [|reflexivity].
  destruct (pf_ltb (Finite 0) pa) eqn:Hpos; cbn [bind try_except]; [|reflexivity].
  destruct pa as [y| | |]; cbn in Hpos; try discriminate.
  - apply Qltb_lt in Hpos. cbn [pf_div].
    destruct (Qeq_bool y 0) eqn:Hy; [apply Qeq_bool_iff in Hy; lra|].
    cbn [bind try_except pf_leb].
    destruct (Qle_bool (5 # 100) (inject_Z 0 / y)) eqn:Hb; [|reflexivity].
    apply Qle_bool_iff in Hb. exfalso.
    assert (Hz : (inject_Z 0 / y == 0)%Q) by (unfold Qdiv; apply Qmult_0_l).
    rewrite Hz in Hb. lra.
  - reflexivity.
Qed.

Lemma date_proximity_zero_when_absent (reward_txn pos_txn : gmap string value) :
  reward_txn !! "date" = None \/ pos_txn !! "date" = None ->
  date_proximity_of reward_txn pos_txn = Ok 0%Q.
Proof.
  intros Habs. unfold date_proximity_of.
  destruct (parse_date_total (dict_get reward_txn "date" (VStr ""))) as [rd Hrd].
  destruct (parse_date_total (dict_get pos_txn "date" (VStr ""))) as [pd Hpd].
  destruct Habs as [Hk | Hk]; rewrite (dict_get_absent _ _ _ Hk) in *.
  - assert (rd = None) as -> by (cbn in Hrd; congruence).
    rewrite Hrd, Hpd. reflexivity.
  - assert (pd = None) as -> by (cbn in Hpd; congruence).
    rewrite Hrd, Hpd. destruct rd; reflexivity.
Qed.

Lemma dict_get_with_defaults (tx : gmap string value) (key : string) (dflt : value) :
  field_defaults !! key = Some dflt ->
  dict_get (with_defaults tx) key dflt = dict_get tx key dflt.
Proof.
  intros Hd. unfold dict_get, with_defaults. rewrite lookup_union, Hd.
  destruct (tx !! key); reflexivity.
Qed.

(** C10, as amended: [engineer_features] returns its six features for any
    two dicts; [amount_ratio_valid] is 0 whenever the parsed point-of-sale
    amount is at most 0 and whenever the amount is absent from either
    record; a date absent from either record makes [date_proximity] 0 (it
    leaves [amount_ratio_valid] as the amounts make it); and an absent field
    counts as its default: the empty string for the names, the services and
    the dates, 0 for the amounts. *)
Theorem engineer_features_absent_fields (reward_txn pos_txn : gmap string value) :
  exists features,
    engineer_features reward_txn pos_txn = Ok features
    /\ (forall p, py_float (dict_get pos_txn "amount" (VInt 0)) = Ok p ->
                  pf_leb p (Finite 0) = true -> amount_ratio_valid features = 0%Z)
    /\ (reward_txn !! "amount" = None \/ pos_txn !! "amount" = None ->
        amount_ratio_valid features = 0%Z)
    /\ (reward_txn !! "date" = None \/ pos_txn !! "date" = None ->
        date_proximity features = 0%Q)
    /\ engineer_features (with_defaults reward_txn) (with_defaults pos_txn) = Ok features.
Proof.
  destruct (engineer_features_spec reward_txn pos_txn)
    as (features & Hf & _ & _ & _ & _ & _ & Hd & Ha & _).
  exists features. split; [exact Hf|]. repeat split.
  - intros p Hp Hle.
    rewrite (amount_invalid_when_pos_not_positive _ _ p Hp Hle) in Ha. congruence.
  - intros [Hk | Hk].
    + rewrite amount_invalid_when_reward_zero in Ha; [congruence|].
      rewrite (dict_get_absent _ _ _ Hk). reflexivity.
    + rewrite (amount_invalid_when_pos_not_positive _ _ (Finite (inject_Z 0))) in Ha;
        [congruence | | reflexivity].
      rewrite (dict_get_absent _ _ _ Hk). reflexivity.
  - intros Habs. rewrite (date_proximity_zero_when_absent _ _ Habs) in Hd. congruence.
  - rewrite <- Hf. unfold engineer_features, date_proximity_of, amount_ratio_valid_of.
    rewrite !dict_get_with_defaults by reflexivity. reflexivity.
Qed.

(** *** The sample pair *)

Lemma sample_date_proximity :
  strptime "2024-08-15" "%Y-%m-%d" = Ok (mk_datetime 2024 8 15 0 0 0 0 None) ->
  fromisoformat "2024-08-15 14:30:00" = Ok (mk_datetime 2024 8 15 14 30 0 0 None) ->
  date_proximity_of sample_reward sample_pos = Ok (552600000000 # 604800000000)%Q.
Proof.
  intros Hs Hi. unfold date_proximity_of.
  replace (dict_get sample_reward "date" (VStr "")) with (VStr "2024-08-15")
    by (vm_compute; reflexivity).
  replace (dict_get sample_pos "date" (VStr "")) with (VStr "2024-08-15 14:30:00")
    by (vm_compute; reflexivity).
  assert (Hr : parse_date (VStr "2024-08-15") = Ok (Some (mk_datetime 2024 8 15 0 0 0 0 None))).
  { unfold parse_date. cbn [truthy str_falsy negb py_str]. cbv zeta.
    replace (strip "2024-08-15") with "2024-08-15" by (vm_compute; reflexivity).
    replace (char_in "T" "2024-08-15" || char_in " " "2024-08-15") with false
      by (vm_compute; reflexivity).
    unfold date_formats. cbn [try_formats]. rewrite Hs. reflexivity. }
  assert (Hp : parse_date (VStr "2024-08-15 14:30:00")
               = Ok (Some (mk_datetime 2024 8 15 14 30 0 0 None))).
  { unfold parse_date. cbn [truthy str_falsy negb py_str]. cbv zeta.
    replace (strip "2024-08-15 14:30:00") with "2024-08-15 14:30:00"
      by (vm_compute; reflexivity).
    replace (char_in "T" "2024-08-15 14:30:00" || char_in " " "2024-08-15 14:30:00")
      with true by (vm_compute; reflexivity).
    replace (index0 (split_on "." (replace_char "T" " " "2024-08-15 14:30:00")))
      with (Ok "2024-08-15 14:30:00") by (vm_compute; reflexivity).
    cbn [bind]. rewrite Hi. reflexivity. }
  rewrite Hr, Hp. vm_compute. reflexivity.
Qed.

(** C3: on the pair that the [/test] endpoint scores, with the default
    threshold, the two services fall in the same treatment category, the
    amount ratio is valid, the name similarity is 1 once the point-of-sale
    name is turned around, the date proximity is above 0.9 and the pair is
    auto-accepted with high confidence; the runtime is taken to parse the
    two date strings as CPython does. *)
Theorem sample_pair_auto_accept (now : datetime) :
  strptime "2024-08-15" "%Y-%m-%d" = Ok (mk_datetime 2024 8 15 0 0 0 0 None) ->
  fromisoformat "2024-08-15 14:30:00" = Ok (mk_datetime 2024 8 15 14 30 0 0 None) ->
  exists features r,
    engineer_features sample_reward sample_pos = Ok features
    /\ predict_match now sample_reward sample_pos default_threshold = Ok r
    /\ reorder_last_first (normalize "Sarah Johnson") (normalize "Johnson, Sarah")
       = normalize "Sarah Johnson"
    /\ treatment_category_match features = 1%Z
    /\ amount_ratio_valid features = 1%Z
    /\ (9 # 10 < date_proximity features)%Q
    /\ (name_similarity features == 1)%Q
    /\ confidence_level r = "High"
    /\ recommendation r = "Auto-Accept"
    /\ predicted_match r = 1%Z.
Proof.
  intros Hs Hi.
  destruct (engineer_features_spec sample_reward sample_pos) as (features & Hf & _).
  exists features, (build_result now features (boosted features) default_threshold).
  split; [exact Hf|]. split; [apply predict_match_result, Hf|].
  destruct (build_result_fields now features (boosted features) default_threshold)
    as (_ & -> & -> & -> & _).
  unfold engineer_features in Hf. rewrite (sample_date_proximity Hs Hi) in Hf.
  vm_compute in Hf. injection Hf as <-.
  repeat split; vm_compute; reflexivity.
Qed.

End ScorerProperties.

(** ** The properties on the sample requests *)

(** [sample_pair_auto_accept] with the sample runtime, scored at [noon]. *)
Lemma sample_pair_auto_accept_witness :
  exists r,
    @predict_match sample_runtime noon sample_reward sample_pos default_threshold = Ok r
    /\ confidence_level r = "High" /\ recommendation r = "Auto-Accept".
Proof.
  destruct (@sample_pair_auto_accept sample_runtime noon eq_refl eq_refl)
    as (features & r & _ & Hr & _ & _ & _ & _ & _ & Hc & Hrec & _).
  exists r. auto.
Defined.

(** C9 fails on the timestamp: the same pair scored at two readings of the
    clock gives two results that differ in [processing_timestamp]. *)
Lemma predict_match_timestamp_differs :
  match @predict_match sample_runtime noon sample_reward sample_pos default_threshold,
        @predict_match sample_runtime noon_later sample_reward sample_pos default_threshold
  with
  | Ok r1, Ok r2 =>
      processing_timestamp r1 = "2024-08-16T12:00:00"
      /\ processing_timestamp r2 = "2024-08-16T12:00:00.000250"
      /\ (if string_dec (processing_timestamp r1) (processing_timestamp r2)
          then true else false) = false
  | _, _ => False
  end.
Proof. vm_compute. repeat split. Qed.

(** C10 fails for the date: with [date] absent from both records the
    amounts 35 and 350 still make [amount_ratio_valid] 1. *)
Lemma amount_valid_without_dates :
  dateless_reward !! "date" = None /\ dateless_pos !! "date" = None
  /\ match @engineer_features sample_runtime dateless_reward dateless_pos with
     | Ok features => amount_ratio_valid features = 1%Z /\ date_proximity features = 0%Q
     | Raise _ => False
     end.
Proof. vm_compute. repeat split. Qed.

(** ** The [/batch-predict] handler *)

Section BatchProperties.
Context `{PyRuntime}.





(** The handler up to the loop, for a request whose envelope is in order. *)
Lemma batch_predict_loop (score : scorer) (clock : nat -> datetime)
    (data : gmap string value) (pairs : list value) (threshold : pyfloat) :
  data !! "transaction_pairs" = Some (VList pairs) ->
  py_float (dict_get data "threshold" (VFloat (Finite (95 # 100)))) = Ok threshold ->
  pf_leb (Finite 0) threshold && pf_leb threshold (Finite 1) = true ->
  match batch_loop score clock threshold 0 pairs [] with
  | Ok results =>
      exists summary info,
        batch_predict (Some score) clock (VDict data) = Success results summary info
  | Raise (ValueError msg) =>
      batch_predict (Some score) clock (VDict data) = Failure 400 msg "validation_error"
  | Raise _ =>
      batch_predict (Some score) clock (VDict data)
      = Failure 500 "Internal server error" "internal_server_error"
  end.
Proof.
  intros Hpairs Hthr Hrange. unfold batch_predict, batch_body.
  assert (Htruthy : truthy (VDict data) = true).
  { cbn [truthy]. apply negb_true_iff, bool_decide_eq_false. intros ->.
    rewrite lookup_empty in Hpairs. discriminate. }
  assert (Hget : dict_get data "transaction_pairs" VNone = VList pairs).
  { unfold dict_get. rewrite Hpairs. reflexivity. }
  rewrite Htruthy. cbn [negb bind]. rewrite Hget, Hthr. cbn [try_except_tv bind].
  rewrite Hrange. cbn [negb].
  destruct (batch_loop score clock threshold 0 pairs []) as [results | e]; cbn [bind].
  - destruct results as [|r0 rs]; cbn [bind]; [eauto|].
    rewrite true_div_ok by (cbn [length]; lia). cbn [bind]. eauto.
  - destruct e; reflexivity.
Qed.




End BatchProperties.


(** An earlier pair decides: with an int amount too large for a float in
    the first pair, the [OverflowError] of [float()] escapes
    [except (TypeError, ValueError)] and the answer is 500, although the
    second pair lacks [service]. *)
Example batch_with_overflowing_amount :
  @batch_predict sample_runtime (Some (@predict_match sample_runtime))
    (fun _ => noon) (VDict sample_batch_overflow)
  = Failure 500 "Internal server error" "internal_server_error".
Proof. vm_compute. reflexivity. Qed.


(** * Further properties of the scorer *)

(** ** SimpleFuzzyMatcher.ratio: what the score depends on *)

Lemma str_falsy_nonempty (s : string) : s <> EmptyString -> str_falsy s = false.
Proof. destruct s; [contradiction | reflexivity]. Qed.

Lemma ratio_empty_first (b : string) : ratio EmptyString b = Ok 0%Z.
Proof. reflexivity. Qed.

Lemma ratio_empty_second (a : string) : ratio a EmptyString = Ok 0%Z.
Proof. unfold ratio. destruct a; reflexivity. Qed.

(** X1: on non-empty arguments the score depends only on their lower-cased,
    trimmed forms, and it is 100 when these forms coincide: letter case and
    surrounding blanks never change a score. *)
Theorem ratio_depends_on_normal_forms (a a' b b' : string) :
  a <> EmptyString -> a' <> EmptyString -> b <> EmptyString -> b' <> EmptyString ->
  normalize a = normalize a' -> normalize b = normalize b' ->
  ratio a b = ratio a' b'
  /\ (normalize a = normalize b -> ratio a b = Ok 100%Z).
Proof.
  intros Ha Ha' Hb Hb' Hna Hnb. unfold ratio. cbv zeta.
  fold (normalize a) (normalize a') (normalize b) (normalize b').
  rewrite !str_falsy_nonempty by assumption. cbn [orb].
  rewrite <- Hna, <- Hnb. split; [reflexivity|].
  intros ->. rewrite String.eqb_refl. reflexivity.
Qed.

(** [ratio_depends_on_normal_forms] on a name and its padded upper-case
    spelling. *)
Lemma ratio_depends_on_normal_forms_witness :
  ratio "Sarah Johnson" "  SARAH JOHNSON " = ratio "sarah johnson" "sarah johnson"
  /\ ratio "Sarah Johnson" "  SARAH JOHNSON " = Ok 100%Z.
Proof.
  destruct (ratio_depends_on_normal_forms
              "Sarah Johnson" "sarah johnson" "  SARAH JOHNSON " "sarah johnson")
    as [Heq H100]; try discriminate; try (vm_compute; reflexivity).
  split; [exact Heq | apply H100; vm_compute; reflexivity].
Defined.

(** ** The "Last, First" rule *)

Lemma append_cons (c : ascii) (s t : string) : String c s ++ t = String c (s ++ t).
Proof. reflexivity. Qed.

Lemma append_nil (t : string) : EmptyString ++ t = t.
Proof. reflexivity. Qed.

Lemma char_in_app (c : ascii) (s t : string) :
  char_in c (s ++ t) = char_in c s || char_in c t.
Proof.
  induction s as [|d r IH]; [reflexivity|].
  rewrite append_cons. cbn [char_in]. rewrite IH, orb_assoc. reflexivity.
Qed.

Lemma split_on_absent (sep : ascii) (s : string) :
  char_in sep s = false -> split_on sep s = [s].
Proof.
  induction s as [|c r IH]; cbn; [reflexivity|].
  intros Hc. apply orb_false_iff in Hc as [Hc Hr].
  rewrite Ascii.eqb_sym, Hc, (IH Hr). reflexivity.
Qed.

Lemma split_on_first (sep : ascii) (s t : string) :
  char_in sep s = false ->
  split_on sep (s ++ String sep t) = s :: split_on sep t.
Proof.
  induction s as [|c r IH].
  - intros _. rewrite append_nil. cbn [split_on]. rewrite Ascii.eqb_refl. reflexivity.
  - intros Hc. cbn [char_in] in Hc. apply orb_false_iff in Hc as [Hc Hr].
    rewrite append_cons. cbn [split_on].
    rewrite Ascii.eqb_sym, Hc, (IH Hr). reflexivity.
Qed.

Lemma reorder_last_first_swap (reward_name last first : string) :
  char_in "," reward_name = false ->
  char_in "," last = false -> char_in "," first = false ->
  reorder_last_first reward_name (last ++ String "," first)
  = strip first ++ " " ++ strip last.
Proof.
  intros Hr Hl Hf. unfold reorder_last_first.
  rewrite char_in_app, Hr. cbn [char_in]. rewrite Ascii.eqb_refl, orb_true_r.
  cbn [negb andb].
  rewrite (split_on_first _ _ _ Hl), (split_on_absent _ _ Hf). reflexivity.
Qed.

Lemma char_in_lstrip (c : ascii) (s : string) :
  char_in c s = false -> char_in c (lstrip s) = false.
Proof.
  induction s as [|d r IH]; [reflexivity|]. cbn [lstrip].
  destruct (py_isspace d); [|tauto].
  cbn [char_in]. intros Hc. apply orb_false_iff in Hc as [_ Hr]. exact (IH Hr).
Qed.

Lemma char_in_rstrip (c : ascii) (s : string) :
  char_in c s = false -> char_in c (rstrip s) = false.
Proof.
  induction s as [|d r IH]; [reflexivity|]. cbn [rstrip char_in].
  intros Hc. apply orb_false_iff in Hc as [Hd Hr]. specialize (IH Hr).
  destruct (rstrip r) as [|e r'].
  - destruct (py_isspace d); [reflexivity|]. cbn [char_in]. rewrite Hd. reflexivity.
  - cbn [char_in] in *. rewrite Hd. exact IH.
Qed.

Lemma char_in_strip (c : ascii) (s : string) :
  char_in c s = false -> char_in c (strip s) = false.
Proof. intros Hc. unfold strip. apply char_in_rstrip, char_in_lstrip, Hc. Qed.

Lemma ratio_same (a : string) : a <> EmptyString -> ratio a a = Ok 100%Z.
Proof.
  intros Ha. unfold ratio. rewrite (str_falsy_nonempty a Ha). cbn [orb].
  rewrite String.eqb_refl. reflexivity.
Qed.

(** X2: the point-of-sale name is turned around exactly when it has one
    comma and the reward name has none: "last,first" becomes "first last"
    with both parts trimmed; a name with no comma, a name with two commas
    or more, and any name facing a reward name that has a comma are left
    as they are. *)
Theorem reorder_last_first_cases (reward_name : string) :
  (forall last first,
     char_in "," reward_name = false ->
     char_in "," last = false -> char_in "," first = false ->
     reorder_last_first reward_name (last ++ String "," first)
     = strip first ++ " " ++ strip last)
  /\ (forall pos_name,
        char_in "," pos_name = false ->
        reorder_last_first reward_name pos_name = pos_name)
  /\ (forall pos_name,
        char_in "," reward_name = true ->
        reorder_last_first reward_name pos_name = pos_name)
  /\ (forall p0 p1 p2,
        char_in "," p0 = false -> char_in "," p1 = false ->
        reorder_last_first reward_name (p0 ++ String "," (p1 ++ String "," p2))
        = p0 ++ String "," (p1 ++ String "," p2)).
Proof.
  split; [intros last first; apply reorder_last_first_swap|].
  unfold reorder_last_first. repeat split.
  - intros pos_name ->. reflexivity.
  - intros pos_name ->. rewrite andb_false_r. reflexivity.
  - intros p0 p1 p2 H0 H1.
    destruct (char_in "," (p0 ++ String "," (p1 ++ String "," p2))
              && negb (char_in "," reward_name)); [|reflexivity].
    rewrite (split_on_first _ _ _ H0), (split_on_first _ _ _ H1).
    destruct (split_on "," p2) as [|w ws] eqn:Hs; [|reflexivity].
    destruct p2 as [|c r]; cbn in Hs; [discriminate|].
    destruct (Ascii.eqb c ","); [discriminate|].
    destruct (split_on "," r); discriminate.
Qed.

(** ** engineer_features, feature by feature *)

Section FeatureProperties.
Context `{PyRuntime}.

(** [engineer_features] spelled out: the four computations it chains and
    the vector it builds from them. *)
Lemma engineer_features_unfold (reward_txn pos_txn : gmap string value) :
  exists nr sr dp av,
    ratio (strip (lower (py_str (dict_get reward_txn "customer_name" (VStr "")))))
          (reorder_last_first
             (strip (lower (py_str (dict_get reward_txn "customer_name" (VStr "")))))
             (strip (lower (py_str (dict_get pos_txn "customer_name" (VStr ""))))))
    = Ok nr
    /\ ratio (lower (py_str (dict_get reward_txn "service" (VStr ""))))
             (lower (py_str (dict_get pos_txn "service" (VStr ""))))
       = Ok sr
    /\ date_proximity_of reward_txn pos_txn = Ok dp
    /\ amount_ratio_valid_of reward_txn pos_txn = Ok av
    /\ engineer_features reward_txn pos_txn
       = Ok (mk_features (inject_Z nr / 100) (inject_Z sr / 100)
               (category_loop treatment_keywords
                  (lower (py_str (dict_get reward_txn "service" (VStr ""))))
                  (lower (py_str (dict_get pos_txn "service" (VStr "")))))
               dp av
               (inject_Z nr / 100 * (4 # 10) + inject_Z sr / 100 * (3 # 10)
                + dp * (2 # 10) + inject_Z av * (1 # 10)))%Q
    /\ (0 <= inject_Z nr / 100 <= 1)%Q
    /\ (0 <= inject_Z sr / 100 <= 1)%Q
    /\ (0 <= dp <= 1)%Q
    /\ (av = 0 \/ av = 1)%Z.
Proof.
  unfold engineer_features. cbv zeta.
  destruct (ratio_total
              (strip (lower (py_str (dict_get reward_txn "customer_name" (VStr "")))))
              (reorder_last_first
                 (strip (lower (py_str (dict_get reward_txn "customer_name" (VStr "")))))
                 (strip (lower (py_str (dict_get pos_txn "customer_name" (VStr "")))))))
    as (nr & Hnr & Hn).
  destruct (ratio_total (lower (py_str (dict_get reward_txn "service" (VStr ""))))
              (lower (py_str (dict_get pos_txn "service" (VStr "")))))
    as (sr & Hsr & Hs).
  destruct (date_proximity_of_spec reward_txn pos_txn) as (dp & Hdp & Hd).
  destruct (amount_ratio_valid_of_spec reward_txn pos_txn) as (av & Hav & Ha).
  exists nr, sr, dp, av. rewrite Hnr, Hsr, Hdp, Hav. cbn [bind].
  repeat split; try reflexivity; try apply unit_of_ratio; try tauto.
Qed.

(** X3: when the trimmed, lower-cased point-of-sale name is "last,first"
    and the reward name is "first last" (one comma in the first, none in
    the second), the name similarity is 1: the two spellings of a name
    count as the same name. *)
Theorem swapped_name_is_full_match (reward_txn pos_txn : gmap string value)
    (first last : string) :
  char_in "," first = false -> char_in "," last = false ->
  strip (lower (py_str (dict_get pos_txn "customer_name" (VStr ""))))
  = last ++ String "," first ->
  strip (lower (py_str (dict_get reward_txn "customer_name" (VStr ""))))
  = strip first ++ " " ++ strip last ->
  exists features,
    engineer_features reward_txn pos_txn = Ok features
    /\ (name_similarity features == 1)%Q.
Proof.
  intros Hf Hl Hpos Hreward.
  destruct (engineer_features_unfold reward_txn pos_txn)
    as (nr & sr & dp & av & Hnr & _ & _ & _ & Hef & _).
  eexists. split; [exact Hef|]. cbn [name_similarity].
  assert (Hcomma : char_in "," (strip first ++ " " ++ strip last) = false).
  { rewrite !char_in_app, (char_in_strip _ _ Hf), (char_in_strip _ _ Hl). reflexivity. }
  rewrite Hpos, Hreward in Hnr.
  rewrite (reorder_last_first_swap _ _ _ Hcomma Hl Hf) in Hnr.
  rewrite ratio_same in Hnr.
  - injection Hnr as <-. reflexivity.
  - destruct (strip first); discriminate.
Qed.

End FeatureProperties.

(** [swapped_name_is_full_match] on the sample pair, whose point-of-sale
    name is "Johnson, Sarah". *)
Lemma swapped_name_witness :
  exists features,
    @engineer_features sample_runtime sample_reward sample_pos = Ok features
    /\ (name_similarity features == 1)%Q.
Proof.
  apply (@swapped_name_is_full_match sample_runtime sample_reward sample_pos
           " sarah" "johnson"); vm_compute; reflexivity.
Defined.

Section FeatureSymmetry.
Context `{PyRuntime}.

Lemma category_loop_comm (cats : list (string * list string)) (a b : string) :
  category_loop cats a b = category_loop cats b a.
Proof.
  induction cats as [|[c kws] rest IH]; [reflexivity|].
  cbn [category_loop]. rewrite andb_comm, IH. reflexivity.
Qed.

Lemma py_max_zero (x : Q) :
  ((x <= 0)%Q -> py_max 0 x = 0%Q) /\ ((0 < x)%Q -> py_max 0 x = x).
Proof.
  unfold py_max. destruct (Qltb 0 x) eqn:Hlt.
  - apply Qltb_lt in Hlt. split; [intros Hle; lra | reflexivity].
  - apply Qltb_ge in Hlt. split; [reflexivity | intros Hpos; lra].
Qed.

Lemma py_max_zero_compat (x y : Q) : (x == y)%Q -> (py_max 0 x == py_max 0 y)%Q.
Proof.
  intros Hxy. destruct (Qlt_le_dec 0 x) as [Hpos | Hle].
  - rewrite (proj2 (py_max_zero x) Hpos), (proj2 (py_max_zero y)); [exact Hxy | lra].
  - rewrite (proj1 (py_max_zero x) Hle), (proj1 (py_max_zero y)); [reflexivity | lra].
Qed.

(** The hours between two datetimes, as [date_proximity_of] measures them,
    in terms of the gap in microseconds. *)
Lemma hours_of_gap (delta : Z) :
  (Qabs (total_seconds delta / 3600) / 168
   == inject_Z (Z.abs delta) / 604800000000)%Q.
Proof.
  unfold total_seconds, Qdiv. rewrite !Qabs_Qmult.
  change (Qabs (inject_Z delta)) with (inject_Z (Z.abs delta)).
  change (Qabs (/ 1000000)) with (/ 1000000)%Q.
  change (Qabs (/ 3600)) with (/ 3600)%Q.
  set (g := inject_Z (Z.abs delta)). field.
Qed.

(** [date_proximity_of] once both dates have parsed. *)
Lemma date_proximity_of_parsed (reward_txn pos_txn : gmap string value)
    (reward_date pos_date : datetime) :
  parse_date (dict_get reward_txn "date" (VStr "")) = Ok (Some reward_date) ->
  parse_date (dict_get pos_txn "date" (VStr "")) = Ok (Some pos_date) ->
  date_proximity_of reward_txn pos_txn
  = match dt_sub reward_date pos_date with
    | Ok delta => Ok (py_max 0 (1 - Qabs (total_seconds delta / 3600) / 168))%Q
    | Raise _ => Ok 0%Q
    end.
Proof.
  intros Hr Hp. unfold date_proximity_of. rewrite Hr, Hp. cbn [bind].
  destruct (dt_sub reward_date pos_date); reflexivity.
Qed.

Lemma dt_sub_swap (a b : datetime) :
  match dt_sub a b, dt_sub b a with
  | Ok d, Ok d' => d' = (- d)%Z
  | Raise _, Raise _ => True
  | _, _ => False
  end.
Proof.
  unfold dt_sub. destruct (utcoffset a), (utcoffset b); try exact I; lia.
Qed.

Lemma date_proximity_of_swap (reward_txn pos_txn : gmap string value) :
  exists x y,
    date_proximity_of reward_txn pos_txn = Ok x
    /\ date_proximity_of pos_txn reward_txn = Ok y
    /\ (x == y)%Q.
Proof.
  destruct (parse_date (dict_get reward_txn "date" (VStr ""))) as [[d1|]|] eqn:H1;
    destruct (parse_date (dict_get pos_txn "date" (VStr ""))) as [[d2|]|] eqn:H2.
  1: { rewrite (date_proximity_of_parsed _ _ _ _ H1 H2),
               (date_proximity_of_parsed _ _ _ _ H2 H1).
       pose proof (dt_sub_swap d1 d2) as Hs.
       destruct (dt_sub d1 d2) as [d|], (dt_sub d2 d1) as [d'|]; try contradiction.
       - subst d'. eexists. eexists. split; [reflexivity|]. split; [reflexivity|].
         apply py_max_zero_compat.
         rewrite !hours_of_gap, Z.abs_opp. reflexivity.
       - exists 0%Q, 0%Q. repeat split; reflexivity. }
  all: unfold date_proximity_of; rewrite H1, H2; cbn [bind try_except];
    exists 0%Q, 0%Q; repeat split; reflexivity.
Qed.

(** X4: exchanging the two records leaves the treatment-category flag as it
    is and the date proximity at the same value; these two features do not
    depend on which record is the reward and which the point of sale. *)
Theorem category_and_date_ignore_record_order (reward_txn pos_txn : gmap string value) :
  exists features swapped,
    engineer_features reward_txn pos_txn = Ok features
    /\ engineer_features pos_txn reward_txn = Ok swapped
    /\ treatment_category_match swapped = treatment_category_match features
    /\ (date_proximity swapped == date_proximity features)%Q.
Proof.
  destruct (engineer_features_unfold reward_txn pos_txn)
    as (nr & sr & dp & av & _ & _ & Hdp & _ & Hef & _).
  destruct (engineer_features_unfold pos_txn reward_txn)
    as (nr' & sr' & dp' & av' & _ & _ & Hdp' & _ & Hef' & _).
  eexists. eexists. split; [exact Hef|]. split; [exact Hef'|].
  cbn [treatment_category_match date_proximity]. split.
  - apply category_loop_comm.
  - destruct (date_proximity_of_swap reward_txn pos_txn) as (x & y & Hx & Hy & Hxy).
    assert (dp = x) as -> by congruence. assert (dp' = y) as -> by congruence.
    symmetry. exact Hxy.
Qed.

(** X5: once both dates have parsed, the date proximity falls linearly with
    the gap between them and is cut at one week: for two naive datetimes
    it is 0 when they are 168 hours or more apart, else 1 minus the gap over
    168 hours (so positive, and 1 when they coincide); for a naive datetime
    against an aware one it is 0. *)
Theorem date_proximity_week_window (reward_txn pos_txn : gmap string value)
    (reward_date pos_date : datetime) :
  parse_date (dict_get reward_txn "date" (VStr "")) = Ok (Some reward_date) ->
  parse_date (dict_get pos_txn "date" (VStr "")) = Ok (Some pos_date) ->
  exists features,
    engineer_features reward_txn pos_txn = Ok features
    /\ (utcoffset reward_date = None -> utcoffset pos_date = None ->
        let gap := Z.abs (micros reward_date - micros pos_date) in
        ((604800000000 <= gap)%Z -> date_proximity features = 0%Q)
        /\ ((gap < 604800000000)%Z ->
            (date_proximity features == 1 - inject_Z gap / 604800000000)%Q
            /\ (0 < date_proximity features)%Q)
        /\ (gap = 0%Z -> (date_proximity features == 1)%Q))
    /\ (forall offset,
          utcoffset reward_date = None /\ utcoffset pos_date = Some offset
          \/ utcoffset reward_date = Some offset /\ utcoffset pos_date = None ->
          date_proximity features = 0%Q).
Proof.
  intros Hr Hp.
  destruct (engineer_features_unfold reward_txn pos_txn)
    as (nr & sr & dp & av & _ & _ & Hdp & _ & Hef & _).
  eexists. split; [exact Hef|]. cbn [date_proximity].
  rewrite (date_proximity_of_parsed _ _ _ _ Hr Hp) in Hdp. unfold dt_sub in Hdp.
  split.
  - intros Hn1 Hn2. rewrite Hn1, Hn2 in Hdp.
    assert (dp = py_max 0
                   (1 - Qabs (total_seconds (micros reward_date - micros pos_date) / 3600)
                        / 168)%Q) as -> by congruence.
    clear Hdp. cbv zeta. set (gap := Z.abs (micros reward_date - micros pos_date)).
    assert (Hgap : (0 <= inject_Z gap)%Q).
    { change 0%Q with (inject_Z 0). rewrite <- Zle_Qle. unfold gap. lia. }
    pose proof (hours_of_gap (micros reward_date - micros pos_date)) as Hh.
    fold gap in Hh.
    set (h := (Qabs (total_seconds (micros reward_date - micros pos_date) / 3600) / 168)%Q)
      in *.
    assert (Hdiv : forall q : Q, (q / 604800000000 * 604800000000 == q)%Q)
      by (intros q; field).
    split; [|split].
    + intros Hbig. apply (proj1 (py_max_zero (1 - h))).
      rewrite Zle_Qle in Hbig. change (inject_Z 604800000000) with 604800000000%Q in Hbig.
      specialize (Hdiv (inject_Z gap)). rewrite Hh. nra.
    + intros Hsmall. rewrite Zlt_Qlt in Hsmall.
      change (inject_Z 604800000000) with 604800000000%Q in Hsmall.
      specialize (Hdiv (inject_Z gap)).
      assert (Hpos : (0 < 1 - h)%Q) by (rewrite Hh; nra).
      rewrite (proj2 (py_max_zero (1 - h)) Hpos). split; [rewrite Hh; reflexivity | exact Hpos].
    + intros Hzero. rewrite Hzero in Hh.
      assert (Hpos : (0 < 1 - h)%Q) by (rewrite Hh; reflexivity).
      rewrite (proj2 (py_max_zero (1 - h)) Hpos), Hh. reflexivity.
  - intros offset [[Hn1 Hn2] | [Hn1 Hn2]]; rewrite Hn1, Hn2 in Hdp; congruence.
Qed.

End FeatureSymmetry.

(** [date_proximity_week_window] on the sample pair, whose dates both parse
    under the sample runtime. *)
Lemma date_proximity_week_window_witness :
  exists features,
    @engineer_features sample_runtime sample_reward sample_pos = Ok features
    /\ (0 < date_proximity features)%Q.
Proof.
  destruct (@date_proximity_week_window sample_runtime sample_reward sample_pos
              (mk_datetime 2024 8 15 0 0 0 0 None)
              (mk_datetime 2024 8 15 14 30 0 0 None) eq_refl eq_refl)
    as (features & Hef & Hnaive & _).
  exists features. split; [exact Hef|].
  destruct (Hnaive eq_refl eq_refl) as (_ & Hsmall & _).
  apply Hsmall. vm_compute. reflexivity.
Defined.

(** ** The amount band *)

Section AmountBand.
Context `{PyRuntime}.

Lemma amount_ratio_valid_of_finite (reward_txn pos_txn : gmap string value) (r p : Q) :
  py_float (dict_get reward_txn "amount" (VInt 0)) = Ok (Finite r) ->
  py_float (dict_get pos_txn "amount" (VInt 0)) = Ok (Finite p) ->
  (0 < p)%Q ->
  amount_ratio_valid_of reward_txn pos_txn
  = Ok (if pf_leb (b64 (5 # 100)) (b64 (r / p)) && pf_leb (b64 (r / p)) (b64 (5 # 10))
        then 1 else 0)%Z.
Proof.
  intros Hr Hp Hpos. unfold amount_ratio_valid_of. rewrite Hr, Hp. cbn [bind pf_ltb].
  rewrite (proj2 (Qltb_lt 0 p) Hpos). cbn [pf_div].
  destruct (Qeq_bool p 0) eqn:Hz; [apply Qeq_bool_iff in Hz; lra|].
  reflexivity.
Qed.

Lemma ratio_in_band (r p lo hi : Q) :
  (0 < p)%Q ->
  (lo <= r / p)%Q /\ (r / p <= hi)%Q <-> (lo * p <= r)%Q /\ (r <= hi * p)%Q.
Proof.
  intros Hpos.
  assert (Hq : (r / p * p == r)%Q) by (field; lra).
  set (q := (r / p)%Q) in *. split; intros [Hlo Hhi]; split; nra.
Qed.

(** The amount block on a pair of amounts of which one is not finite. *)
Lemma amount_flag_nonfinite (reward_amount pos_amount : pyfloat) :
  (forall r, reward_amount <> Finite r) \/ (forall p, pos_amount <> Finite p) ->
  try_except
    (if pf_ltb (Finite 0) pos_amount then
       let* amount_ratio := pf_div reward_amount pos_amount in
       Ok (if pf_leb (b64 (5 # 100)) amount_ratio && pf_leb amount_ratio (b64 (5 # 10))
           then 1 else 0)%Z
     else Ok 0%Z)
    (fun _ => Ok 0%Z)
  = Ok 0%Z.
Proof.
  intros Hnonfinite.
  assert (Hc05 : b64 (5 # 100) = Finite (3602879701896397 # 72057594037927936))
    by (vm_compute; reflexivity).
  assert (Hc5 : b64 (5 # 10) = Finite (1 # 2)) by (vm_compute; reflexivity).
  rewrite Hc05, Hc5.
  destruct reward_amount as [r| | |], pos_amount as [p| | |];
    try (destruct Hnonfinite as [Hn | Hn]; exfalso; eapply Hn; reflexivity);
    try reflexivity; cbn [pf_ltb pf_div bind try_except pf_leb andb];
    repeat match goal with
           | |- context [if ?c then _ else _] =>
               destruct c; cbn [pf_ltb pf_div bind try_except pf_leb andb]
           end;
    reflexivity.
Qed.

(** X6: the amounts are those that [float()] returns, an int rounded to
    binary64.  For two finite amounts, [amount_ratio_valid] is 1 exactly
    when the point-of-sale amount is positive and the quotient of the two
    floats rounds into the band from 0.05 to 0.5, which is when the exact
    quotient lies between [band_low] and [band_high], half a unit in the
    last place outside 0.05 and 0.5, both ends included; so every pair whose
    exact quotient is between 5% and 50% has the flag.  When either amount
    is infinite or not a number the flag is 0. *)
Theorem amount_ratio_band (reward_txn pos_txn : gmap string value)
    (reward_amount pos_amount : pyfloat) :
  py_float (dict_get reward_txn "amount" (VInt 0)) = Ok reward_amount ->
  py_float (dict_get pos_txn "amount" (VInt 0)) = Ok pos_amount ->
  exists features,
    engineer_features reward_txn pos_txn = Ok features
    /\ (forall r p,
          reward_amount = Finite r -> pos_amount = Finite p ->
          (amount_ratio_valid features = 1%Z
           <-> (0 < p)%Q /\ (band_low * p <= r)%Q /\ (r <= band_high * p)%Q)
          /\ ((0 < p)%Q -> ((5 # 100) * p <= r)%Q -> (r <= (5 # 10) * p)%Q ->
              amount_ratio_valid features = 1%Z))
    /\ ((forall r, reward_amount <> Finite r) \/ (forall p, pos_amount <> Finite p) ->
        amount_ratio_valid features = 0%Z).
Proof.
  intros Hr Hp.
  destruct (engineer_features_unfold reward_txn pos_txn)
    as (nr & sr & dp & av & _ & _ & _ & Hav & Hef & _).
  eexists. split; [exact Hef|]. cbn [amount_ratio_valid]. split.
  - intros r p -> ->.
    assert (Hiff : av = 1%Z
                   <-> (0 < p)%Q /\ (band_low * p <= r)%Q /\ (r <= band_high * p)%Q).
    { destruct (Qlt_le_dec 0 p) as [Hpos | Hle].
      - rewrite (amount_ratio_valid_of_finite _ _ r p Hr Hp Hpos) in Hav.
        pose proof (b64_band (r / p)) as Hband.
        rewrite (ratio_in_band r p band_low band_high Hpos) in Hband.
        destruct (pf_leb (b64 (5 # 100)) (b64 (r / p))
                  && pf_leb (b64 (r / p)) (b64 (5 # 10))).
        + assert (av = 1%Z) as -> by congruence.
          split; [intros _; split; [exact Hpos | apply Hband; reflexivity] | reflexivity].
        + assert (av = 0%Z) as -> by congruence.
          split; [discriminate|]. intros (_ & Hlo & Hhi). exfalso.
          assert (false = true) by (apply Hband; split; assumption). discriminate.
      - rewrite (amount_invalid_when_pos_not_positive _ _ (Finite p) Hp) in Hav.
        + assert (av = 0%Z) as -> by congruence.
          split; [discriminate | intros [Hpos _]; lra].
        + cbn [pf_leb]. apply Qle_bool_iff, Hle. }
    split; [exact Hiff|]. intros Hpos Hlo Hhi. apply Hiff.
    split; [exact Hpos|]. unfold band_low, band_high. split.
    + apply Qle_trans with ((5 # 100) * p)%Q; [|exact Hlo].
      apply Qmult_le_compat_r; [discriminate | lra].
    + apply Qle_trans with ((5 # 10) * p)%Q; [exact Hhi|].
      apply Qmult_le_compat_r; [discriminate | lra].
  - intros Hnonfinite. unfold amount_ratio_valid_of in Hav. rewrite Hr, Hp in Hav.
    cbn [bind] in Hav. rewrite (amount_flag_nonfinite _ _ Hnonfinite) in Hav. congruence.
Qed.

End AmountBand.

(** [amount_ratio_band] on int amounts that [float()] rounds: [2^53 + 1]
    becomes [2^53], half of [2^54]. *)
Lemma amount_ratio_band_witness :
  @py_float sample_runtime (VInt (2 ^ 53 + 1)) = Ok (Finite (inject_Z (2 ^ 53)))
  /\ exists features,
       @engineer_features sample_runtime rounded_reward rounded_pos = Ok features
       /\ amount_ratio_valid features = 1%Z.
Proof.
  split; [vm_compute; reflexivity|].
  destruct (@amount_ratio_band sample_runtime rounded_reward rounded_pos
              (Finite (inject_Z (2 ^ 53))) (Finite (inject_Z (2 ^ 54))))
    as (features & Hef & Hband & _); [vm_compute; reflexivity | vm_compute; reflexivity |].
  exists features. split; [exact Hef|].
  destruct (Hband (inject_Z (2 ^ 53)) (inject_Z (2 ^ 54)) eq_refl eq_refl) as [Hiff _].
  apply Hiff. repeat split; vm_compute; try reflexivity; intros E; discriminate E.
Defined.

(** ** predict_match: boosts, cutoffs and rounding *)

Lemma boosted_bounds (features : FeatureVector) :
  (overall_confidence features <= 1)%Q ->
  (overall_confidence features <= boosted features)%Q
  /\ (boosted features <= overall_confidence features + (3 # 10))%Q
  /\ (Qltb (8 # 10) (name_similarity features)
      && (treatment_category_match features =? 1)%Z = false ->
      (boosted features <= overall_confidence features + (1 # 10))%Q)
  /\ (Qltb (8 # 10) (name_similarity features)
      && (treatment_category_match features =? 1)%Z = false ->
      Qltb (8 # 10) (date_proximity features) = false ->
      boosted features = overall_confidence features)
  /\ (Qltb (8 # 10) (name_similarity features)
      && (treatment_category_match features =? 1)%Z = true ->
      Qltb (8 # 10) (date_proximity features) = true ->
      ((overall_confidence features + (3 # 10) <= 1)%Q ->
       (boosted features == overall_confidence features + (3 # 10))%Q)
      /\ ((1 <= overall_confidence features + (3 # 10))%Q ->
          (boosted features == 1)%Q)).
Proof.
  intros Hc. unfold boosted. set (p := overall_confidence features) in *.
  destruct (Qltb (8 # 10) (name_similarity features)
            && (treatment_category_match features =? 1)%Z);
    destruct (Qltb (8 # 10) (date_proximity features));
    unfold py_min;
    (destruct (Qltb (p + (2 # 10)) 1) eqn:Hinner;
     [apply Qltb_lt in Hinner | apply Qltb_ge in Hinner]);
    repeat match goal with
           | |- context [Qltb ?a ?b] =>
               let Hb := fresh "Hb" in
               destruct (Qltb a b) eqn:Hb;
               [apply Qltb_lt in Hb | apply Qltb_ge in Hb]
           end;
    repeat split; intros; try congruence; try reflexivity; try lra.
Qed.

Lemma classify_cases (p : Q) :
  ((95 # 100 <= p)%Q /\ classify p = ("High", "Auto-Accept"))
  \/ ((80 # 100 <= p)%Q /\ (p < 95 # 100)%Q /\ classify p = ("Medium", "Manual Review"))
  \/ ((p < 80 # 100)%Q /\ classify p = ("Low", "Likely No Match")).
Proof.
  unfold classify.
  destruct (Qle_bool (95 # 100) p) eqn:H95.
  { left. split; [apply Qle_bool_iff, H95 | reflexivity]. }
  assert (p < 95 # 100)%Q.
  { apply Qnot_le_lt. intros Hle. apply Qle_bool_iff in Hle. congruence. }
  destruct (Qle_bool (80 # 100) p) eqn:H80.
  { right. left. split; [apply Qle_bool_iff, H80 | split; [assumption | reflexivity]]. }
  right. right. split; [|reflexivity].
  apply Qnot_le_lt. intros Hle. apply Qle_bool_iff in Hle. congruence.
Qed.

Section PredictProperties.
Context `{PyRuntime}.

(** X7: with the default threshold 0.95 the flag [predicted_match] is 1
    exactly when the recommendation is Auto-Accept; with a lower threshold
    every auto-accepted pair is flagged, with a higher one every flagged
    pair is auto-accepted, and with a threshold of at most 0.80 every pair
    sent to manual review is flagged as a match too. *)
Theorem predicted_match_against_recommendation (now : datetime)
    (reward_txn pos_txn : gmap string value) (t : Q) :
  exists r,
    predict_match now reward_txn pos_txn (Finite t) = Ok r
    /\ ((t == 95 # 100)%Q ->
        (predicted_match r = 1%Z <-> recommendation r = "Auto-Accept"))
    /\ ((t <= 95 # 100)%Q -> recommendation r = "Auto-Accept" -> predicted_match r = 1%Z)
    /\ ((95 # 100 <= t)%Q -> predicted_match r = 1%Z -> recommendation r = "Auto-Accept")
    /\ ((t <= 80 # 100)%Q -> recommendation r = "Manual Review" -> predicted_match r = 1%Z).
Proof.
  destruct (engineer_features_spec reward_txn pos_txn) as (features & Hf & _).
  eexists. split; [apply predict_match_result, Hf|].
  destruct (build_result_fields now features (boosted features) (Finite t))
    as (_ & -> & _ & -> & _).
  cbn [pf_leb]. set (p := boosted features).
  assert (Hflag : (if Qle_bool t p then 1 else 0)%Z = 1%Z <-> (t <= p)%Q).
  { rewrite <- Qle_bool_iff. destruct (Qle_bool t p); split; congruence. }
  rewrite Hflag.
  destruct (classify_cases p) as [[Hp ->] | [(Hlo & Hhi & ->) | [Hp ->]]]; cbn [snd];
    repeat split; intros; try discriminate; try reflexivity; try lra.
Qed.

(** X8: a pair whose names are not alike is never auto-accepted: with a
    name similarity below 0.625 the recommendation is not Auto-Accept and
    the level not High, and below 0.25 the recommendation is Likely No
    Match, whatever the services, dates and amounts; this is the case of
    every pair in which a record has no [customer_name], whose name
    similarity is 0. *)
Theorem dissimilar_names_never_accepted (now : datetime)
    (reward_txn pos_txn : gmap string value) (threshold : pyfloat) :
  exists features r,
    engineer_features reward_txn pos_txn = Ok features
    /\ predict_match now reward_txn pos_txn threshold = Ok r
    /\ ((name_similarity features < 625 # 1000)%Q ->
        recommendation r <> "Auto-Accept" /\ confidence_level r <> "High")
    /\ ((name_similarity features < 1 # 4)%Q ->
        recommendation r = "Likely No Match" /\ confidence_level r = "Low")
    /\ (reward_txn !! "customer_name" = None \/ pos_txn !! "customer_name" = None ->
        (name_similarity features == 0)%Q /\ recommendation r = "Likely No Match").
Proof.
  destruct (engineer_features_unfold reward_txn pos_txn)
    as (nr & sr & dp & av & Hnr & _ & _ & _ & Hef & Hn & Hs & Hd & Ha).
  eexists. eexists. split; [exact Hef|]. split; [apply predict_match_result, Hef|].
  match goal with
  | |- context [build_result now ?f ?p threshold] =>
      destruct (build_result_fields now f p threshold) as (_ & _ & -> & -> & _);
      pose proof (boosted_bounds f) as Hb;
      cbn [name_similarity overall_confidence treatment_category_match date_proximity] in Hb;
      set (features := f) in *
  end.
  set (n := (inject_Z nr / 100)%Q) in *. set (s := (inject_Z sr / 100)%Q) in *.
  assert (Hav : (0 <= inject_Z av <= 1)%Q) by (destruct Ha as [-> | ->]; unfold inject_Z; lra).
  set (a := inject_Z av) in *.
  assert (Hoc : (n * (4 # 10) + s * (3 # 10) + dp * (2 # 10) + a * (1 # 10) <= 1)%Q) by lra.
  destruct (Hb Hoc) as (_ & _ & Hno & _).
  assert (Hlow : (n < 1 # 4)%Q ->
                 snd (classify (boosted features)) = "Likely No Match"
                 /\ fst (classify (boosted features)) = "Low").
  { intros Hlt.
    assert (Hcond : Qltb (8 # 10) n && (category_loop treatment_keywords
                      (lower (py_str (dict_get reward_txn "service" (VStr ""))))
                      (lower (py_str (dict_get pos_txn "service" (VStr "")))) =? 1)%Z = false).
    { apply andb_false_iff. left. apply Qltb_ge. lra. }
    specialize (Hno Hcond).
    destruct (classify_cases (boosted features)) as [[Hp _] | [(Hp & _ & _) | [_ ->]]];
      [lra | lra | split; reflexivity]. }
  assert (Hns : name_similarity features = n) by reflexivity. rewrite Hns.
  split; [|split].
  - intros Hlt.
    assert (Hcond : Qltb (8 # 10) n && (category_loop treatment_keywords
                      (lower (py_str (dict_get reward_txn "service" (VStr ""))))
                      (lower (py_str (dict_get pos_txn "service" (VStr "")))) =? 1)%Z = false).
    { apply andb_false_iff. left. apply Qltb_ge. lra. }
    specialize (Hno Hcond).
    destruct (classify_cases (boosted features)) as [[Hp _] | [(_ & _ & ->) | [_ ->]]];
      [lra | split; discriminate | split; discriminate].
  - exact Hlow.
  - intros Habs.
    assert (Hzero : nr = 0%Z).
    { destruct Habs as [Hk | Hk]; rewrite (dict_get_absent _ _ _ Hk) in Hnr.
      - change (strip (lower (py_str (VStr "")))) with EmptyString in Hnr.
        rewrite ratio_empty_first in Hnr. congruence.
      - change (strip (lower (py_str (VStr "")))) with EmptyString in Hnr.
        change (reorder_last_first ?x EmptyString) with EmptyString in Hnr.
        rewrite ratio_empty_second in Hnr. congruence. }
    assert (Hn0 : (n == 0)%Q) by (unfold n; rewrite Hzero; reflexivity).
    split; [exact Hn0|]. apply Hlow. rewrite Hn0. reflexivity.
Qed.


End PredictProperties.

(** ** Rounding of the reported values *)

Lemma py_round_error (x : Q) (ndigits : nat) :
  (Qabs (py_round x ndigits - x) <= 1 # 2)%Q
  /\ (Qabs (py_round x ndigits - x) * inject_Z (10 ^ Z.of_nat ndigits) <= 1 # 2)%Q.
Proof.
  unfold py_round. set (s := (10 ^ Z.of_nat ndigits)%Z).
  assert (Hs : (1 <= s)%Z).
  { unfold s. change 1%Z with (10 ^ 0)%Z. apply Z.pow_le_mono_r; lia. }
  assert (HsQ : (1 <= inject_Z s)%Q).
  { change 1%Q with (inject_Z 1). rewrite <- Zle_Qle. exact Hs. }
  pose proof (round_half_even_error (x * inject_Z s)) as He.
  set (r := inject_Z (round_half_even (x * inject_Z s))) in *.
  assert (Hscaled : (Qabs (Qred (r / inject_Z s) - x) * inject_Z s <= 1 # 2)%Q).
  { rewrite Qred_correct.
    assert (Heq : (Qabs (r / inject_Z s - x) * inject_Z s == Qabs (r - x * inject_Z s))%Q).
    { rewrite <- (Qabs_pos (inject_Z s)) at 2 by lra. rewrite <- Qabs_Qmult.
      apply Qabs_wd. field. lra. }
    rewrite Heq. exact He. }
  split; [|exact Hscaled].
  pose proof (Qabs_nonneg (Qred (r / inject_Z s) - x)) as Hn.
  set (e := Qabs (Qred (r / inject_Z s) - x)) in *. nra.
Qed.

Section ReportedValues.
Context `{PyRuntime}.

(** X10: the values that [predict_match] reports are the computed ones up
    to rounding: [match_probability] is within 0.00005 of the boosted
    probability, the four echoed scores are within 0.0005 of the features,
    and the two flags are echoed as they are. *)
Theorem reported_values_are_rounded (now : datetime)
    (reward_txn pos_txn : gmap string value) (threshold : pyfloat) :
  exists features r,
    engineer_features reward_txn pos_txn = Ok features
    /\ predict_match now reward_txn pos_txn threshold = Ok r
    /\ (Qabs (match_probability r - boosted features) <= 1 # 20000)%Q
    /\ (Qabs (name_similarity (feature_analysis r) - name_similarity features)
        <= 1 # 2000)%Q
    /\ (Qabs (service_similarity (feature_analysis r) - service_similarity features)
        <= 1 # 2000)%Q
    /\ (Qabs (date_proximity (feature_analysis r) - date_proximity features)
        <= 1 # 2000)%Q
    /\ (Qabs (overall_confidence (feature_analysis r) - overall_confidence features)
        <= 1 # 2000)%Q
    /\ amount_ratio_valid (feature_analysis r) = amount_ratio_valid features
    /\ treatment_category_match (feature_analysis r) = treatment_category_match features.
Proof.
  destruct (engineer_features_spec reward_txn pos_txn) as (features & Hf & _).
  exists features, (build_result now features (boosted features) threshold).
  split; [exact Hf|]. split; [apply predict_match_result, Hf|].
  unfold build_result. destruct (classify (boosted features)) as [c rec].
  cbn [match_probability feature_analysis name_similarity service_similarity
       date_proximity overall_confidence amount_ratio_valid treatment_category_match].
  assert (H4 : forall x, (Qabs (py_round x 4 - x) <= 1 # 20000)%Q).
  { intros x. destruct (py_round_error x 4) as [_ He].
    change (inject_Z (10 ^ Z.of_nat 4)) with 10000%Q in He.
    set (e := Qabs (py_round x 4 - x)) in *. lra. }
  assert (H3 : forall x, (Qabs (py_round x 3 - x) <= 1 # 2000)%Q).
  { intros x. destruct (py_round_error x 3) as [_ He].
    change (inject_Z (10 ^ Z.of_nat 3)) with 1000%Q in He.
    set (e := Qabs (py_round x 3 - x)) in *. lra. }
  repeat split; auto.
Qed.

(** X11: [parse_date] sends a string with a [T] or a space to
    [fromisoformat] alone, on the text before the first dot with [T] read
    as a space, and returns what it parses; any other string gets the first
    of the five formats that [strptime] accepts, the formats after it not
    being consulted. *)
Theorem parse_date_dispatch (date_str : value) :
  truthy date_str = true ->
  (forall head d,
     char_in "T" (strip (py_str date_str)) || char_in " " (strip (py_str date_str)) = true ->
     index0 (split_on "." (replace_char "T" " " (strip (py_str date_str)))) = Ok head ->
     fromisoformat head = Ok d ->
     parse_date date_str = Ok (Some d))
  /\ (forall tried fmt rest d,
        char_in "T" (strip (py_str date_str)) || char_in " " (strip (py_str date_str)) = false ->
        date_formats = (tried ++ fmt :: rest)%list ->
        (forall f, In f tried -> exists e, strptime (strip (py_str date_str)) f = Raise e) ->
        strptime (strip (py_str date_str)) fmt = Ok d ->
        parse_date date_str = Ok (Some d)).
Proof.
  intros Htruthy. unfold parse_date. rewrite Htruthy. cbn [negb]. cbv zeta. split.
  - intros head d Hiso Hhead Hd. rewrite Hiso, Hhead. cbn [bind]. rewrite Hd. reflexivity.
  - intros tried fmt rest d Hiso Hfmts Hfail Hd. rewrite Hiso, Hfmts.
    assert (Hgo : try_formats (strip (py_str date_str)) (tried ++ fmt :: rest)%list
                  = Ok (Some d)).
    { clear Hfmts. induction tried as [|f tried IH]; cbn [app try_formats].
      - rewrite Hd. reflexivity.
      - destruct (Hfail f (or_introl eq_refl)) as [e ->]. cbn [bind try_except].
        apply IH. intros g Hg. apply Hfail. right. exact Hg. }
    rewrite Hgo. reflexivity.
Qed.

End ReportedValues.

(** [parse_date_dispatch] on a slash date under the sample runtime: the
    year-first format fails and the month-first one is taken. *)
Lemma parse_date_dispatch_witness :
  @parse_date sample_runtime (VStr "03/04/2024")
  = Ok (Some (mk_datetime 2024 3 4 0 0 0 0 None)).
Proof.
  destruct (@parse_date_dispatch sample_runtime (VStr "03/04/2024") eq_refl)
    as [_ Hfmt].
  apply (Hfmt ["%Y-%m-%d"] "%m/%d/%Y" ["%d/%m/%Y"; "%m.%d.%y"; "%m-%d-%Y"]);
    try reflexivity.
  intros f [<- | []]. eexists. vm_compute. reflexivity.
Defined.

(** * Further properties of the handlers *)

(** ** The summary of a batch *)

Section BatchSummary.
Context `{PyRuntime}.

(** The loop appends one entry per pair. *)
Lemma batch_loop_length (score : scorer) (clock : nat -> datetime) (threshold : pyfloat)
    (pairs : list value) :
  forall (i : nat) (acc results : list batch_entry),
    batch_loop score clock threshold i pairs acc = Ok results ->
    length results = (length acc + length pairs)%nat.
Proof.
  induction pairs as [|p rest IH]; intros i acc results Hl; cbn [batch_loop] in Hl.
  - assert (results = acc) as -> by congruence. cbn [length]. lia.
  - destruct (check_pair i p) as [txns|e]; cbn [bind] in Hl; [|discriminate].
    apply IH in Hl. rewrite Hl, length_app. cbn [length]. lia.
Qed.

(** Every entry the loop appends is what [score_pair] made. *)
Lemma batch_loop_entries (score : scorer) (clock : nat -> datetime) (threshold : pyfloat)
    (P : batch_entry -> Prop) :
  (forall now i reward_txn pos_txn,
     P (score_pair score now threshold i reward_txn pos_txn)) ->
  forall (pairs : list value) (i : nat) (acc results : list batch_entry),
    Forall P acc ->
    batch_loop score clock threshold i pairs acc = Ok results ->
    Forall P results.
Proof.
  intros HP. induction pairs as [|p rest IH]; intros i acc results Hacc Hl;
    cbn [batch_loop] in Hl.
  - assert (results = acc) as -> by congruence. exact Hacc.
  - destruct (check_pair i p) as [txns|e]; cbn [bind] in Hl; [|discriminate].
    eapply IH; [|exact Hl]. apply Forall_app. split; [exact Hacc|].
    constructor; [apply HP | constructor].
Qed.

(** What a 200 response of the handler is made of. *)
Lemma batch_predict_success (score : scorer) (clock : nat -> datetime) (data : value)
    (results : list batch_entry) (summary : Summary) (info : ProcessingInfo) :
  batch_predict (Some score) clock data = Success results summary info ->
  exists pairs threshold rate,
    batch_loop score clock threshold 0 pairs [] = Ok results
    /\ summary = mk_summary (Z.of_nat (length results))
                   (count_recommendation "Auto-Accept" results)
                   (count_recommendation "Manual Review" results)
                   (count_recommendation "Likely No Match" results) rate
    /\ info = mk_info (Z.of_nat (length pairs))
                (Z.of_nat (length (filter no_error results))) threshold
                "1.0.0-final-cors-fixed"
    /\ (results = [] /\ rate = 0%Z
        \/ results <> []
           /\ rate = round_half_even
                       (inject_Z (count_recommendation "Auto-Accept" results)
                        / inject_Z (Z.of_nat (length results)) * 100)).
Proof.
  unfold batch_predict.
  destruct (batch_body score clock data) as [r|e] eqn:Hb; [|destruct e; discriminate].
  intros ->. unfold batch_body in Hb.
  destruct (negb (truthy data)); [discriminate|].
  destruct data as [| | | | |l|d]; cbn [bind] in Hb; try discriminate.
  destruct (dict_get d "transaction_pairs" VNone) as [| | | | |pairs|];
    cbn [bind] in Hb; try discriminate.
  destruct (try_except_tv _ _) as [threshold|e]; cbn [bind] in Hb; [|discriminate].
  destruct (negb _); [discriminate|].
  destruct (batch_loop score clock threshold 0 pairs []) as [rs|e] eqn:Hl;
    cbn [bind] in Hb; [|discriminate].
  destruct rs as [|r0 rs]; cbn [bind] in Hb.
  - injection Hb as <- <- <-. exists pairs, threshold, 0%Z.
    split; [exact Hl|]. split; [reflexivity|]. split; [reflexivity|].
    left. split; reflexivity.
  - rewrite true_div_ok in Hb by (cbn [length]; lia). cbn [bind] in Hb.
    injection Hb as <- <- <-. eexists pairs, threshold, _.
    split; [exact Hl|]. split; [reflexivity|]. split; [reflexivity|].
    right. split; [discriminate | reflexivity].
Qed.

(** [sum(1 for x in l if g(x))], one element at a time. *)
Lemma length_filter_cons {A : Type} (g : A -> bool) (x : A) (l : list A) :
  length (filter g (x :: l))
  = ((if g x then 1 else 0) + length (filter g l))%nat.
Proof.
  rewrite filter_cons. cbn beta. destruct (g x) eqn:E.
  - destruct (decide (Is_true true)) as [_|n]; [reflexivity | destruct (n I)].
  - destruct (decide (Is_true false)) as [[]|_]. reflexivity.
Qed.

(** A recommendation counts for at most one of the three sums, and the
    recommendation of an error entry for none. *)
Lemma recommendation_indicator (s : string) :
  let n := ((if (s =? "Auto-Accept")%string then 1 else 0)
            + (if (s =? "Manual Review")%string then 1 else 0)
            + (if (s =? "Likely No Match")%string then 1 else 0))%nat in
  (n <= 1)%nat
  /\ (In s ["Auto-Accept"; "Manual Review"; "Likely No Match"] -> n = 1%nat)
  /\ (s = "Manual Review Required" -> n = 0%nat).
Proof.
  cbv zeta.
  destruct (String.eqb_spec s "Auto-Accept") as [->|N1];
    [vm_compute; repeat split; intros; try lia; discriminate|].
  destruct (String.eqb_spec s "Manual Review") as [->|N2];
    [vm_compute; repeat split; intros; try lia; discriminate|].
  destruct (String.eqb_spec s "Likely No Match") as [->|N3];
    [vm_compute; repeat split; intros; try lia; discriminate|].
  repeat split; try (cbn; lia).
  intros [E|[E|[E|[]]]]; congruence.
Qed.

Lemma count_recommendation_split (results : list batch_entry) :
  (0 <= count_recommendation "Auto-Accept" results)%Z
  /\ (0 <= count_recommendation "Manual Review" results)%Z
  /\ (0 <= count_recommendation "Likely No Match" results)%Z
  /\ (Forall (fun r => no_error r = false ->
                       entry_recommendation r = "Manual Review Required") results ->
      (count_recommendation "Auto-Accept" results
       + count_recommendation "Manual Review" results
       + count_recommendation "Likely No Match" results
       <= Z.of_nat (length (filter no_error results)))%Z)
  /\ (length (filter no_error results) <= length results)%nat
  /\ (Forall (fun r => no_error r = true
                       /\ In (entry_recommendation r)
                            ["Auto-Accept"; "Manual Review"; "Likely No Match"]) results ->
      (count_recommendation "Auto-Accept" results
       + count_recommendation "Manual Review" results
       + count_recommendation "Likely No Match" results
       = Z.of_nat (length results))%Z
      /\ length (filter no_error results) = length results).
Proof.
  unfold count_recommendation.
  induction results as [|r rs IH].
  - cbn. repeat split; try lia.
  - destruct IH as (Ha & Hm & Hl & Hsum & Hle & Hall).
    rewrite !length_filter_cons. cbn [length].
    destruct (recommendation_indicator (entry_recommendation r)) as (H1 & H2 & H3).
    cbv zeta in H1, H2, H3.
    set (a := if (entry_recommendation r =? "Auto-Accept")%string then 1%nat else 0%nat) in *.
    set (m := if (entry_recommendation r =? "Manual Review")%string then 1%nat else 0%nat) in *.
    set (l := if (entry_recommendation r =? "Likely No Match")%string then 1%nat else 0%nat) in *.
    split; [lia|]. split; [lia|]. split; [lia|]. split; [|split].
    + intros Hf. apply Forall_cons in Hf. destruct Hf as [Hr Hrs].
      specialize (Hsum Hrs). destruct (no_error r) eqn:En; [lia|].
      specialize (H3 (Hr eq_refl)). lia.
    + destruct (no_error r); lia.
    + intros Hf. apply Forall_cons in Hf. destruct Hf as [[Hr Hin] Hrs].
      destruct (Hall Hrs) as [Hs Hn]. specialize (H2 Hin). rewrite Hr. lia.
Qed.

(** The share of auto-accepted entries, in percent, before it is rounded. *)
Lemma accept_share_bounds (a n : Z) :
  (0 <= a <= n)%Z -> (0 < n)%Z ->
  (0 <= inject_Z a / inject_Z n * 100)%Q
  /\ (inject_Z a / inject_Z n * 100 <= inject_Z 100)%Q
  /\ (a = n -> inject_Z a / inject_Z n * 100 == inject_Z 100)%Q.
Proof.
  intros [Ha Han] Hn.
  assert (H0 : (0 <= inject_Z a / inject_Z n)%Q) by (apply Qdiv_Z_nonneg; lia).
  assert (Hpos : (0 < inject_Z n)%Q) by (rewrite Zlt_Qlt in Hn; exact Hn).
  assert (H1 : (inject_Z a / inject_Z n <= 1)%Q).
  { apply Qle_shift_div_r; [exact Hpos|]. rewrite Qmult_1_l. rewrite Zle_Qle in Han. exact Han. }
  change (inject_Z 100) with 100%Q.
  split; [|split].
  - set (x := (inject_Z a / inject_Z n)%Q) in *. lra.
  - set (x := (inject_Z a / inject_Z n)%Q) in *. lra.
  - intros ->. assert (E : (inject_Z n / inject_Z n == 1)%Q).
    { unfold Qdiv. apply Qmult_inv_r. intros E. rewrite E in Hpos.
      apply (Qlt_irrefl _ Hpos). }
    rewrite E. reflexivity.
Qed.

(** Every slot carries its own position as [pair_index]. *)
Lemma batch_loop_index (score : scorer) (clock : nat -> datetime) (threshold : pyfloat)
    (pairs : list value) :
  forall (i : nat) (acc results : list batch_entry),
    length acc = i ->
    (forall k r, acc !! k = Some r ->
       match r with
       | Scored idx _ => idx = Z.of_nat k
       | Failed entry => err_pair_index entry = Z.of_nat k
       end) ->
    batch_loop score clock threshold i pairs acc = Ok results ->
    forall k r, results !! k = Some r ->
      match r with
      | Scored idx _ => idx = Z.of_nat k
      | Failed entry => err_pair_index entry = Z.of_nat k
      end.
Proof.
  induction pairs as [|p rest IH]; intros i acc results Hlen Hacc Hl;
    cbn [batch_loop] in Hl.
  - assert (results = acc) as -> by congruence. exact Hacc.
  - destruct (check_pair i p) as [txns|e]; cbn [bind] in Hl; [|discriminate].
    apply (IH (S i) (acc ++ [score_pair score (clock i) threshold i (fst txns) (snd txns)])%list);
      [rewrite length_app; cbn [length]; lia | | exact Hl].
    intros k r Hk. apply lookup_app_Some in Hk.
    destruct Hk as [Hk | [Hge Hk]]; [exact (Hacc k r Hk)|].
    apply list_lookup_singleton_Some in Hk. destruct Hk as [Hk <-].
    assert (k = i) as -> by lia.
    unfold score_pair. destruct (score _ _ _ _); reflexivity.
Qed.

(** X12: a 200 response of [/batch-predict] is consistent, whatever scorer
    is behind it: [total] and [total_pairs] are both the number of result
    slots, every slot carries its position as [pair_index], the three
    recommendation counts together never exceed [successful_predictions]
    (an error entry counts for none of them), which never exceeds [total],
    and [auto_accept_rate_percent] is a whole number between 0 and 100
    within one half of the exact percentage, 0 for an empty batch and 100
    when every slot is auto-accepted. *)
Theorem batch_summary_counts (score : scorer) (clock : nat -> datetime) (data : value)
    (results : list batch_entry) (summary : Summary) (info : ProcessingInfo) :
  batch_predict (Some score) clock data = Success results summary info ->
  total summary = Z.of_nat (length results)
  /\ total_pairs info = total summary
  /\ (forall k r, results !! k = Some r ->
        match r with
        | Scored idx _ => idx = Z.of_nat k
        | Failed entry => err_pair_index entry = Z.of_nat k
        end)
  /\ (0 <= auto_accept summary)%Z
  /\ (0 <= manual_review summary)%Z
  /\ (0 <= likely_no_match summary)%Z
  /\ (auto_accept summary + manual_review summary + likely_no_match summary
      <= successful_predictions info)%Z
  /\ (successful_predictions info <= total summary)%Z
  /\ (0 <= auto_accept_rate_percent summary <= 100)%Z
  /\ (results = [] -> auto_accept_rate_percent summary = 0%Z)
  /\ (results <> [] ->
      (Qabs (inject_Z (auto_accept_rate_percent summary)
             - inject_Z (auto_accept summary) / inject_Z (total summary) * 100)
       <= 1 # 2)%Q)
  /\ (results <> [] -> auto_accept summary = total summary ->
      auto_accept_rate_percent summary = 100%Z).
Proof.
  intros Hresp.
  destruct (batch_predict_success _ _ _ _ _ _ Hresp)
    as (pairs & threshold & rate & Hl & -> & -> & Hrate).
  cbn [total total_pairs auto_accept manual_review likely_no_match
       auto_accept_rate_percent successful_predictions].
  pose proof (batch_loop_length _ _ _ _ _ _ _ Hl) as Hlen. cbn [length] in Hlen.
  destruct (count_recommendation_split results) as (Ha & Hm & Hn & Hsum & Hle & _).
  assert (Herr : Forall (fun r => no_error r = false ->
                                  entry_recommendation r = "Manual Review Required") results).
  { apply (batch_loop_entries score clock threshold _) with (pairs := pairs) (i := 0%nat)
      (acc := []); [|constructor | exact Hl].
    intros now i reward_txn pos_txn. unfold score_pair.
    destruct (score _ _ _ _); cbn [no_error entry_recommendation err_recommendation];
      [discriminate | reflexivity]. }
  specialize (Hsum Herr).
  assert (Hauto : (count_recommendation "Auto-Accept" results
                   <= Z.of_nat (length results))%Z) by lia.
  split; [reflexivity|]. split; [f_equal; lia|].
  split.
  { apply (batch_loop_index score clock threshold pairs 0 [] results eq_refl);
      [intros k r Hk; discriminate | exact Hl]. }
  split; [exact Ha|]. split; [exact Hm|]. split; [exact Hn|].
  split; [exact Hsum|]. split; [lia|].
  destruct Hrate as [[-> ->] | [Hne ->]].
  - split; [lia|]. split; [reflexivity|]. split; intros Hc; destruct (Hc eq_refl).
  - assert (Hpos : (0 < Z.of_nat (length results))%Z).
    { destruct results; [destruct (Hne eq_refl) | cbn [length]; lia]. }
    destruct (accept_share_bounds _ _ (conj Ha Hauto) Hpos) as (Hlo & Hhi & Hfull).
    split; [apply round_half_even_between; assumption|].
    split; [intros Hc; destruct (Hne Hc)|].
    split; [intros _; apply round_half_even_error|].
    intros _ Hall. specialize (Hfull Hall).
    pose proof (round_half_even_error
                  (inject_Z (count_recommendation "Auto-Accept" results)
                   / inject_Z (Z.of_nat (length results)) * 100)) as Herror.
    set (rate := round_half_even _) in *.
    rewrite Hfull in Herror.
    apply Qabs_Qle_condition in Herror. destruct Herror as [Hlow Hup].
    assert (Hlow' : (inject_Z 99 < inject_Z rate)%Q).
    { change (inject_Z 99) with 99%Q. change (inject_Z 100) with 100%Q in *.
      set (q := inject_Z rate) in *. lra. }
    assert (Hup' : (inject_Z rate < inject_Z 101)%Q).
    { change (inject_Z 101) with 101%Q. change (inject_Z 100) with 100%Q in *.
      set (q := inject_Z rate) in *. lra. }
    rewrite <- Zlt_Qlt in Hlow', Hup'. lia.
Qed.

(** X13: behind the API's own [predict_match], which never raises, a 200
    response of [/batch-predict] holds a scored result in every slot, and
    the three recommendation counts partition the batch: they add up to
    [total], which equals [successful_predictions]. *)
Theorem own_scorer_counts_partition (clock : nat -> datetime) (data : value)
    (results : list batch_entry) (summary : Summary) (info : ProcessingInfo) :
  batch_predict (Some predict_match) clock data = Success results summary info ->
  Forall (fun r => exists idx result,
            r = Scored idx result
            /\ In (recommendation result)
                 ["Auto-Accept"; "Manual Review"; "Likely No Match"]) results
  /\ successful_predictions info = total summary
  /\ (auto_accept summary + manual_review summary + likely_no_match summary
      = total summary)%Z.
Proof.
  intros Hresp.
  destruct (batch_predict_success _ _ _ _ _ _ Hresp)
    as (pairs & threshold & rate & Hl & -> & -> & _).
  cbn [total auto_accept manual_review likely_no_match successful_predictions].
  assert (Hown : Forall (fun r => exists idx result,
                           r = Scored idx result
                           /\ In (recommendation result)
                                ["Auto-Accept"; "Manual Review"; "Likely No Match"])
                   results).
  { apply (batch_loop_entries predict_match clock threshold _) with (pairs := pairs)
      (i := 0%nat) (acc := []); [|constructor | exact Hl].
    intros now i reward_txn pos_txn. unfold score_pair.
    destruct (engineer_features_spec reward_txn pos_txn) as (features & Hf & _).
    rewrite (predict_match_result now reward_txn pos_txn threshold features Hf).
    eexists _, _. split; [reflexivity|].
    destruct (build_result_fields now features (boosted features) threshold)
      as (_ & _ & _ & -> & _).
    destruct (classify_cases (boosted features)) as [[_ ->] | [(_ & _ & ->) | [_ ->]]];
      cbn [snd In]; auto. }
  split; [exact Hown|].
  destruct (count_recommendation_split results) as (_ & _ & _ & _ & _ & Hall).
  destruct Hall as [Hsum Hlen].
  { eapply Forall_impl; [exact Hown|]. intros r (idx & result & -> & Hin).
    split; [reflexivity | exact Hin]. }
  split; [f_equal; lia | exact Hsum].
Qed.

End BatchSummary.

(** [batch_summary_counts] on the batch that holds the sample pair alone. *)
Lemma batch_summary_counts_witness :
  exists results summary info,
    @batch_predict sample_runtime (Some (@predict_match sample_runtime))
      (fun _ => noon) (VDict sample_batch_ok)
    = Success results summary info
    /\ total_pairs info = total summary.
Proof.
  assert (Hex : exists results summary info,
            @batch_predict sample_runtime (Some (@predict_match sample_runtime))
              (fun _ => noon) (VDict sample_batch_ok)
            = Success results summary info)
    by (eexists _, _, _; vm_compute; reflexivity).
  destruct Hex as (results & summary & info & Hresp).
  exists results, summary, info. split; [exact Hresp|].
  exact (proj1 (proj2 (@batch_summary_counts sample_runtime _ _ _ _ _ _ Hresp))).
Defined.

(** [own_scorer_counts_partition] on the batch that holds the sample pair
    alone. *)
Lemma own_scorer_counts_partition_witness :
  exists results summary info,
    @batch_predict sample_runtime (Some (@predict_match sample_runtime))
      (fun _ => noon) (VDict sample_batch_ok)
    = Success results summary info
    /\ successful_predictions info = total summary.
Proof.
  assert (Hex : exists results summary info,
            @batch_predict sample_runtime (Some (@predict_match sample_runtime))
              (fun _ => noon) (VDict sample_batch_ok)
            = Success results summary info)
    by (eexists _, _, _; vm_compute; reflexivity).
  destruct Hex as (results & summary & info & Hresp).
  exists results, summary, info. split; [exact Hresp|].
  exact (proj1 (proj2 (@own_scorer_counts_partition sample_runtime _ _ _ _ _ Hresp))).
Defined.

(** ** [/predict] against [/batch-predict] *)

Section PredictRoute.
Context `{PyRuntime}.

(** The name a transaction is validated under only shows in the message. *)
Lemma require_fields_names (tx : gmap string value) (n1 n2 : string)
    (fields : list string) :
  match require_fields tx n1 fields with
  | Ok _ => require_fields tx n2 fields = Ok tt
  | Raise (ValueError _) =>
      exists msg, require_fields tx n2 fields = Raise (ValueError msg)
  | Raise _ => False
  end.
Proof.
  induction fields as [|f rest IH]; cbn [require_fields]; [reflexivity|].
  destruct (tx !! f); [exact IH | eauto].
Qed.

Lemma validate_tx_names (tx : gmap string value) (n1 n2 : string) :
  match validate_tx tx n1 with
  | Ok tx' => validate_tx tx n2 = Ok tx'
  | Raise (ValueError _) => exists msg, validate_tx tx n2 = Raise (ValueError msg)
  | Raise (TypeError _) => False
  | Raise (Exception m) => validate_tx tx n2 = Raise (Exception m)
  end.
Proof.
  unfold validate_tx.
  pose proof (require_fields_names tx n1 n2 required_fields) as Hr.
  destruct (require_fields tx n1 required_fields) as [[]|e]; cbn [bind].
  - rewrite Hr. cbn [bind]. destruct (tx !! "amount") as [raw|]; cbn [bind]; [|reflexivity].
    destruct (py_float raw) as [f|[m|m|m]]; cbn [try_except_tv bind]; eauto.
  - destruct e as [m|m|m]; try contradiction. destruct Hr as [msg2 ->]. cbn [bind]. eauto.
Qed.

(** The first missing field is the one the message names. *)
Lemma require_fields_first_missing (tx : gmap string value) (name field : string)
    (fields : list string) :
  In field fields -> tx !! field = None ->
  exists missing,
    In missing fields /\ tx !! missing = None
    /\ require_fields tx name fields
       = Raise (ValueError (name ++ "." ++ missing ++ " is required")).
Proof.
  induction fields as [|f rest IH]; intros Hin Hnone; [destruct Hin|].
  cbn [require_fields]. destruct (tx !! f) eqn:Hf.
  - destruct Hin as [-> | Hin]; [congruence|].
    destruct (IH Hin Hnone) as (missing & Hm & Hn & Hr).
    exists missing. split; [right; exact Hm | split; assumption].
  - exists f. split; [left; reflexivity | split; [exact Hf | reflexivity]].
Qed.

(** The response of a one-pair batch, read off the checks on its pair. *)
Lemma single_pair_batch (score : scorer) (now : datetime)
    (batch : gmap string value) (pair_0 : value) (threshold : pyfloat) :
  batch !! "transaction_pairs" = Some (VList [pair_0]) ->
  py_float (dict_get batch "threshold" (VFloat (Finite (95 # 100)))) = Ok threshold ->
  pf_leb (Finite 0) threshold && pf_leb threshold (Finite 1) = true ->
  match check_pair 0 pair_0 with
  | Ok txns =>
      exists summary info,
        batch_predict (Some score) (fun _ => now) (VDict batch)
        = Success [score_pair score now threshold 0 (fst txns) (snd txns)] summary info
  | Raise (ValueError msg) =>
      batch_predict (Some score) (fun _ => now) (VDict batch)
      = Failure 400 msg "validation_error"
  | Raise _ =>
      batch_predict (Some score) (fun _ => now) (VDict batch)
      = Failure 500 "Internal server error" "internal_server_error"
  end.
Proof.
  intros Hpairs Hthr Hrange.
  pose proof (batch_predict_loop score (fun _ => now) batch [pair_0] threshold
                Hpairs Hthr Hrange) as Hb.
  cbn [batch_loop] in Hb.
  destruct (check_pair 0 pair_0) as [txns|e]; cbn [bind app] in Hb; exact Hb.
Qed.

(** X14: with a valid threshold, [/predict] on a pair and [/batch-predict]
    on the batch that holds this pair alone agree when the API's own
    [predict_match] scores and the clock reads the same: a 200 response of
    [/predict] carries the result that the batch carries in its only slot,
    with [pair_index] 0, and an error response of [/predict] has the status
    and the code of the batch's error response (the messages differ, the
    batch naming the record with its index). *)
Theorem predict_agrees_with_single_pair_batch (now : datetime)
    (request batch pair_0 : gmap string value) (threshold : pyfloat) :
  batch !! "transaction_pairs" = Some (VList [VDict pair_0]) ->
  batch !! "threshold" = request !! "threshold" ->
  pair_0 !! "reward_transaction" = request !! "reward_transaction" ->
  pair_0 !! "pos_transaction" = request !! "pos_transaction" ->
  py_float (dict_get request "threshold" (VFloat (Finite (95 # 100)))) = Ok threshold ->
  pf_leb (Finite 0) threshold && pf_leb threshold (Finite 1) = true ->
  match predict_match_route (Some predict_match) now (VDict request) with
  | PredictOk result =>
      exists summary info,
        batch_predict (Some predict_match) (fun _ => now) (VDict batch)
        = Success [Scored 0 result] summary info
  | PredictFailure status _ code =>
      exists error,
        batch_predict (Some predict_match) (fun _ => now) (VDict batch)
        = Failure status error code
  end.
Proof.
  intros Hpairs Hthr_key Hreward Hpos Hthr Hrange.
  assert (Hthr' : py_float (dict_get batch "threshold" (VFloat (Finite (95 # 100))))
                  = Ok threshold).
  { unfold dict_get in *. rewrite Hthr_key. exact Hthr. }
  pose proof (single_pair_batch predict_match now batch (VDict pair_0) threshold
                Hpairs Hthr' Hrange) as Hb.
  unfold check_pair in Hb. cbn [bind] in Hb.
  assert (Hr : dict_get pair_0 "reward_transaction" VNone
               = dict_get request "reward_transaction" VNone)
    by (unfold dict_get; rewrite Hreward; reflexivity).
  assert (Hp : dict_get pair_0 "pos_transaction" VNone
               = dict_get request "pos_transaction" VNone)
    by (unfold dict_get; rewrite Hpos; reflexivity).
  rewrite Hr, Hp in Hb.
  unfold predict_match_route, predict_body. cbn [truthy].
  destruct (decide (request = ∅)) as [-> | Hne].
  - rewrite bool_decide_eq_true_2 by reflexivity. cbn [negb].
    unfold dict_get in Hb. rewrite !lookup_empty in Hb. eauto.
  - rewrite bool_decide_eq_false_2 by exact Hne. cbn [negb bind].
    destruct (dict_get request "reward_transaction" VNone) as [| | | | | |reward_txn];
      try (eexists; exact Hb).
    destruct (dict_get request "pos_transaction" VNone) as [| | | | | |pos_txn];
      try (eexists; exact Hb).
    pose proof (validate_tx_names reward_txn "reward_transaction"
                  ("reward_transaction[" ++ str_of_int (Z.of_nat 0) ++ "]")) as Hvr.
    destruct (validate_tx reward_txn "reward_transaction") as [reward_ok|[m|m|m]];
      cbn [bind]; try contradiction.
    + rewrite Hvr in Hb. cbn [bind] in Hb.
      pose proof (validate_tx_names pos_txn "pos_transaction"
                    ("pos_transaction[" ++ str_of_int (Z.of_nat 0) ++ "]")) as Hvp.
      destruct (validate_tx pos_txn "pos_transaction") as [pos_ok|[m|m|m]];
        cbn [bind]; try contradiction.
      * rewrite Hvp in Hb. cbn [bind fst snd] in Hb.
        rewrite Hthr. cbn [try_except_tv bind]. rewrite Hrange. cbn [negb].
        destruct (engineer_features_spec reward_ok pos_ok) as (features & Hf & _).
        unfold score_pair in Hb.
        rewrite (predict_match_result now reward_ok pos_ok threshold features Hf) in *.
        exact Hb.
      * destruct Hvp as [msg Hvp]. rewrite Hvp in Hb. cbn [bind] in Hb. eauto.
      * rewrite Hvp in Hb. cbn [bind] in Hb. eauto.
    + destruct Hvr as [msg Hvr]. rewrite Hvr in Hb. cbn [bind] in Hb. eauto.
    + rewrite Hvr in Hb. cbn [bind] in Hb. eauto.
Qed.

(** A dict that holds a key is truthy. *)
Lemma truthy_dict_with_key (d : gmap string value) (key : string) (v : value) :
  d !! key = Some v -> truthy (VDict d) = true.
Proof.
  intros Hk. cbn [truthy]. apply negb_true_iff, bool_decide_eq_false. intros ->.
  rewrite lookup_empty in Hk. discriminate.
Qed.

(** X15: the two handlers check a request in different orders.  When the
    reward record lacks a required field and the threshold is no number or
    lies outside [0, 1], [/predict] answers 400 naming the first missing
    field of the reward record and says nothing of the threshold, whereas
    [/batch-predict] answers 400 with the threshold's message whatever its
    pairs are: it has not looked at them. *)
Theorem handlers_check_in_different_orders (score : scorer) (now : datetime)
    (clock : nat -> datetime) (request batch reward_txn pos_txn : gmap string value)
    (pairs : list value) (field : string) :
  request !! "reward_transaction" = Some (VDict reward_txn) ->
  request !! "pos_transaction" = Some (VDict pos_txn) ->
  In field required_fields ->
  reward_txn !! field = None ->
  batch !! "transaction_pairs" = Some (VList pairs) ->
  batch !! "threshold" = request !! "threshold" ->
  match py_float (dict_get request "threshold" (VFloat (Finite (95 # 100)))) with
  | Ok t => pf_leb (Finite 0) t && pf_leb t (Finite 1) = false
  | Raise (Exception _) => False
  | Raise _ => True
  end ->
  (exists missing,
     In missing required_fields /\ reward_txn !! missing = None
     /\ predict_match_route (Some score) now (VDict request)
        = PredictFailure 400 ("reward_transaction." ++ missing ++ " is required")
            "validation_error")
  /\ (batch_predict (Some score) clock (VDict batch)
      = Failure 400 "threshold must be a number" "validation_error"
      \/ batch_predict (Some score) clock (VDict batch)
         = Failure 400 "threshold must be between 0 and 1" "validation_error").
Proof.
  intros Hreward Hpos Hin Hnone Hpairs Hthr_key Hthr. split.
  - destruct (require_fields_first_missing reward_txn "reward_transaction" field
                required_fields Hin Hnone) as (missing & Hm & Hn & Hreq).
    exists missing. split; [exact Hm|]. split; [exact Hn|].
    unfold predict_match_route, predict_body.
    rewrite (truthy_dict_with_key _ _ _ Hreward). cbn [negb bind].
    assert (Hgr : dict_get request "reward_transaction" VNone = VDict reward_txn)
      by (unfold dict_get; rewrite Hreward; reflexivity).
    assert (Hgp : dict_get request "pos_transaction" VNone = VDict pos_txn)
      by (unfold dict_get; rewrite Hpos; reflexivity).
    rewrite Hgr, Hgp. unfold validate_tx at 1. rewrite Hreq. reflexivity.
  - unfold batch_predict, batch_body.
    rewrite (truthy_dict_with_key _ _ _ Hpairs). cbn [negb bind].
    assert (Hget : dict_get batch "transaction_pairs" VNone = VList pairs)
      by (unfold dict_get; rewrite Hpairs; reflexivity).
    rewrite Hget. cbn [bind].
    assert (Hd : dict_get batch "threshold" (VFloat (Finite (95 # 100)))
                 = dict_get request "threshold" (VFloat (Finite (95 # 100))))
      by (unfold dict_get; rewrite Hthr_key; reflexivity).
    rewrite Hd.
    destruct (py_float (dict_get request "threshold" (VFloat (Finite (95 # 100)))))
      as [t|[m|m|m]]; cbn [try_except_tv bind]; try contradiction.
    + rewrite Hthr. cbn [negb]. right. reflexivity.
    + left. reflexivity.
    + left. reflexivity.
Qed.

End PredictRoute.

(** [predict_agrees_with_single_pair_batch] on the sample pair. *)
Lemma predict_agrees_witness :
  exists result summary info,
    @predict_match_route sample_runtime (Some (@predict_match sample_runtime)) noon
      (VDict sample_request)
    = PredictOk result
    /\ @batch_predict sample_runtime (Some (@predict_match sample_runtime))
         (fun _ => noon) (VDict sample_batch_ok)
       = Success [Scored 0 result] summary info.
Proof.
  assert (H1 : sample_batch_ok !! "transaction_pairs" = Some (VList [VDict sample_request]))
    by (vm_compute; reflexivity).
  assert (H2 : sample_batch_ok !! "threshold" = sample_request !! "threshold")
    by (vm_compute; reflexivity).
  assert (H3 : @py_float sample_runtime
                 (dict_get sample_request "threshold" (VFloat (Finite (95 # 100))))
               = Ok default_threshold)
    by (vm_compute; reflexivity).
  pose proof (@predict_agrees_with_single_pair_batch sample_runtime noon sample_request
                sample_batch_ok sample_request default_threshold
                H1 H2 eq_refl eq_refl H3 eq_refl) as Hagree.
  assert (Hex : exists result,
            @predict_match_route sample_runtime (Some (@predict_match sample_runtime)) noon
              (VDict sample_request)
            = PredictOk result)
    by (eexists; vm_compute; reflexivity).
  destruct Hex as [result Hres]. rewrite Hres in Hagree.
  destruct Hagree as (summary & info & Hb).
  exists result, summary, info. split; [exact Hres | exact Hb].
Defined.

(** [handlers_check_in_different_orders] on the sample pair without the
    reward record's [service], sent with threshold 1.5. *)
Lemma handlers_check_in_different_orders_witness :
  @predict_match_route sample_runtime (Some (@predict_match sample_runtime)) noon
    (VDict (with_threshold (3 # 2) incomplete_request))
  = PredictFailure 400 "reward_transaction.service is required" "validation_error"
  /\ @batch_predict sample_runtime (Some (@predict_match sample_runtime))
       (fun _ => noon) (VDict (with_threshold (3 # 2) sample_batch))
     = Failure 400 "threshold must be between 0 and 1" "validation_error".
Proof.
  destruct (@handlers_check_in_different_orders sample_runtime
              (@predict_match sample_runtime) noon (fun _ => noon)
              (with_threshold (3 # 2) incomplete_request)
              (with_threshold (3 # 2) sample_batch)
              (delete "service" sample_reward) sample_pos
              [pair_of sample_reward sample_pos;
               pair_of sample_reward (delete "service" sample_pos)]
              "service")
    as [(missing & _ & _ & Hp) Hb]; try (vm_compute; reflexivity).
  - right. left. reflexivity.
  - split; [vm_compute; reflexivity|].
    destruct Hb as [Hb | Hb]; [vm_compute in Hb; discriminate Hb | exact Hb].
Defined.

(** * Further properties of the knowledge base and the chatbot *)

(** ** The ranking of [KnowledgeBase.search] *)

Lemma insert_by_score_perm (r : search_result) (sorted : list search_result) :
  Permutation (insert_by_score r sorted) (r :: sorted).
Proof.
  induction sorted as [|x rest IH]; cbn [insert_by_score]; [reflexivity|].
  destruct (r_score r <? r_score x)%Z; [|reflexivity].
  rewrite IH. apply perm_swap.
Qed.

Lemma sort_by_score_perm (results : list search_result) :
  Permutation (sort_by_score results) results.
Proof.
  unfold sort_by_score. induction results as [|r rest IH]; cbn [foldr]; [reflexivity|].
  rewrite insert_by_score_perm, IH. reflexivity.
Qed.

Lemma insert_by_score_sorted (r : search_result) (sorted : list search_result) :
  StronglySorted (fun a b => (r_score b <= r_score a)%Z) sorted ->
  StronglySorted (fun a b => (r_score b <= r_score a)%Z) (insert_by_score r sorted).
Proof.
  induction sorted as [|x rest IH]; intros Hs; cbn [insert_by_score].
  - constructor; constructor.
  - apply StronglySorted_inv in Hs. destruct Hs as [Hrest Hx].
    destruct (r_score r <? r_score x)%Z eqn:Hlt.
    + apply Z.ltb_lt in Hlt. constructor; [exact (IH Hrest)|].
      eapply Permutation_Forall; [symmetry; apply insert_by_score_perm|].
      constructor; [lia | exact Hx].
    + apply Z.ltb_ge in Hlt. constructor; [constructor; assumption|].
      constructor; [exact Hlt|].
      eapply Forall_impl; [exact Hx|]. cbn beta. intros y Hy. lia.
Qed.

Lemma sort_by_score_sorted (results : list search_result) :
  StronglySorted (fun a b => (r_score b <= r_score a)%Z) (sort_by_score results).
Proof.
  unfold sort_by_score. induction results as [|r rest IH]; cbn [foldr].
  - constructor.
  - apply insert_by_score_sorted, IH.
Qed.

(** The sort is stable: the entries of one score keep their order. *)
Lemma insert_by_score_stable (k : Z) (r : search_result) (sorted : list search_result) :
  filter (fun x => r_score x = k) (insert_by_score r sorted)
  = filter (fun x => r_score x = k) (r :: sorted).
Proof.
  induction sorted as [|x rest IH]; cbn [insert_by_score]; [reflexivity|].
  destruct (r_score r <? r_score x)%Z eqn:Hlt; [|reflexivity].
  apply Z.ltb_lt in Hlt.
  rewrite (filter_cons _ x), IH, !filter_cons.
  destruct (decide (r_score x = k)), (decide (r_score r = k)); try reflexivity. lia.
Qed.

Lemma sort_by_score_stable (k : Z) (results : list search_result) :
  filter (fun x => r_score x = k) (sort_by_score results)
  = filter (fun x => r_score x = k) results.
Proof.
  unfold sort_by_score. induction results as [|r rest IH]; cbn [foldr]; [reflexivity|].
  rewrite insert_by_score_stable, !filter_cons, IH. reflexivity.
Qed.

(** A slice [l[:n]] is a prefix of [l]. *)
Lemma slice_to_prefix {A : Type} (n : Z) (l : list A) :
  exists rest, l = (slice_to n l ++ rest)%list.
Proof.
  unfold slice_to. destruct (0 <=? n)%Z; eexists; symmetry; apply take_drop.
Qed.

Lemma slice_to_length {A : Type} (n : Z) (l : list A) :
  (0 <= n)%Z -> length (slice_to n l) = Nat.min (Z.to_nat n) (length l).
Proof.
  intros Hn. unfold slice_to. rewrite (proj2 (Z.leb_le 0 n) Hn). apply length_take.
Qed.

(** The entries of [score_documents]: the documents that hold a word of
    the query, each with its count. *)
Lemma count_words_bounds (query_words : list string) (text : string) :
  (0 <= count_words query_words text <= Z.of_nat (length query_words))%Z.
Proof.
  unfold count_words. pose proof (length_filter (fun word => contains word text) query_words).
  lia.
Qed.

Lemma In_score_documents (query_words : list string) (documents : list document)
    (r : search_result) :
  In r (score_documents query_words documents)
  <-> exists doc,
        In doc documents
        /\ (0 < count_words query_words (lower (content doc)))%Z
        /\ r = mk_search_result (count_words query_words (lower (content doc)))
                 (filepath doc) (content doc).
Proof.
  induction documents as [|d rest IH]; cbn [score_documents].
  - split; [intros [] | intros (doc & [] & _)].
  - cbv zeta. destruct (0 <? count_words query_words (lower (content d)))%Z eqn:Hpos.
    + apply Z.ltb_lt in Hpos. cbn [In]. rewrite IH. split.
      * intros [<- | (doc & Hin & Hc & ->)]; [exists d | exists doc]; auto.
      * intros (doc & [<- | Hin] & Hc & ->); [left; reflexivity | right; eauto].
    + apply Z.ltb_ge in Hpos. rewrite IH. split.
      * intros (doc & Hin & Hc & ->). exists doc. cbn [In]. auto.
      * intros (doc & [<- | Hin] & Hc & ->); [lia | eauto].
Qed.

Lemma score_documents_length (query_words : list string) (documents : list document) :
  (length (score_documents query_words documents) <= length documents)%nat.
Proof.
  induction documents as [|d rest IH]; cbn [score_documents length]; [lia|].
  cbv zeta. destruct (0 <? _)%Z; cbn [length]; lia.
Qed.

(** The documents behind the entries, in loading order. *)
Lemma score_documents_sublist (query_words : list string) (documents : list document) :
  sublist ((fun r => mk_document (r_filepath r) (r_content r))
             <$> score_documents query_words documents)
    documents.
Proof.
  induction documents as [|d rest IH]; cbn [score_documents]; [constructor|].
  cbv zeta. destruct (0 <? _)%Z.
  - rewrite fmap_cons. cbn [r_filepath r_content]. destruct d as [p c].
    cbn [filepath content] in *.
    apply sublist_skip, IH.
  - apply sublist_cons, IH.
Qed.

Lemma lower_char_idem (c : ascii) : lower_char (lower_char c) = lower_char c.
Proof.
  destruct c as [[] [] [] [] [] [] [] []]; vm_compute; reflexivity.
Qed.

Lemma lower_idem (s : string) : lower (lower s) = lower s.
Proof.
  induction s as [|c r IH]; cbn [lower]; [reflexivity|].
  rewrite lower_char_idem, IH. reflexivity.
Qed.

Lemma sorted_app {A : Type} (R : A -> A -> Prop) (l1 l2 : list A) :
  StronglySorted R (l1 ++ l2) ->
  StronglySorted R l1 /\ forall a b, In a l1 -> In b l2 -> R a b.
Proof.
  induction l1 as [|x l1 IH]; cbn [app]; intros Hs.
  - split; [constructor | intros a b []].
  - apply StronglySorted_inv in Hs. destruct Hs as [Hs Hx].
    destruct (IH Hs) as [Hl1 Hcross]. apply Forall_app in Hx. destruct Hx as [Hx1 Hx2].
    split; [constructor; assumption|].
    intros a b [<- | Ha] Hb; [|exact (Hcross a b Ha Hb)].
    rewrite Forall_forall in Hx2. apply Hx2, list_elem_of_In, Hb.
Qed.

Lemma sorted_lookup {A : Type} (R : A -> A -> Prop) (l : list A) :
  StronglySorted R l ->
  forall i j a b, (i < j)%nat -> l !! i = Some a -> l !! j = Some b -> R a b.
Proof.
  induction l as [|x l IH]; intros Hs i j a b Hij Hi Hj; [discriminate|].
  apply StronglySorted_inv in Hs. destruct Hs as [Hs Hx].
  destruct j as [|j]; [lia|]. cbn in Hj. destruct i as [|i].
  - cbn in Hi. assert (a = x) as -> by congruence.
    rewrite Forall_lookup in Hx. exact (Hx j b Hj).
  - cbn in Hi. apply (IH Hs i j); [lia | assumption | assumption].
Qed.

Lemma score_documents_no_words (documents : list document) :
  score_documents [] documents = [].
Proof.
  induction documents as [|d rest IH]; cbn [score_documents]; [reflexivity|].
  exact IH.
Qed.

(** A query without a word finds nothing. *)
Lemma search_without_words (documents : list document) (query : string) (top_n : Z) :
  split_ws (lower query) = [] -> search documents query top_n = [].
Proof.
  intros Hq. unfold search. cbv zeta. rewrite Hq, score_documents_no_words.
  unfold slice_to. cbn [sort_by_score foldr]. rewrite !take_nil.
  destruct (0 <=? top_n)%Z; reflexivity.
Qed.

(** X16: what [KnowledgeBase.search] returns was found.  Every entry is
    a loaded document, with its path and its content as loaded, that holds
    at least one word of the query, and its score is the number of query
    words (repeated words counted again) found in the lower-cased content;
    there are no more entries than documents, and no more than [top_n] when
    that is not negative; a query without a word finds nothing; and the
    letter case of the query makes no difference. *)
Theorem search_results_sound (documents : list document) (query : string) (top_n : Z) :
  let query_words := split_ws (lower query) in
  (forall r, In r (search documents query top_n) ->
     (1 <= r_score r <= Z.of_nat (length query_words))%Z
     /\ exists doc,
          In doc documents
          /\ r_filepath r = filepath doc /\ r_content r = content doc
          /\ r_score r = count_words query_words (lower (content doc)))
  /\ (length (search documents query top_n) <= length documents)%nat
  /\ ((0 <= top_n)%Z -> (length (search documents query top_n) <= Z.to_nat top_n)%nat)
  /\ (query_words = [] -> search documents query top_n = [])
  /\ search documents (lower query) top_n = search documents query top_n.
Proof.
  intros query_words. unfold search. cbv zeta. fold query_words.
  set (found := score_documents query_words documents).
  destruct (slice_to_prefix top_n (sort_by_score found)) as [rest Hrest].
  assert (Hin : forall r, In r (slice_to top_n (sort_by_score found)) -> In r found).
  { intros r Hr. apply list_elem_of_In. rewrite <- (sort_by_score_perm found), Hrest.
    apply elem_of_app. left. apply list_elem_of_In, Hr. }
  assert (Hlen : (length (slice_to top_n (sort_by_score found)) <= length found)%nat).
  { rewrite <- (Permutation_length (sort_by_score_perm found)).
    rewrite Hrest at 2. rewrite length_app. lia. }
  split; [|split; [|split; [|split]]].
  - intros r Hr. apply Hin, In_score_documents in Hr.
    destruct Hr as (doc & Hdoc & Hpos & ->). cbn [r_score r_filepath r_content].
    pose proof (count_words_bounds query_words (lower (content doc))).
    split; [lia|]. exists doc. auto.
  - etransitivity; [exact Hlen | apply score_documents_length].
  - intros Hn. rewrite (slice_to_length _ _ Hn). lia.
  - intros Hq. exact (search_without_words documents query top_n Hq).
  - rewrite lower_idem. reflexivity.
Qed.

(** X17: [KnowledgeBase.search] ranks what it found.  The entries come by
    decreasing score; entries of one score stand in the order in which
    their documents were loaded; and with a [top_n] that is not negative
    nothing better was left out: a document that holds a word of the query
    is among the entries, or there are exactly [top_n] entries and each
    scores at least what that document scores. *)
Theorem search_ranking (documents : list document) (query : string) (top_n : Z) :
  let query_words := split_ws (lower query) in
  let results := search documents query top_n in
  (forall i j a b, (i < j)%nat -> results !! i = Some a -> results !! j = Some b ->
     (r_score b <= r_score a)%Z)
  /\ (forall k,
        sublist ((fun r => mk_document (r_filepath r) (r_content r))
                   <$> filter (fun r => r_score r = k) results)
          documents)
  /\ ((0 <= top_n)%Z ->
      forall doc,
        In doc documents ->
        (0 < count_words query_words (lower (content doc)))%Z ->
        In (mk_search_result (count_words query_words (lower (content doc)))
              (filepath doc) (content doc)) results
        \/ (length results = Z.to_nat top_n
            /\ forall r, In r results ->
                 (count_words query_words (lower (content doc)) <= r_score r)%Z)).
Proof.
  intros query_words results. unfold results, search. cbv zeta. fold query_words.
  set (found := score_documents query_words documents).
  destruct (slice_to_prefix top_n (sort_by_score found)) as [rest Hrest].
  pose proof (sort_by_score_sorted found) as Hsorted. rewrite Hrest in Hsorted.
  apply sorted_app in Hsorted. destruct Hsorted as [Hsorted Hcross].
  split; [|split].
  - intros i j a b Hij Hi Hj.
    exact (sorted_lookup _ _ Hsorted i j a b Hij Hi Hj).
  - intros k.
    transitivity ((fun r => mk_document (r_filepath r) (r_content r)) <$> found);
      [|apply score_documents_sublist].
    apply fmap_sublist.
    transitivity (filter (fun r => r_score r = k) found); [|apply sublist_filter].
    rewrite <- (sort_by_score_stable k found). rewrite Hrest at 2.
    rewrite filter_app. apply sublist_inserts_r. reflexivity.
  - intros Hn doc Hdoc Hpos.
    set (r0 := mk_search_result (count_words query_words (lower (content doc)))
                 (filepath doc) (content doc)).
    assert (Hr0 : In r0 found) by (apply In_score_documents; exists doc; auto).
    apply list_elem_of_In in Hr0. rewrite <- (sort_by_score_perm found), Hrest in Hr0.
    apply elem_of_app in Hr0. destruct Hr0 as [Hr0 | Hr0].
    + left. apply list_elem_of_In, Hr0.
    + right. apply list_elem_of_In in Hr0. split.
      * rewrite (slice_to_length _ _ Hn).
        assert (Hlen : length (sort_by_score found)
                       = (length (slice_to top_n (sort_by_score found)) + length rest)%nat)
          by (rewrite Hrest at 1; apply length_app).
        rewrite (slice_to_length _ _ Hn) in Hlen.
        destruct rest; [destruct Hr0 | cbn [length] in Hlen; lia].
      * intros r Hr. exact (Hcross r r0 Hr Hr0).
Qed.

(** ** The answer of the chatbot *)

(** The last part of [s.split(sep)]: the whole of [s] when it has no
    separator, else what follows the last one. *)
Lemma split_on_last (sep : ascii) (s : string) :
  exists parts name,
    split_on sep s = (parts ++ [name])%list
    /\ char_in sep name = false
    /\ (parts = [] /\ name = s
        \/ parts <> [] /\ exists front, s = front ++ String sep name).
Proof.
  induction s as [|c r IH].
  - exists [], EmptyString. repeat split. left. split; reflexivity.
  - destruct IH as (parts & name & Hsplit & Hname & Hcase).
    cbn [split_on]. destruct (Ascii.eqb c sep) eqn:E.
    + apply Ascii.eqb_eq in E. subst c.
      exists (EmptyString :: parts), name.
      split; [rewrite Hsplit; reflexivity|]. split; [exact Hname|].
      right. split; [discriminate|].
      destruct Hcase as [[_ ->] | [_ [front ->]]].
      * exists EmptyString. reflexivity.
      * exists (String sep front). reflexivity.
    + rewrite Hsplit. destruct parts as [|w ps]; cbn [app].
      * exists [], (String c name). split; [reflexivity|].
        split; [cbn [char_in]; rewrite Ascii.eqb_sym, E, Hname; reflexivity|].
        left. destruct Hcase as [[_ ->] | [Hne _]];
          [split; reflexivity | destruct (Hne eq_refl)].
      * exists (String c w :: ps), name. split; [reflexivity|]. split; [exact Hname|].
        right. split; [discriminate|].
        destruct Hcase as [[Hnil _] | [_ [front ->]]]; [discriminate|].
        exists (String c front). reflexivity.
Qed.

Lemma index_last_app {A : Type} (l : list A) (x : A) : index_last (l ++ [x]) = Ok x.
Proof. unfold index_last. rewrite rev_unit. reflexivity. Qed.

(** The names shown for the entries: never an exception, one name per
    entry, each the part of the path after its last slash. *)
Lemma file_names_spec (relevant_docs : list search_result) :
  exists names,
    file_names relevant_docs = Ok names
    /\ Forall2 (fun doc name =>
                  char_in "/" name = false
                  /\ (char_in "/" (r_filepath doc) = false /\ name = r_filepath doc
                      \/ exists front, r_filepath doc = front ++ String "/" name))
         relevant_docs names.
Proof.
  induction relevant_docs as [|doc rest IH]; cbn [file_names].
  - exists []. split; [reflexivity | constructor].
  - destruct IH as (names & Hnames & Hall).
    destruct (split_on_last "/" (r_filepath doc))
      as (parts & name & Hsplit & Hname & Hcase).
    rewrite Hsplit, index_last_app. cbn [bind]. rewrite Hnames. cbn [bind].
    exists (name :: names). split; [reflexivity|]. constructor; [|exact Hall].
    split; [exact Hname|].
    destruct Hcase as [[_ ->] | [_ Hfront]]; [left; split; [exact Hname | reflexivity]|].
    right. exact Hfront.
Qed.

(** No word of the list is found in the text. *)
Lemma count_words_zero (query_words : list string) (text : string) :
  count_words query_words text = 0%Z
  <-> forall word, In word query_words -> contains word text = false.
Proof.
  unfold count_words. induction query_words as [|w ws IH].
  - cbn. split; [intros _ word [] | reflexivity].
  - rewrite length_filter_cons. destruct (contains w text) eqn:Hw.
    + split; [intros Hc; lia|]. intros Hall.
      specialize (Hall w (or_introl eq_refl)). congruence.
    + cbn [Nat.add]. rewrite IH. split.
      * intros Hall word [<- | Hin]; [exact Hw | exact (Hall word Hin)].
      * intros Hall word Hin. apply Hall. right. exact Hin.
Qed.

(** [search] finds nothing exactly when no document holds a word of the
    query, provided something may be returned. *)
Lemma search_nothing (documents : list document) (query : string) (top_n : Z) :
  (0 < top_n)%Z ->
  search documents query top_n = []
  <-> forall doc word,
        In doc documents -> In word (split_ws (lower query)) ->
        contains word (lower (content doc)) = false.
Proof.
  intros Hn. unfold search. cbv zeta.
  set (query_words := split_ws (lower query)).
  set (found := score_documents query_words documents).
  assert (Hfound : found = []
                   <-> forall doc, In doc documents ->
                         count_words query_words (lower (content doc)) = 0%Z).
  { split.
    - intros Hnil doc Hdoc.
      pose proof (count_words_bounds query_words (lower (content doc))) as Hb.
      destruct (Z.eq_dec (count_words query_words (lower (content doc))) 0%Z) as [E|E];
        [exact E|].
      assert (Hin : In (mk_search_result (count_words query_words (lower (content doc)))
                          (filepath doc) (content doc)) found)
        by (apply In_score_documents; exists doc; repeat split; [exact Hdoc | lia]).
      rewrite Hnil in Hin. destruct Hin.
    - intros Hall. destruct found as [|r0 rs] eqn:Hf; [reflexivity|].
      assert (Hr0 : In r0 (score_documents query_words documents))
        by (fold found; rewrite Hf; left; reflexivity).
      apply In_score_documents in Hr0. destruct Hr0 as (doc & Hdoc & Hpos & _).
      rewrite (Hall doc Hdoc) in Hpos. lia. }
  assert (Hslice : slice_to top_n (sort_by_score found) = [] <-> found = []).
  { pose proof (Permutation_length (sort_by_score_perm found)) as Hlen.
    pose proof (slice_to_length top_n (sort_by_score found) ltac:(lia)) as Hs.
    split; intros Hnil.
    - rewrite Hnil in Hs. cbn [length] in Hs.
      destruct found; [reflexivity | cbn [length] in Hlen; lia].
    - rewrite Hnil. unfold slice_to. cbn [sort_by_score foldr]. rewrite !take_nil.
      destruct (0 <=? top_n)%Z; reflexivity. }
  rewrite Hslice, Hfound. split.
  - intros Hall doc word Hdoc Hword.
    exact (proj1 (count_words_zero _ _) (Hall doc Hdoc) word Hword).
  - intros Hall doc Hdoc. apply count_words_zero. intros word Hword.
    exact (Hall doc word Hdoc Hword).
Qed.

(** X18: [Chatbot.generate_response] never raises.  It answers with the
    apology exactly when no loaded document holds a word of the query, in
    its lower-cased content; otherwise it quotes the query and lists one
    name for each of the at most three best entries of the search, the name
    being the part of the document's path after its last slash (the whole
    path when it has none). *)
Theorem generate_response_cases (documents : list document) (query : string) :
  let found := search documents query 3 in
  exists response,
    generate_response documents query = Ok response
    /\ (response = no_information
        <-> forall doc word,
              In doc documents -> In word (split_ws (lower query)) ->
              contains word (lower (content doc)) = false)
    /\ (found <> [] ->
        exists names,
          response
          = "Based on the documentation, regarding " ++ double_quote ++ query
            ++ double_quote ++ ", I found the following information:"
            ++ newline ++ newline ++ "Relevant documents: " ++ join ", " names ++ "."
            ++ newline ++ newline
            ++ "Please refer to the documentation for more details. If you have a specific question about this information, let me know!"
          /\ (1 <= length names <= 3)%nat
          /\ Forall2 (fun doc name =>
                        char_in "/" name = false
                        /\ (char_in "/" (r_filepath doc) = false
                            /\ name = r_filepath doc
                            \/ exists front, r_filepath doc = front ++ String "/" name))
               found names).
Proof.
  intros found. pose proof (search_nothing documents query 3 ltac:(lia)) as Hnothing.
  fold found in Hnothing. unfold generate_response. cbv zeta. fold found.
  destruct (file_names_spec found) as (names & Hnames & Hall).
  destruct found as [|r0 rs] eqn:Hfound.
  - exists no_information. split; [reflexivity|].
    split; [|intros Hne; destruct (Hne eq_refl)].
    split; [intros _; apply Hnothing; reflexivity | reflexivity].
  - rewrite Hnames. cbn [bind]. eexists. split; [reflexivity|]. split.
    + split; [intros Hresp; discriminate Hresp|].
      intros Hnone. apply Hnothing in Hnone. discriminate Hnone.
    + intros _. exists names. split; [reflexivity|]. split; [|exact Hall].
      pose proof (Forall2_length _ _ _ Hall) as Hlen. rewrite <- Hlen.
      assert (Hthree : (length (r0 :: rs) <= 3)%nat).
      { rewrite <- Hfound. unfold found, search. cbv zeta.
        rewrite slice_to_length by lia. lia. }
      cbn [length] in *. lia.
Qed.

(** X19: [/chatbot] answers 200 exactly on an object whose [query] is a
    string, and then with what [generate_response] says, the apology for an
    empty string included; it answers 400 when the body is empty or an
    object without [query]; and an object whose [query] is not a string
    gets 500, not 400. *)
Theorem chatbot_query_status (documents : list document) (data : value) :
  (forall d query,
     data = VDict d -> d !! "query" = Some (VStr query) ->
     exists response,
       generate_response documents query = Ok response
       /\ chatbot_query documents data = ChatOk response)
  /\ (forall response,
        chatbot_query documents data = ChatOk response ->
        exists d query, data = VDict d /\ d !! "query" = Some (VStr query))
  /\ (forall d,
        data = VDict d -> d !! "query" = Some (VStr EmptyString) ->
        chatbot_query documents data = ChatOk no_information)
  /\ (truthy data = false
      \/ (exists d, data = VDict d /\ d !! "query" = None) ->
      chatbot_query documents data
      = ChatFailure 400 "No query provided" "validation_error")
  /\ (forall d v,
        data = VDict d -> d !! "query" = Some v -> (forall query, v <> VStr query) ->
        chatbot_query documents data
        = ChatFailure 500 "Internal server error" "internal_server_error").
Proof.
  assert (Hstr : forall d query,
            d !! "query" = Some (VStr query) ->
            chatbot_body documents (VDict d) = generate_response documents query).
  { intros d query Hq. unfold chatbot_body.
    rewrite (truthy_dict_with_key _ _ _ Hq). cbn [negb has_query get_query bind].
    rewrite Hq. reflexivity. }
  split; [|split; [|split; [|split]]].
  - intros d query -> Hq.
    destruct (file_names_spec (search documents query 3)) as (names & Hnames & _).
    assert (Hresp : exists response, generate_response documents query = Ok response).
    { unfold generate_response. cbv zeta.
      destruct (search documents query 3); [eauto|]. rewrite Hnames. cbn [bind]. eauto. }
    destruct Hresp as [response Hresp].
    exists response. split; [exact Hresp|].
    unfold chatbot_query. rewrite (Hstr d query Hq), Hresp. reflexivity.
  - intros response Hresp. unfold chatbot_query in Hresp.
    destruct (chatbot_body documents data) as [text|[m|m|m]] eqn:Hbody; try discriminate.
    unfold chatbot_body in Hbody.
    destruct (negb (truthy data)); [discriminate|].
    destruct data as [| | | |s|l|d]; cbn [has_query get_query bind] in Hbody;
      try discriminate.
    + destruct (negb (contains "query" s)); discriminate.
    + destruct (negb (existsb _ l)); discriminate.
    + destruct (d !! "query") as [v|] eqn:Hq; cbn [negb bind] in Hbody; [|discriminate].
      destruct v; try discriminate. eauto.
  - intros d -> Hq. unfold chatbot_query. rewrite (Hstr d EmptyString Hq).
    unfold generate_response. cbv zeta.
    rewrite (search_without_words documents EmptyString 3 eq_refl). reflexivity.
  - intros [Hfalsy | (d & -> & Hq)]; unfold chatbot_query, chatbot_body.
    + rewrite Hfalsy. reflexivity.
    + destruct (negb (truthy (VDict d))); [reflexivity|].
      cbn [has_query bind]. rewrite Hq. reflexivity.
  - intros d v -> Hq Hv. unfold chatbot_query, chatbot_body.
    rewrite (truthy_dict_with_key _ _ _ Hq). cbn [negb has_query get_query bind].
    rewrite Hq. cbn [negb bind].
    destruct v; try reflexivity. destruct (Hv s eq_refl).
Qed.

(** The sample request against the two sample documents: the document with
    three of the four words comes before the one with a single word, and
    each is shown by the last part of its path. *)
Example sample_chat_names :
  file_names (search sample_documents "Deployment of reconciliation transactions" 3)
  = Ok ["DEPLOYMENT.md"; "README.md"].
Proof. vm_compute. reflexivity. Qed.

Example sample_chat_answer :
  exists response,
    chatbot_query sample_documents sample_chat = ChatOk response
    /\ contains "Relevant documents: DEPLOYMENT.md, README.md." response = true.
Proof. eexists. split; vm_compute; reflexivity. Qed.
